(** * Meeting-transcript orchestrator: a shallow embedding and its properties

    The development follows the Python sources of the repository:

    - [agents/jira_agent.py]      ticket creation tool ([create_jira_ticket]);
    - [agents/meetings_agent.py]  calendar tool ([create_meeting_ics]);
    - [agents/email_agent.py]     notification tool ([send_sns_email]);
    - [agents/orchestrator.py]    the coordinator ([OrchestratorAgent]);
    - [app.py]                    the invocation entrypoint ([agent_invocation]);
    - [deployment/env_utils.py]   the sections of the environment file
                                  ([update_env_section], [read_env_section],
                                  [get_all_env_vars]);
    - [test_runtime.py]           the configuration of the test client
                                  ([load_configuration]).

    Python text is modelled by [string] (ASCII text), Python integers by [Z],
    exceptions by an explicit [outcome] type, and every effect (random numbers,
    the clock, the remote services, the files, mutable object fields) by explicit state
    passing.  The first part holds the definitions, the second the theorems. *)

From Stdlib Require Import ZArith Lia List String Ascii Bool DecimalString Floats.
Import ListNotations.

Open Scope string_scope.
Open Scope Z_scope.

(* ================================================================== *)
(** * Part I: definitions                                               *)
(* ================================================================== *)

(** ** Python runtime: exceptions and text *)

Module Py.

(** Instances of [Exception]: the class and the text of [str(e)]. *)
Inductive exn_class : Type :=
| ValueError
| OverflowError
| TypeError
| AttributeError
| KeyError
| OtherException (name : string).

Record exn : Type := mk_exn { exn_cls : exn_class; exn_str : string }.

(** A call either returns a value or raises. *)
Inductive outcome (A : Type) : Type :=
| Return (a : A)
| Raise (e : exn).
Arguments Return {A} a.
Arguments Raise {A} e.

Definition returns {A} (o : outcome A) : bool :=
  match o with Return _ => true | Raise _ => false end.

(** The line feed, written [\n] in the sources. *)
Definition nl : string := String (ascii_of_nat 10) "".

(** [str.isspace] on one ASCII character: TAB..CR, FS..US and the space. *)
Definition isspace (c : ascii) : bool :=
  let n := Z.of_nat (nat_of_ascii c) in
  ((9 <=? n) && (n <=? 13)) || ((28 <=? n) && (n <=? 32)).

Definition isdigit (c : ascii) : bool :=
  let n := Z.of_nat (nat_of_ascii c) in (48 <=? n) && (n <=? 57).

Definition in_range (lo hi : ascii) (c : ascii) : bool :=
  (Z.of_nat (nat_of_ascii lo) <=? Z.of_nat (nat_of_ascii c))
  && (Z.of_nat (nat_of_ascii c) <=? Z.of_nat (nat_of_ascii hi)).

Definition is_empty (s : string) : bool :=
  match s with EmptyString => true | String _ _ => false end.

Fixpoint lstrip (s : string) : string :=
  match s with
  | EmptyString => EmptyString
  | String c t => if isspace c then lstrip t else s
  end.

Fixpoint rstrip (s : string) : string :=
  match s with
  | EmptyString => EmptyString
  | String c t =>
      let t' := rstrip t in
      if is_empty t' && isspace c then EmptyString else String c t'
  end.

(** [s.strip()] *)
Definition strip (s : string) : string := lstrip (rstrip s).

(** Truth value of a text: [bool(s)]. *)
Definition truthy (s : string) : bool := negb (is_empty s).

(** [sep.join(parts)] *)
Definition join (sep : string) (parts : list string) : string :=
  String.concat sep parts.

(** [str(n)] for an integer. *)
Definition str_int (n : Z) : string := NilZero.string_of_int (Z.to_int n).

Fixpoint zeros (n : nat) : string :=
  match n with O => EmptyString | S k => String "0" (zeros k) end.

(** Zero padding to a minimal width, as [%0wd] does for a non-negative
    number. *)
Definition zfill (w : nat) (s : string) : string :=
  zeros (w - String.length s) ++ s.

(** [repr(s)], exact for text without quote, backslash or control
    character. *)
Definition repr (s : string) : string := "'" ++ s ++ "'".

(** [int(s)] on text made of decimal digits, with surrounding blanks
    allowed; [None] stands for the [ValueError] of other text. *)
Fixpoint digits_value (acc : Z) (s : string) : option Z :=
  match s with
  | EmptyString => Some acc
  | String c t =>
      if isdigit c
      then digits_value (10 * acc + (Z.of_nat (nat_of_ascii c) - 48)) t
      else None
  end.

Definition int_of_text (s : string) : option Z :=
  match strip s with
  | EmptyString => None
  | t => digits_value 0 t
  end.

(** Occurrences of a pattern, counted from left to right without overlap,
    as [str.count] does. *)
Fixpoint count_from (fuel : nat) (pat s : string) : nat :=
  match fuel with
  | O => O
  | S k =>
      match s with
      | EmptyString => O
      | String _ t =>
          if prefix pat s
          then S (count_from k pat
                    (substring (String.length pat)
                       (String.length s - String.length pat) s))
          else count_from k pat t
      end
  end.

Definition count (pat s : string) : nat :=
  if is_empty pat then S (String.length s)
  else count_from (String.length s) pat s.

(** [pat in s] *)
Fixpoint contains (pat s : string) : bool :=
  prefix pat s
  || match s with EmptyString => false | String _ t => contains pat t end.

(** [s.split("\n")] *)
Fixpoint split_lines (s : string) : list string :=
  match s with
  | EmptyString => [EmptyString]
  | String c t =>
      if Ascii.eqb c (ascii_of_nat 10) then EmptyString :: split_lines t
      else match split_lines t with
           | [] => [String c EmptyString]
           | l :: ls => String c l :: ls
           end
  end.

(** *** A backtracking matcher for the regular expressions of [re]

    The result of [rmatch] lists every way to match a prefix of the text, in
    the order in which the backtracking engine of [re] tries them: the
    alternatives of [|] from left to right, the greedy [+] from the longest
    run down.  Each way gives the named groups and the text left over. *)
Inductive regex : Type :=
| Eps
| Lit (c : ascii)
| Class (p : ascii -> bool)
| Seq (a b : regex)
| Alt (a b : regex)
| Plus (p : ascii -> bool)
| Group (name : ascii) (r : regex).

Definition groups : Type := list (ascii * string).

Fixpoint plus_rests (p : ascii -> bool) (s : string) : list string :=
  match s with
  | EmptyString => []
  | String c t => if p c then (plus_rests p t ++ [t])%list else []
  end.

Definition consumed (s rest : string) : string :=
  substring 0 (String.length s - String.length rest) s.

Fixpoint rmatch (r : regex) (s : string) : list (groups * string) :=
  match r with
  | Eps => [([], s)]
  | Lit c =>
      match s with
      | String c' t => if Ascii.eqb c c' then [([], t)] else []
      | EmptyString => []
      end
  | Class p =>
      match s with
      | String c' t => if p c' then [([], t)] else []
      | EmptyString => []
      end
  | Seq a b =>
      flat_map (fun m1 =>
                  map (fun m2 => ((fst m1 ++ fst m2)%list, snd m2))
                      (rmatch b (snd m1)))
               (rmatch a s)
  | Alt a b => (rmatch a s ++ rmatch b s)%list
  | Plus p => map (fun t => ([], t)) (plus_rests p s)
  | Group name r' =>
      map (fun m => ((name, consumed s (snd m)) :: fst m, snd m)) (rmatch r' s)
  end.

(** [pattern.match(s)]: the first way, if any. *)
Definition re_match (r : regex) (s : string) : option (groups * string) :=
  hd_error (rmatch r s).

(** [re.fullmatch]: some way consumes the whole text. *)
Definition re_fullmatch (r : regex) (s : string) : bool :=
  existsb (fun m => is_empty (snd m)) (rmatch r s).

Fixpoint group (name : ascii) (g : groups) : option string :=
  match g with
  | [] => None
  | (n, v) :: g' => if Ascii.eqb n name then Some v else group name g'
  end.

Definition seq_all (rs : list regex) : regex := fold_right Seq Eps rs.
Definition alt_all (r : regex) (rs : list regex) : regex := fold_left Alt rs r.
Fixpoint lit_string (s : string) : regex :=
  match s with
  | EmptyString => Eps
  | String c t => Seq (Lit c) (lit_string t)
  end.

(** *** Values of requests

    A request payload is the result of parsing JSON text: [None], a truth
    value, a number, a text, a list or a dict with text keys.  A dict is kept
    as the list of its items; a key has one item. *)
#[warnings="-register-all"]
Inductive value : Type :=
| VNone
| VBool (b : bool)
| VInt (n : Z)
| VFloat (f : float)
| VStr (s : string)
| VList (items : list value)
| VDict (items : list (string * value)).

(** [bool(v)] *)
Definition truth (v : value) : bool :=
  match v with
  | VNone => false
  | VBool b => b
  | VInt n => negb (n =? 0)
  | VFloat f => negb (PrimFloat.eqb f 0%float)
  | VStr s => negb (is_empty s)
  | VList items => match items with [] => false | _ :: _ => true end
  | VDict items => match items with [] => false | _ :: _ => true end
  end.

(** [type(v).__name__] *)
Definition type_name (v : value) : string :=
  match v with
  | VNone => "NoneType"
  | VBool _ => "bool"
  | VInt _ => "int"
  | VFloat _ => "float"
  | VStr _ => "str"
  | VList _ => "list"
  | VDict _ => "dict"
  end.

Fixpoint lookup {A} (k : string) (items : list (string * A)) : option A :=
  match items with
  | [] => None
  | (k', v) :: rest => if String.eqb k' k then Some v else lookup k rest
  end.

(** [v.get(k, default)]: only a dict has the method. *)
Definition get (v : value) (k : string) (default : value) : outcome value :=
  match v with
  | VDict items =>
      Return (match lookup k items with Some x => x | None => default end)
  | _ =>
      Raise (mk_exn AttributeError
               ("'" ++ type_name v ++ "' object has no attribute 'get'"))
  end.

(** [v[:n]] for [n >= 0]: text and lists are cut, every other value
    raises (for a dict CPython up to 3.11 gives the message below). *)
Definition slice_to (n : nat) (v : value) : outcome value :=
  match v with
  | VStr s => Return (VStr (substring 0 n s))
  | VList items => Return (VList (firstn n items))
  | VDict _ => Raise (mk_exn TypeError "unhashable type: 'slice'")
  | _ =>
      Raise (mk_exn TypeError
               ("'" ++ type_name v ++ "' object is not subscriptable"))
  end.

(** Kinds of values: a dict, and the values that [v[:n]] accepts. *)
Definition is_dict (v : value) : bool :=
  match v with VDict _ => true | _ => false end.

Definition sliceable (v : value) : bool :=
  match v with VStr _ | VList _ => true | _ => false end.

(** *** Computations with a state that may raise *)
Definition M (S A : Type) : Type := S -> outcome A * S.

Definition ret {S A} (a : A) : M S A := fun s => (Return a, s).

Definition raise {S A} (e : exn) : M S A := fun s => (Raise e, s).

Definition bind {S A B} (c : M S A) (k : A -> M S B) : M S B :=
  fun s =>
    match c s with
    | (Return a, s') => k a s'
    | (Raise e, s') => (Raise e, s')
    end.

(** [try: body  except Exception as e: handler(e)] *)
Definition try_except {S A} (body : M S A) (handler : exn -> M S A) : M S A :=
  fun s =>
    match body s with
    | (Return a, s') => (Return a, s')
    | (Raise e, s') => handler e s'
    end.

(** [l.append(x)] *)
Definition append {A} (l : list A) (x : A) : list A := (l ++ [x])%list.

(** [print(line)] on a standard output kept as the list of the texts
    printed, one per call. *)
Definition print (out : list string) (line : string) : list string :=
  (out ++ [line])%list.

(** A pure computation that may raise, run inside a state. *)
Definition lift {S A} (o : outcome A) : M S A := fun s => (o, s).

(** Every character of a text passes a test. *)
Fixpoint all_chars (p : ascii -> bool) (s : string) : bool :=
  match s with
  | EmptyString => true
  | String c t => p c && all_chars p t
  end.

Definition not_nl (c : ascii) : bool := negb (Ascii.eqb c (ascii_of_nat 10)).

(** A check of every number below a bound, for properties settled by
    evaluation. *)
Fixpoint all_below (f : Z -> bool) (k : nat) : bool :=
  match k with
  | O => true
  | S k' => f (Z.of_nat k') && all_below f k'
  end.

(** What it is for a text to match a regular expression, with the named
    groups the match gives: the meaning that [rmatch] computes. *)
Fixpoint matches (r : regex) (w : string) (g : groups) : Prop :=
  match r with
  | Eps => w = EmptyString /\ g = []
  | Lit c => w = String c EmptyString /\ g = []
  | Class p => exists c, p c = true /\ w = String c EmptyString /\ g = []
  | Seq a b =>
      exists w1 w2 g1 g2,
        w = w1 ++ w2 /\ g = (g1 ++ g2)%list
        /\ matches a w1 g1 /\ matches b w2 g2
  | Alt a b => matches a w g \/ matches b w g
  | Plus p => w <> EmptyString /\ all_chars p w = true /\ g = []
  | Group name r' => exists g', g = (name, w) :: g' /\ matches r' w g'
  end.

End Py.
Import Py.

Declare Scope py_scope.
Delimit Scope py_scope with py.
Notation "x <- c ;; k" := (bind c (fun x => k))
  (at level 61, c at next level, right associativity) : py_scope.
Notation "c ;;; k" := (bind c (fun _ => k))
  (at level 61, right associativity) : py_scope.

(** ** The [datetime] module of the standard library

    The proleptic Gregorian calendar of [datetime], the checked constructor,
    [timedelta(minutes=n)], the sum of a date-time and a duration, and
    [strptime] and [strftime] for the directives the program uses.  Messages of
    exceptions are those of CPython 3.12. *)

Module Datetime.

Definition MINYEAR : Z := 1.
Definition MAXYEAR : Z := 9999.
(** [date.max.toordinal()] *)
Definition MAXORDINAL : Z := 3652059.

Definition DAYS_IN_MONTH (month : Z) : Z :=
  match month with
  | 1 => 31 | 2 => 28 | 3 => 31 | 4 => 30 | 5 => 31 | 6 => 30
  | 7 => 31 | 8 => 31 | 9 => 30 | 10 => 31 | 11 => 30 | 12 => 31
  | _ => -1
  end.

Definition DAYS_BEFORE_MONTH (month : Z) : Z :=
  match month with
  | 1 => 0 | 2 => 31 | 3 => 59 | 4 => 90 | 5 => 120 | 6 => 151
  | 7 => 181 | 8 => 212 | 9 => 243 | 10 => 273 | 11 => 304 | 12 => 334
  | _ => -1
  end.

Definition is_leap (year : Z) : bool :=
  (year mod 4 =? 0) && (negb (year mod 100 =? 0) || (year mod 400 =? 0)).

(** Number of days before January 1st of [year]. *)
Definition days_before_year (year : Z) : Z :=
  let y := year - 1 in y * 365 + y / 4 - y / 100 + y / 400.

Definition days_in_month (year month : Z) : Z :=
  if (month =? 2) && is_leap year then 29 else DAYS_IN_MONTH month.

Definition days_before_month (year month : Z) : Z :=
  DAYS_BEFORE_MONTH month + (if (2 <? month) && is_leap year then 1 else 0).

(** Ordinal of a date, January 1st of year 1 being day 1. *)
Definition ymd2ord (year month day : Z) : Z :=
  days_before_year year + days_before_month year month + day.

Definition DI400Y : Z := 146097.
Definition DI100Y : Z := 36524.
Definition DI4Y : Z := 1461.

(** Month and day of the [n]-th day (from 0) of a year. *)
Definition month_day (leapyear : bool) (n : Z) : Z * Z :=
  let month := Z.shiftr (n + 50) 5 in
  let preceding :=
    DAYS_BEFORE_MONTH month + (if (2 <? month) && leapyear then 1 else 0) in
  if n <? preceding
  then
    let month' := month - 1 in
    let preceding' :=
      preceding
      - (DAYS_IN_MONTH month' + (if (month' =? 2) && leapyear then 1 else 0)) in
    (month', n - preceding' + 1)
  else (month, n - preceding + 1).

(** Date of an ordinal. *)
Definition ord2ymd (ordinal : Z) : Z * Z * Z :=
  let n := ordinal - 1 in
  let n400 := n / DI400Y in
  let n := n mod DI400Y in
  let year := n400 * 400 + 1 in
  let n100 := n / DI100Y in
  let n := n mod DI100Y in
  let n4 := n / DI4Y in
  let n := n mod DI4Y in
  let n1 := n / 365 in
  let n := n mod 365 in
  let year := year + n100 * 100 + n4 * 4 + n1 in
  if (n1 =? 4) || (n100 =? 4)
  then (year - 1, 12, 31)
  else
    let leapyear := (n1 =? 3) && (negb (n4 =? 24) || (n100 =? 3)) in
    let md := month_day leapyear n in
    (year, fst md, snd md).

Record datetime : Type := mk_datetime {
  year : Z; month : Z; day : Z; hour : Z; minute : Z; second : Z
}.

Definition valid_date (y m d : Z) : bool :=
  (MINYEAR <=? y) && (y <=? MAXYEAR) && (1 <=? m) && (m <=? 12)
  && (1 <=? d) && (d <=? days_in_month y m).

Definition valid_time (h mi s : Z) : bool :=
  (0 <=? h) && (h <=? 23) && (0 <=? mi) && (mi <=? 59)
  && (0 <=? s) && (s <=? 59).

Definition valid (dt : datetime) : bool :=
  valid_date (year dt) (month dt) (day dt)
  && valid_time (hour dt) (minute dt) (second dt).

(** [date(y, m, d)]: the checks of the constructor. *)
Definition check_date (y m d : Z) : outcome unit :=
  if negb ((MINYEAR <=? y) && (y <=? MAXYEAR))
  then Raise (mk_exn ValueError ("year " ++ str_int y ++ " is out of range"))
  else if negb ((1 <=? m) && (m <=? 12))
  then Raise (mk_exn ValueError "month must be in 1..12")
  else if negb ((1 <=? d) && (d <=? days_in_month y m))
  then Raise (mk_exn ValueError "day is out of range for month")
  else Return tt.

Definition check_time (h mi s : Z) : outcome unit :=
  if negb ((0 <=? h) && (h <=? 23))
  then Raise (mk_exn ValueError "hour must be in 0..23")
  else if negb ((0 <=? mi) && (mi <=? 59))
  then Raise (mk_exn ValueError "minute must be in 0..59")
  else if negb ((0 <=? s) && (s <=? 59))
  then Raise (mk_exn ValueError "second must be in 0..59")
  else Return tt.

(** [datetime(y, m, d, h, mi, s)] *)
Definition datetime_new (y m d h mi s : Z) : outcome datetime :=
  match check_date y m d with
  | Raise e => Raise e
  | Return _ =>
      match check_time h mi s with
      | Raise e => Raise e
      | Return _ => Return (mk_datetime y m d h mi s)
      end
  end.

Definition toordinal (dt : datetime) : Z :=
  ymd2ord (year dt) (month dt) (day dt).

(** Minutes since the midnight that starts January 1st of year 1, shifted
    by one day: the position of a date-time on the time line, in minutes. *)
Definition minutes_of (dt : datetime) : Z :=
  toordinal dt * 1440 + hour dt * 60 + minute dt.

(** [a < b] on date-times: the fields are compared in order. *)
Definition field_list (dt : datetime) : list Z :=
  [year dt; month dt; day dt; hour dt; minute dt; second dt].

Fixpoint lex_lt (a b : list Z) : bool :=
  match a, b with
  | x :: a', y :: b' => (x <? y) || ((x =? y) && lex_lt a' b')
  | [], _ :: _ => true
  | _, [] => false
  end.

Definition datetime_lt (a b : datetime) : bool := lex_lt (field_list a) (field_list b).

(** A duration, normalised as [timedelta] stores it
    ([0 <= seconds < 86400]); the program has no microseconds. *)
Record timedelta : Type := mk_timedelta { days : Z; seconds : Z }.

Definition MAX_DELTA_DAYS : Z := 999999999.

(** [timedelta(minutes=n)] *)
Definition timedelta_minutes (n : Z) : outcome timedelta :=
  let total := n * 60 in
  let d := total / 86400 in
  let s := total mod 86400 in
  if (d <? - 2147483648) || (2147483647 <? d)
  then Raise (mk_exn OverflowError "Python int too large to convert to C int")
  else if (d <? - MAX_DELTA_DAYS) || (MAX_DELTA_DAYS <? d)
  then Raise (mk_exn OverflowError
                ("days=" ++ str_int d ++ "; must have magnitude <= 999999999"))
  else Return (mk_timedelta d s).

(** [dt + delta] *)
Definition add (dt : datetime) (delta : timedelta) : outcome datetime :=
  let secs := hour dt * 3600 + minute dt * 60 + second dt + seconds delta in
  let ordinal := toordinal dt + days delta + secs / 86400 in
  let secs := secs mod 86400 in
  if (0 <? ordinal) && (ordinal <=? MAXORDINAL)
  then
    let ymd := ord2ymd ordinal in
    Return (mk_datetime (fst (fst ymd)) (snd (fst ymd)) (snd ymd)
              (secs / 3600) ((secs mod 3600) / 60) ((secs mod 3600) mod 60))
  else Raise (mk_exn OverflowError "date value out of range").

(** *** [strptime]

    A format is turned into a regular expression, directive by directive,
    and a run of blanks in the format into [\s+]. *)
Definition d_ : regex := Class isdigit.
Definition rg (lo hi : ascii) : regex := Class (in_range lo hi).

Definition directive_regex (c : ascii) : option regex :=
  if Ascii.eqb c "Y" then
    (* (?P<Y>\d\d\d\d) *)
    Some (Group "Y" (seq_all [d_; d_; d_; d_]))
  else if Ascii.eqb c "m" then
    (* (?P<m>1[0-2]|0[1-9]|[1-9]) *)
    Some (Group "m" (alt_all (Seq (Lit "1") (rg "0" "2"))
                       [Seq (Lit "0") (rg "1" "9"); rg "1" "9"]))
  else if Ascii.eqb c "d" then
    (* (?P<d>3[0-1]|[1-2]\d|0[1-9]|[1-9]| [1-9]) *)
    Some (Group "d" (alt_all (Seq (Lit "3") (rg "0" "1"))
                       [Seq (rg "1" "2") d_; Seq (Lit "0") (rg "1" "9");
                        rg "1" "9"; Seq (Lit " ") (rg "1" "9")]))
  else if Ascii.eqb c "H" then
    (* (?P<H>2[0-3]|[0-1]\d|\d) *)
    Some (Group "H" (alt_all (Seq (Lit "2") (rg "0" "3"))
                       [Seq (rg "0" "1") d_; d_]))
  else if Ascii.eqb c "M" then
    (* (?P<M>[0-5]\d|\d) *)
    Some (Group "M" (alt_all (Seq (rg "0" "5") d_) [d_]))
  else None.

Fixpoint format_regex (fmt : string) : option regex :=
  match fmt with
  | EmptyString => Some Eps
  | String c rest =>
      if Ascii.eqb c "%" then
        match rest with
        | String dir rest' =>
            match directive_regex dir, format_regex rest' with
            | Some r, Some r' => Some (Seq r r')
            | _, _ => None
            end
        | EmptyString => None
        end
      else
        match format_regex rest with
        | Some r' =>
            if isspace c
            then match rest with
                 | String c' _ =>
                     if isspace c' then Some r' else Some (Seq (Plus isspace) r')
                 | EmptyString => Some (Seq (Plus isspace) r')
                 end
            else Some (Seq (Lit c) r')
        | None => None
        end
  end.

Definition field (name : ascii) (dflt : Z) (g : groups) : Z :=
  match group name g with
  | Some text => match int_of_text text with Some v => v | None => dflt end
  | None => dflt
  end.

(** [datetime.strptime(data_string, format)] *)
Definition strptime (data_string format : string) : outcome datetime :=
  match format_regex format with
  | None => Raise (mk_exn ValueError ("bad directive in format " ++ repr format))
  | Some r =>
      match re_match r data_string with
      | None =>
          Raise (mk_exn ValueError
                   ("time data " ++ repr data_string
                    ++ " does not match format " ++ repr format))
      | Some (g, rest) =>
          if negb (is_empty rest)
          then Raise (mk_exn ValueError ("unconverted data remains: " ++ rest))
          else
            let y := field "Y" 1900 g in
            let m := field "m" 1 g in
            let d := field "d" 1 g in
            let h := field "H" 0 g in
            let mi := field "M" 0 g in
            match check_date y m d with
            | Raise e => Raise e
            | Return _ => datetime_new y m d h mi 0
            end
      end
  end.

(** *** [strftime]

    The text of a directive is the one the C library of the platform gives,
    here the GNU library of the Linux runtime: the year is written without
    padding, so that a year below 1000 has fewer than four digits; the other
    fields are padded with zeros to two digits. *)
Definition directive_text (c : ascii) (dt : datetime) : option string :=
  if Ascii.eqb c "Y" then Some (str_int (year dt))
  else if Ascii.eqb c "m" then Some (zfill 2 (str_int (month dt)))
  else if Ascii.eqb c "d" then Some (zfill 2 (str_int (day dt)))
  else if Ascii.eqb c "H" then Some (zfill 2 (str_int (hour dt)))
  else if Ascii.eqb c "M" then Some (zfill 2 (str_int (minute dt)))
  else if Ascii.eqb c "S" then Some (zfill 2 (str_int (second dt)))
  else None.

(** [dt.strftime(format)]; a directive outside the six above is copied. *)
Fixpoint strftime (dt : datetime) (fmt : string) : string :=
  match fmt with
  | EmptyString => EmptyString
  | String c rest =>
      if Ascii.eqb c "%" then
        match rest with
        | String dir rest' =>
            match directive_text dir dt with
            | Some t => t ++ strftime dt rest'
            | None => String c (String dir (strftime dt rest'))
            end
        | EmptyString => String c EmptyString
        end
      else String c (strftime dt rest)
  end.

(** What [month_day] has to deliver, as a check. *)
Definition month_day_ok (leapyear : bool) (n : Z) : bool :=
  let md := month_day leapyear n in
  let m := fst md in
  let d := snd md in
  (1 <=? m) && (m <=? 12) && (1 <=? d)
  && (d <=? DAYS_IN_MONTH m + (if (m =? 2) && leapyear then 1 else 0))
  && (DAYS_BEFORE_MONTH m + (if (2 <? m) && leapyear then 1 else 0) + d =? n + 1).

(** The first and the last minute a date-time can denote:
    [datetime.min] and [datetime.max]. *)
Definition MIN_MINUTES : Z := minutes_of (mk_datetime 1 1 1 0 0 0).
Definition MAX_MINUTES : Z := minutes_of (mk_datetime 9999 12 31 23 59 59).

(** The regular expression of one directive, for the properties. *)
Definition directive (c : ascii) : regex :=
  match directive_regex c with Some r => r | None => Eps end.

End Datetime.

Import Datetime.
Local Open Scope py_scope.

(** ** [agents/meetings_agent.py] *)

Module Meetings.

(** The tool [create_meeting_ics] of [MeetingAgent._create_tools].  The last
    argument is the reading of the clock that [datetime.utcnow()] returns;
    the clock is read only after the start and the end are computed. *)
Definition create_meeting_ics
    (title date time : string) (duration_minutes : Z)
    (participants : list string) (location description : string)
    (utcnow : datetime) : outcome string :=
  match strptime (date ++ " " ++ time) "%Y-%m-%d %H:%M" with
  | Raise e => Raise e
  | Return start_dt =>
      match timedelta_minutes duration_minutes with
      | Raise e => Raise e
      | Return delta =>
          match add start_dt delta with
          | Raise e => Raise e
          | Return end_dt =>
              let dt_format := "%Y%m%dT%H%M%S" in
              let dtstart := strftime start_dt dt_format in
              let dtend := strftime end_dt dt_format in
              let dtstamp := strftime utcnow dt_format in
              let ics_content :=
                "BEGIN:VCALENDAR
        VERSION:2.0
        PRODID:-//Strands Tool//Meeting Scheduler//EN
        BEGIN:VEVENT
        UID:" ++ dtstamp ++ "-strands@tool
        DTSTAMP:" ++ dtstamp ++ "
        DTSTART:" ++ dtstart ++ "
        DTEND:" ++ dtend ++ "
        SUMMARY:" ++ title ++ "
        DESCRIPTION:" ++ description ++ "
        LOCATION:" ++ location ++ "
        " ++ join "" (map (fun p => "ATTENDEE;CN=" ++ p) participants) ++ "
        END:VEVENT
        END:VCALENDAR
        " in
              Return ics_content
          end
      end
  end.

(** The parts of the document, to state what depends on which argument:
    the fixed head, the two fields made from the reading of the clock, and
    the fields of the event. *)
Definition stamp (dt : datetime) : string := strftime dt "%Y%m%dT%H%M%S".

Definition ics_head : string :=
  "BEGIN:VCALENDAR
        VERSION:2.0
        PRODID:-//Strands Tool//Meeting Scheduler//EN
        BEGIN:VEVENT
        ".

Definition ics_stamp (dtstamp : string) : string :=
  "UID:" ++ dtstamp ++ "-strands@tool
        DTSTAMP:" ++ dtstamp.

Definition ics_event (dtstart dtend title description location : string)
    (participants : list string) : string :=
  "
        DTSTART:" ++ dtstart ++ "
        DTEND:" ++ dtend ++ "
        SUMMARY:" ++ title ++ "
        DESCRIPTION:" ++ description ++ "
        LOCATION:" ++ location ++ "
        " ++ join "" (map (fun p => "ATTENDEE;CN=" ++ p) participants) ++ "
        END:VEVENT
        END:VCALENDAR
        ".

(** The shape [YYYYMMDDTHHMMSS] of a time stamp: eight digits, the letter T,
    six digits. *)
Definition digits_of_width (w : nat) (s : string) : bool :=
  Nat.eqb (String.length s) w && all_chars isdigit s.

Definition is_stamp (s : string) : bool :=
  digits_of_width 8 (substring 0 8 s)
  && String.eqb (substring 8 1 s) "T"
  && digits_of_width 6 (substring 9 6 s)
  && Nat.eqb (String.length s) 15.

(** The error the specification calls [InvalidInputError]: in the program
    it is the [ValueError] that [strptime] raises for data that does not
    parse. *)
Definition InvalidInputError (e : exn) : Prop := exn_cls e = ValueError.

(** *** The date and the time that the tool takes

    The pattern of the specification, [YYYY-MM-DD] for the date and [HH:MM]
    for the time: digits of these widths around the dashes and the colon. *)
Definition fixed_pattern (date time : string) : bool :=
  digits_of_width 4 (substring 0 4 date)
  && String.eqb (substring 4 1 date) "-"
  && digits_of_width 2 (substring 5 2 date)
  && String.eqb (substring 7 1 date) "-"
  && digits_of_width 2 (substring 8 2 date)
  && Nat.eqb (String.length date) 10
  && digits_of_width 2 (substring 0 2 time)
  && String.eqb (substring 2 1 time) ":"
  && digits_of_width 2 (substring 3 2 time)
  && Nat.eqb (String.length time) 5.

(** The form of the texts that the program takes, written out: a year of
    four digits, a month, a day, an hour and a minute of one or two digits (the
    day may also be a blank and a digit), each in its range, with dashes, one
    blank or more, and a colon between them; the year is not 0 and the month has
    the day. *)
Definition number (text : string) : Z :=
  match int_of_text text with Some v => v | None => -1 end.

Definition digits_1_2 (text : string) : bool :=
  digits_of_width 1 text || digits_of_width 2 text.

Definition year_text (y : string) : bool := digits_of_width 4 y.

Definition month_text (m : string) : bool :=
  digits_1_2 m && (1 <=? number m) && (number m <=? 12).

Definition day_text (d : string) : bool :=
  (digits_1_2 d
   || match d with
      | String c t => Ascii.eqb c " " && digits_of_width 1 t
      | EmptyString => false
      end)
  && (1 <=? number d) && (number d <=? 31).

Definition hour_text (h : string) : bool :=
  digits_1_2 h && (number h <=? 23).

Definition minute_text (mi : string) : bool :=
  digits_1_2 mi && (number mi <=? 59).

Definition blanks (ws : string) : bool :=
  negb (is_empty ws) && all_chars isspace ws.

Definition accepted (text : string) : Prop :=
  exists y m d ws h mi,
    text = y ++ "-" ++ m ++ "-" ++ d ++ ws ++ h ++ ":" ++ mi
    /\ year_text y = true /\ month_text m = true /\ day_text d = true
    /\ blanks ws = true /\ hour_text h = true /\ minute_text mi = true
    /\ (1 <=? number y)
       && (number d <=? days_in_month (number y) (number m)) = true.

(** Text in the range of ASCII, which is what the embedding of text
    covers. *)
Definition ascii_text (s : string) : bool :=
  all_chars (fun c => Z.of_nat (nat_of_ascii c) <? 128) s.

End Meetings.

(** ** [agents/jira_agent.py] *)

Module Jira.

(** The response of the mocked issue tracker. *)
Record named : Type := { name : string }.
Record creator_t : Type := { displayName : string; active : bool }.
Record fields_t : Type := {
  summary : string;
  description : string;
  status : named;
  priority : named;
  creator : creator_t
}.
Record issue : Type := {
  id : string;
  key : string;
  self : string;
  fields : fields_t
}.

Section Random.

(** The generator of the [random] module: its state, and the primitive
    [_randbelow(n)] from which [randint] and [choice] are made. *)
Variable G : Type.
Variable randbelow : Z -> G -> Z * G.

(** The state the tool works on: the generator and the standard output,
    one entry per call of [print]. *)
Record state : Type := { rng : G; stdout : list string }.

(** [random.randint(a, b)] *)
Definition randint (a b : Z) (g : G) : Z * G :=
  let (k, g') := randbelow (b - a + 1) g in (a + k, g').

(** [random.choice(seq)] for the non-empty sequence [first :: others]. *)
Definition choice {A} (first : A) (others : list A) (g : G) : A * G :=
  let (i, g') := randbelow (Z.of_nat (List.length (first :: others))) g in
  (nth (Z.to_nat i) (first :: others) first, g').

(** The tool [create_jira_ticket] of [JiraAgent._create_tools]. *)
Definition create_jira_ticket (summary description tenant_id : string)
    (st : state) : issue * state :=
  let (n, g1) := randint 30000 99999 (rng st) in
  let issue_id := str_int n in
  let (project_key, g2) := choice "DEV" ["OPS"; "TEST"; "PROD"; "SEC"] g1 in
  let (issue_number, g3) := randint 100 999 g2 in
  let ticket_key := project_key ++ "-" ++ str_int issue_number in
  let base_url := "http://localhost:8080/rest/api/2/issue" in
  let self_url := base_url ++ "/" ++ issue_id in
  let out := print (stdout st)
               ("[Tenant " ++ tenant_id ++ "] Creating Jira ticket...") in
  let out := print out ("Summary: " ++ summary) in
  let out := print out ("Description: " ++ description ++ nl) in
  let (status_name, g4) := choice "To Do" ["In Progress"; "Done"] g3 in
  let (priority_name, g5) := choice "Low" ["Medium"; "High"] g4 in
  let (creator_name, g6) := choice "System Agent" ["Automation Bot"] g5 in
  let response :=
    {| id := issue_id;
       key := ticket_key;
       self := self_url;
       fields :=
         {| summary := summary;
            description := description;
            status := {| name := status_name |};
            priority := {| name := priority_name |};
            creator := {| displayName := creator_name; active := true |} |}
    |} in
  (response, {| rng := g6; stdout := out |}).

End Random.

Arguments rng {G} s.
Arguments stdout {G} s.

(** The pattern [^(DEV|OPS|TEST|PROD|SEC)-\d{3}$] that a key has to match. *)
Definition key_pattern : regex :=
  Seq (alt_all (lit_string "DEV")
         [lit_string "OPS"; lit_string "TEST"; lit_string "PROD";
          lit_string "SEC"])
      (Seq (Lit "-") (seq_all [Class isdigit; Class isdigit; Class isdigit])).

(** A generator for concrete runs: the state is a counter, and
    [_randbelow(n)] is the counter modulo [n]. *)
Definition counter_randbelow (n : Z) (g : Z) : Z * Z := (g mod n, g + 1).

End Jira.

(** ** [agents/email_agent.py] *)

Module Email.

(** The notification service as the tool sees it: the construction of a
    client by [boto3.client] and the method [publish] of the client, both of
    which may raise.  [W] is the state of the service. *)
Class SNS (W : Type) : Type := {
  client : Type;
  boto3_client : string -> string -> W -> outcome client * W;
  publish : client -> string -> string -> string -> W
            -> outcome (list (string * string)) * W
}.

(** The dict the tool returns. *)
Record result : Type := { status : string; message : string }.

(** [str(response.get(k))] for a response with text values. *)
Definition str_get (k : string) (response : list (string * string)) : string :=
  match lookup k response with Some v => v | None => "None" end.

(** The tool [send_sns_email] of [EmailAgent._create_tools]. *)
Definition send_sns_email {W} `{SNS W} (subject message : string)
    : M W result :=
  let AWS_REGION := "us-west-2" in
  let SNS_TOPIC_ARN := "arn:aws:sns:us-west-2:905418322763:test" in
  sns_client <- boto3_client "sns" AWS_REGION ;;
  try_except
    (response <- publish sns_client SNS_TOPIC_ARN message subject ;;
     ret {| status := "success";
            message :=
              "Email successfully published to SNS topic 'test'. Message ID: "
              ++ str_get "MessageId" response |})
    (fun e =>
       ret {| status := "error";
              message := "Failed to publish email to SNS: " ++ exn_str e |}).

(** Two services for concrete runs, over a state that counts the messages
    published.  The first works: the client is built and [publish] returns a
    response with the identifier of the message.  The second has a
    configuration that names a profile that does not exist, so that
    [boto3.client] itself raises. *)
Definition working_sns : SNS Z := {|
  client := unit;
  boto3_client := fun _ _ w => (Return tt, w);
  publish := fun _ _ _ _ w =>
               (Return [("MessageId", "msg-" ++ str_int w)], w + 1)
|}.

Definition unreachable_sns : SNS Z := {|
  client := unit;
  boto3_client := fun _ _ w => (Return tt, w);
  publish := fun _ _ _ _ w =>
               (Raise (mk_exn (OtherException "EndpointConnectionError")
                         "Could not connect to the endpoint URL"), w)
|}.

Definition misconfigured_sns : SNS Z := {|
  client := unit;
  boto3_client := fun _ _ w =>
    (Raise (mk_exn (OtherException "ProfileNotFound")
              "The config profile (missing) could not be found"), w);
  publish := fun _ _ _ _ w => (Return [("MessageId", "msg-" ++ str_int w)], w + 1)
|}.

End Email.

(** ** [agents/orchestrator.py] *)

Module Orchestrator.

(** The three specialised agents an orchestrator holds:
    [self.jira_agent], [self.meetings_agent] and [self.email_agent]. *)
Inductive handler : Type := jira_agent | meetings_agent | email_agent.

(** A request of the model to run one of the four tools. *)
Inductive tool_call : Type :=
| call_jira_tickets (query : string)
| call_set_meeting (query : string)
| call_send_email (query : string)
| call_coordinate_analysis (inventory_query sales_query market_query : string).

(** What the model decides during one call of an agent: it answers, it
    fails (the service is unreachable, say), or it asks for a tool and goes
    on from the result of the tool. *)
Inductive decision : Type :=
| Respond (text : string)
| Fail (e : exn)
| UseTool (c : tool_call) (next : outcome string -> decision).

Inductive turn : Type :=
| UserTurn (prompt : value)
| ToolTurn (c : tool_call) (r : outcome string)
| AssistantTurn (text : string).

(** The agent of the [strands] library: a conversation that is kept from
    one call to the next. *)
Record Agent : Type := {
  system_prompt : string;
  tools : list string;
  messages : list turn
}.

(** The collaborators that are not part of the repository, over their own
    state [E]: the [query] method of the three specialised agents, the
    constructor [Agent(...)], the model behind an agent, and
    [boto3.Session()] with its region name. *)
Class Services (E : Type) : Type := {
  sub_agent_query : handler -> string -> E -> outcome string * E;
  Agent_new : E -> outcome unit * E;
  model : Agent -> value -> E -> decision;
  boto3_Session : E -> outcome (option string) * E
}.

(** The state: the calls made to the specialised agents so far, the
    standard output, and the state of the collaborators. *)
Record world (E : Type) : Type := {
  calls : list (handler * string);
  stdout : list string;
  ext : E
}.
Arguments calls {E} w.
Arguments stdout {E} w.
Arguments ext {E} w.

Record OrchestratorAgent : Type := { agent : option Agent }.

Section WithServices.

Context {E : Type} `{Services E}.

(** A call of a collaborator. *)
Definition external {A} (f : E -> outcome A * E) : M (world E) A :=
  fun w =>
    let (r, e') := f (ext w) in
    (r, {| calls := calls w; stdout := stdout w; ext := e' |}).

Definition say (line : string) : M (world E) unit :=
  fun w =>
    (Return tt,
     {| calls := calls w; stdout := print (stdout w) line; ext := ext w |}).

(** [self.<handler>.query(q)] *)
Definition invoke (h : handler) (q : string) : M (world E) string :=
  fun w =>
    let (r, e') := sub_agent_query h q (ext w) in
    (r, {| calls := (calls w ++ [(h, q)])%list;
           stdout := stdout w; ext := e' |}).

(** [OrchestratorAgent.__init__] *)
Definition OrchestratorAgent_init : M (world E) OrchestratorAgent :=
  external Agent_new ;;;
  external Agent_new ;;;
  external Agent_new ;;;
  region_name <- external boto3_Session ;;
  let region :=
    match region_name with
    | Some r => if truthy r then r else "us-west-2"
    | None => "us-west-2"
    end in
  say ("🔐 Using region: " ++ region) ;;;
  say "✅ MCP client initialized for retail calendar server" ;;;
  ret {| agent := None |}.

Definition create_system_prompt : string :=
  "
You are an orchestrator for  a process where a transcript of a scrum planning meeting is passed and you need to performa actions based on it.

IMPORTANT: You MUST use the specialized agent tools to answer queries. DO NOT provide generic responses or ask follow-up questions without first consulting the appropriate agents.

Your role is to:
1. Understand the meeting discussion
2. ALWAYS route queries to the appropriate specialized agents using the tools provided
3. When a query requires multiple perspectives, call multiple agent tools
4. Synthesize the agent responses into comprehensive, actionable insights

Available specialized agent tools (YOU MUST USE THESE):
- **jira_agent**: Create jira tickets
- **meetings_Agent**: Set up a meeting before upcoming vacation 
- **analyze_market**: Send an email using sns

INSTRUCTIONS:
- **FIRST STEP**: If memory tools are available, ALWAYS retrieve past memories at the start of the conversation
- When passed a meeting transcription assign Jira tickets, USE jira_tickets
- When passed a meeting transcription, send an email using sns, USE set_meeting
- When passed a meeting transcription, create a following up meeting based on the information, USE analyze_sales and USE retail calendar tools
- When asked about holidays/events/seasons/planning, USE retail calendar tools
- ALWAYS provide data-driven answers from the agents, not generic suggestions


DO NOT just offer to help or provide generic advice. USE THE TOOLS to get real data and provide specific answers.
".

(** The tools of [_create_tools]. *)
Definition jira_tickets (query : string) : M (world E) string :=
  response <- invoke jira_agent query ;;
  ret ("[Jira tickets creation]" ++ nl ++ response).

Definition set_meeting (query : string) : M (world E) string :=
  response <- invoke meetings_agent query ;;
  ret ("[Meeting setting]" ++ nl ++ response).

Definition send_email (query : string) : M (world E) string :=
  response <- invoke email_agent query ;;
  ret ("[Email sending]" ++ nl ++ response).

Definition coordinate_analysis
    (inventory_query sales_query market_query : string)
    : M (world E) string :=
  let results : list string := [] in
  results <-
    (if truthy inventory_query && truthy (strip inventory_query)
     then inv_response <- invoke jira_agent inventory_query ;;
          ret (append results ("[Jira tickets creation]" ++ nl ++ inv_response))
     else ret results) ;;
  results <-
    (if truthy sales_query && truthy (strip sales_query)
     then sales_response <- invoke meetings_agent sales_query ;;
          ret (append results
                 ("[Set up follow up meeting]" ++ nl ++ sales_response))
     else ret results) ;;
  results <-
    (if truthy market_query && truthy (strip market_query)
     then market_response <- invoke email_agent market_query ;;
          ret (append results ("[Send Emailss]" ++ nl ++ market_response))
     else ret results) ;;
  match results with
  | [] => ret "No analysis was requested. Please specify at least one query."
  | _ :: _ => ret (join (nl ++ nl) results)
  end.

Definition create_tools : list string :=
  ["jira_tickets"; "set_meeting"; "send_email"; "coordinate_analysis"].

Definition run_tool (c : tool_call) : M (world E) string :=
  match c with
  | call_jira_tickets q => jira_tickets q
  | call_set_meeting q => set_meeting q
  | call_send_email q => send_email q
  | call_coordinate_analysis q1 q2 q3 => coordinate_analysis q1 q2 q3
  end.

(** One call of an agent follows the decisions of the model; the library
    hands the result of a tool, or the exception it raised, back to the
    model. *)
Fixpoint run_decision (d : decision) (turns : list turn) (w : world E)
    : outcome string * list turn * world E :=
  match d with
  | Respond text => (Return text, (turns ++ [AssistantTurn text])%list, w)
  | Fail e => (Raise e, turns, w)
  | UseTool c next =>
      let (r, w') := run_tool c w in
      run_decision (next r) (turns ++ [ToolTurn c r])%list w'
  end.

(** [str(a(prompt))] *)
Definition Agent_call (a : Agent) (prompt : value) (w : world E)
    : outcome string * Agent * world E :=
  match run_decision (model a prompt (ext w))
          (messages a ++ [UserTurn prompt])%list w with
  | (r, turns, w') =>
      (r, {| system_prompt := system_prompt a; tools := tools a;
             messages := turns |}, w')
  end.

(** [OrchestratorAgent.query]: the state is the object and the world;
    [None] is the [None] a Python function returns when it reaches its end
    without a [return]. *)
Definition query (prompt : value)
    : M (OrchestratorAgent * world E) (option string) :=
  fun st =>
    let (self, w) := st in
    match agent self with
    | None =>
        let all_tools := create_tools in
        match external Agent_new w with
        | (Raise e, w1) => (Raise e, (self, w1))
        | (Return _, w1) =>
            let a := {| system_prompt := create_system_prompt;
                        tools := all_tools; messages := [] |} in
            match say ("✅ Agent created with "
                       ++ str_int (Z.of_nat (List.length all_tools))
                       ++ " tools") w1 with
            | (_, w2) =>
                match Agent_call a prompt w2 with
                | (Return text, a', w3) =>
                    (Return (Some text), ({| agent := Some a' |}, w3))
                | (Raise e, a', w3) =>
                    (Raise e, ({| agent := Some a' |}, w3))
                end
            end
        end
    | Some _ => (Return None, (self, w))
    end.

(** [create_orchestrator_agent] *)
Definition create_orchestrator_agent : M (world E) OrchestratorAgent :=
  OrchestratorAgent_init.

(** *** The batch call in the words of the specification

    A sub-query is requested when it is not empty after trimming; the
    handlers of the requested sub-queries are called in turn, each result is
    labelled, and the labelled results are joined by a blank line. *)
Definition requested (q : string) : bool := truthy (strip q).

Definition selected (inventory_query sales_query market_query : string)
    : list (handler * string) :=
  filter (fun hq => requested (snd hq))
    [(jira_agent, inventory_query); (meetings_agent, sales_query);
     (email_agent, market_query)].

Definition batch_label (h : handler) : string :=
  match h with
  | jira_agent => "[Jira tickets creation]"
  | meetings_agent => "[Set up follow up meeting]"
  | email_agent => "[Send Emailss]"
  end.

(** The answers of the handlers called in turn from a state of the
    collaborators, up to the first that raises. *)
Fixpoint replies (sel : list (handler * string)) (e : E)
    : outcome (list string) * E :=
  match sel with
  | [] => (Return [], e)
  | (h, q) :: rest =>
      match sub_agent_query h q e with
      | (Raise x, e1) => (Raise x, e1)
      | (Return r, e1) =>
          match replies rest e1 with
          | (Raise x, e2) => (Raise x, e2)
          | (Return rs, e2) => (Return (r :: rs), e2)
          end
      end
  end.

Fixpoint labelled (sel : list (handler * string)) (rs : list string)
    : list string :=
  match sel, rs with
  | (h, _) :: sel', r :: rs' => (batch_label h ++ nl ++ r) :: labelled sel' rs'
  | _, _ => []
  end.

Definition aggregate (sel : list (handler * string)) (rs : list string)
    : string :=
  match sel with
  | [] => "No analysis was requested. Please specify at least one query."
  | _ :: _ => join (nl ++ nl) (labelled sel rs)
  end.

(** The handlers called from a state of the collaborators, up to and with
    the first that raises. *)
Fixpoint calls_until_raise (sel : list (handler * string)) (e : E)
    : list (handler * string) :=
  match sel with
  | [] => []
  | (h, q) :: rest =>
      match sub_agent_query h q e with
      | (Raise _, _) => [(h, q)]
      | (Return _, e1) => (h, q) :: calls_until_raise rest e1
      end
  end.

End WithServices.

(** Collaborators for concrete runs, over a state that counts the calls of
    the specialised agents: every agent answers, and the model asks for the
    tool [jira_tickets] with the text of the prompt before it answers. *)
Definition prompt_text (v : value) : string :=
  match v with VStr s => s | _ => "" end.

Definition eager_services : Services Z := {|
  sub_agent_query := fun h q e => (Return ("done " ++ str_int e), e + 1);
  Agent_new := fun e => (Return tt, e);
  model := fun a prompt e =>
    UseTool (call_jira_tickets (prompt_text prompt))
      (fun r => match r with
                | Return text => Respond text
                | Raise x => Respond (exn_str x)
                end);
  boto3_Session := fun e => (Return (Some "us-west-2"), e)
|}.

Definition world0 : world Z := {| calls := []; stdout := []; ext := 0 |}.

(** Collaborators whose meetings agent is out of order. *)
Definition flaky_services : Services Z := {|
  sub_agent_query := fun h q e =>
    match h with
    | meetings_agent =>
        (Raise (mk_exn (OtherException "ModelTimeoutError") "model timed out"), e + 1)
    | _ => (Return ("done " ++ str_int e), e + 1)
    end;
  Agent_new := fun e => (Return tt, e);
  model := fun a prompt e => Respond "ok";
  boto3_Session := fun e => (Return None, e)
|}.

(** Collaborators that cannot build an agent. *)
Definition no_agent_services : Services Z := {|
  sub_agent_query := fun h q e => (Return ("done " ++ str_int e), e + 1);
  Agent_new := fun e =>
    (Raise (mk_exn (OtherException "NoCredentialsError")
              "Unable to locate credentials"), e + 1);
  model := fun a prompt e => Respond "ok";
  boto3_Session := fun e => (Return None, e)
|}.

(** Collaborators whose model cannot be reached. *)
Definition unreachable_model_services : Services Z := {|
  sub_agent_query := fun h q e => (Return ("done " ++ str_int e), e + 1);
  Agent_new := fun e => (Return tt, e);
  model := fun a prompt e =>
    Fail (mk_exn (OtherException "EndpointConnectionError")
            "Could not connect to the endpoint URL");
  boto3_Session := fun e => (Return (Some ""), e)
|}.

End Orchestrator.

(** ** [app.py] *)

Module App.
Import Orchestrator.

Section WithServices.

Context {E : Type} `{Services E}.

Definition import_orchestrator_agent : M (world E) OrchestratorAgent :=
  create_orchestrator_agent.

(** The body of the [try] of [agent_invocation].  The calls of the logger
    leave the modelled state as it is; what they evaluate is kept where
    it may raise. *)
Definition agent_invocation_body (payload context : value)
    : M (world E) string :=
  user_input <- lift (get payload "prompt" (VStr "")) ;;
  if negb (truth user_input)
  then ret "Error: No prompt provided in payload"
  else
    orchestrator <- import_orchestrator_agent ;;
    let enhanced_prompt := user_input in
    lift (slice_to 100 enhanced_prompt) ;;;
    response <-
      (fun w =>
         match query enhanced_prompt (orchestrator, w) with
         | (r, (_, w')) => (r, w')
         end) ;;
    match response with
    | Some text => ret text
    | None =>
        raise (mk_exn TypeError "object of type 'NoneType' has no len()")
    end.

(** [agent_invocation]: the entrypoint of the runtime. *)
Definition agent_invocation (payload context : value) : M (world E) string :=
  try_except
    (agent_invocation_body payload context)
    (fun e => ret ("Error: " ++ exn_str e)).

End WithServices.

End App.

(** ** [deployment/env_utils.py] *)

Module EnvUtils.

Definition LF : ascii := ascii_of_nat 10.
Definition CR : ascii := ascii_of_nat 13.

(** What reading a file in text mode does to the ends of lines: a carriage
    return, with the line feed after it if there is one, becomes a line
    feed. *)
Fixpoint universal_newlines (s : string) : string :=
  match s with
  | EmptyString => EmptyString
  | String c t =>
      if Ascii.eqb c CR
      then match t with
           | String c' t' =>
               if Ascii.eqb c' LF then String LF (universal_newlines t')
               else String LF (universal_newlines t)
           | EmptyString => String LF EmptyString
           end
      else String c (universal_newlines t)
  end.

(** The lines of a text, each with its line feed: [f.readlines()], and the
    lines [for line in f] goes through. *)
Fixpoint readlines (s : string) : list string :=
  match s with
  | EmptyString => []
  | String c t =>
      if Ascii.eqb c LF then String LF EmptyString :: readlines t
      else match readlines t with
           | [] => [String c EmptyString]
           | l :: ls => String c l :: ls
           end
  end.

(** [f.writelines(lines)] writes the lines one after the other. *)
Definition writelines (lines : list string) : string := String.concat "" lines.

(** [s.startswith(p)] and [s.endswith("\n")] *)
Definition startswith (s p : string) : bool := prefix p s.

Fixpoint endswith_nl (s : string) : bool :=
  match s with
  | EmptyString => false
  | String c EmptyString => Ascii.eqb c LF
  | String _ t => endswith_nl t
  end.

(** [s.split(sep, 1)] for a separator that is not empty: the text before
    and after the first occurrence, or the text alone. *)
Fixpoint split1 (sep s : string) : option (string * string) :=
  if prefix sep s
  then Some (EmptyString,
             substring (String.length sep) (String.length s - String.length sep) s)
  else match s with
       | EmptyString => None
       | String c t =>
           match split1 sep t with
           | Some (a, b) => Some (String c a, b)
           | None => None
           end
       end.

Definition split_once (sep s : string) : list string :=
  match split1 sep s with
  | Some (a, b) => [a; b]
  | None => [s]
  end.

(** [a, b = parts] *)
Definition unpack2 (parts : list string) : outcome (string * string) :=
  match parts with
  | [a; b] => Return (a, b)
  | [_] =>
      Raise (mk_exn ValueError "not enough values to unpack (expected 2, got 1)")
  | _ => Raise (mk_exn ValueError "too many values to unpack (expected 2)")
  end.

(** A dict with text keys, as the list of its items in the order of
    insertion; [d[k] = v] replaces the value of a key that is there. *)
Definition dict : Type := list (string * string).

Fixpoint dict_set (k v : string) (d : dict) : dict :=
  match d with
  | [] => [(k, v)]
  | (k', v') :: rest =>
      if String.eqb k' k then (k', v) :: rest else (k', v') :: dict_set k v rest
  end.

Definition section_marker (section_name : string) : string :=
  "# === " ++ section_name ++ " ===".

(** *** [update_env_section]: the lines of the new file *)

(** The loop that finds the section: the index of the line of the start
    marker seen last, and the index at which the loop breaks, if it does. *)
Fixpoint find_section (start_marker : string) (lines : list string) (i : nat)
    (start_idx : option nat) : option nat * option nat :=
  match lines with
  | [] => (start_idx, None)
  | line :: rest =>
      let line_stripped := strip line in
      if String.eqb line_stripped start_marker
      then find_section start_marker rest (S i) (Some i)
      else if match start_idx with Some _ => true | None => false end
              && startswith line_stripped "# === "
              && negb (String.eqb line_stripped start_marker)
      then (start_idx, Some i)
      else find_section start_marker rest (S i) start_idx
  end.

Definition new_lines (existing_lines : list string) (section_name : string)
    (section_content : list string) : list string :=
  let start_marker := section_marker section_name in
  let found := find_section start_marker existing_lines 0 None in
  let start_idx := fst found in
  let end_idx :=
    match snd found with Some i => i | None => List.length existing_lines end in
  let new_lines : list string := [] in
  let new_lines :=
    match start_idx with
    | Some s => (new_lines ++ firstn s existing_lines)%list
    | None =>
        let new_lines := (new_lines ++ existing_lines)%list in
        match existing_lines with
        | [] => new_lines
        | _ :: _ =>
            if negb (String.eqb (strip (last existing_lines EmptyString)) EmptyString)
            then append new_lines nl
            else new_lines
        end
    end in
  let new_lines := append new_lines (start_marker ++ nl) in
  let new_lines :=
    fold_left (fun acc line =>
                 append acc (if negb (endswith_nl line) then line ++ nl else line))
              section_content new_lines in
  let new_lines :=
    match section_content with
    | [] => new_lines
    | _ :: _ => append new_lines nl
    end in
  match start_idx with
  | Some _ =>
      if (end_idx <? List.length existing_lines)%nat
      then (new_lines ++ skipn end_idx existing_lines)%list
      else new_lines
  | None => new_lines
  end.

(** *** The two readers: the loops over the lines *)

(** The assignment on a line that holds an equals sign. *)
Definition parse_assignment (line_stripped : string) : outcome (string * string) :=
  if startswith line_stripped "export "
  then match unpack2 (split_once "export " line_stripped) with
       | Raise e => Raise e
       | Return (_, rest) => unpack2 (split_once "=" rest)
       end
  else unpack2 (split_once "=" line_stripped).

Fixpoint read_section_loop (start_marker : string) (lines : list string)
    (in_section : bool) (variables : dict) : outcome dict :=
  match lines with
  | [] => Return variables
  | line :: rest =>
      let line_stripped := strip line in
      if String.eqb line_stripped start_marker
      then read_section_loop start_marker rest true variables
      else if in_section && startswith line_stripped "# === "
      then Return variables
      else if in_section && truthy line_stripped
              && negb (startswith line_stripped "#")
      then
        if contains "=" line_stripped
        then match parse_assignment line_stripped with
             | Raise e => Raise e
             | Return (key, value) =>
                 read_section_loop start_marker rest in_section
                   (dict_set key value variables)
             end
        else read_section_loop start_marker rest in_section variables
      else read_section_loop start_marker rest in_section variables
  end.

Fixpoint read_all_loop (lines : list string) (variables : dict) : outcome dict :=
  match lines with
  | [] => Return variables
  | line :: rest =>
      let line_stripped := strip line in
      if truthy line_stripped && negb (startswith line_stripped "#")
         && contains "=" line_stripped
      then match parse_assignment line_stripped with
           | Raise e => Raise e
           | Return (key, value) =>
               read_all_loop rest (dict_set key value variables)
           end
      else read_all_loop rest variables
  end.


(** *** Notions used to state and prove properties *)

(** A character that ends no line. *)
Definition plain (c : ascii) : bool :=
  negb (Ascii.eqb c LF) && negb (Ascii.eqb c CR).

Definition not_cr (c : ascii) : bool := negb (Ascii.eqb c CR).

(** A line that reads as the header of a section. *)
Definition header (line_stripped : string) : bool :=
  startswith line_stripped "# === ".

Definition header_like (line : string) : bool := header (strip line).

(** A line that ends with its only line feed, and text with no end of
    line. *)
Fixpoint terminated (line : string) : bool :=
  match line with
  | EmptyString => false
  | String c EmptyString => Ascii.eqb c LF
  | String c t => plain c && terminated t
  end.

Definition unterminated (line : string) : bool :=
  negb (is_empty line) && all_chars plain line.

(** The lines of a text file: every line is terminated but, maybe, the
    last. *)
Fixpoint well_formed (lines : list string) : bool :=
  match lines with
  | [] => true
  | line :: rest =>
      match rest with
      | [] => terminated line || unterminated line
      | _ :: _ => terminated line && well_formed rest
      end
  end.

(** The lines stripped, without the blank ones. *)
Definition stripped (lines : list string) : list string :=
  filter truthy (map strip lines).

(** The assignment of a line that holds one. *)
Definition assignment (line_stripped : string) : string * string :=
  match parse_assignment line_stripped with
  | Return p => p
  | Raise _ => (EmptyString, EmptyString)
  end.

Definition assigns (line_stripped : string) : bool :=
  negb (startswith line_stripped "#") && contains "=" line_stripped.

(** One turn of the loop of [get_all_env_vars] on a stripped line that is
    not blank. *)
Definition all_step (variables : dict) (line_stripped : string) : dict :=
  if assigns line_stripped
  then dict_set (fst (assignment line_stripped))
         (snd (assignment line_stripped)) variables
  else variables.

(** One turn of the loop of [read_env_section]: before the section, in it,
    or after the [break]. *)
Inductive mode : Type := Outside | Inside | Done.

Definition mode_of (in_section : bool) : mode :=
  if in_section then Inside else Outside.

Definition section_step (start_marker : string) (st : mode * dict)
    (line_stripped : string) : mode * dict :=
  match st with
  | (Done, variables) => (Done, variables)
  | (Outside, variables) =>
      if String.eqb line_stripped start_marker then (Inside, variables)
      else (Outside, variables)
  | (Inside, variables) =>
      if String.eqb line_stripped start_marker then (Inside, variables)
      else if header line_stripped then (Done, variables)
      else (Inside, all_step variables line_stripped)
  end.

(** *** The file system

    The operations the scripts use, over a state [F] of the files.  Paths
    are those of [pathlib]: [join p name] is [p / name], whose [.name] is
    [name].  Reading gives the text of a file or raises, and leaves the files
    as they are; a file opened for writing gets the text as it is, as on POSIX
    systems. *)
Class FileSystem (F : Type) : Type := {
  path : Type;
  parent : path -> path;
  join : path -> string -> path;
  with_suffix : path -> string -> path;
  path_exists : path -> F -> bool;
  read_text : path -> F -> outcome string;
  write_text : path -> string -> F -> outcome unit * F;
  copy2 : path -> path -> F -> outcome unit * F;
  replace : path -> path -> F -> outcome unit * F;
  unlink : path -> F -> outcome unit * F
}.

(** What the properties of a write followed by a read rely on: the text
    moved onto a path is there and is what a reader gets, and a copy leaves
    its source as it was. *)
Class Lawful (F : Type) `{FileSystem F} : Prop := {
  replace_installs :
    forall tmp p text f f1 f2,
      write_text tmp text f = (Return tt, f1) ->
      replace tmp p f1 = (Return tt, f2) ->
      path_exists p f2 = true /\ read_text p f2 = Return text;
  copy_keeps_source :
    forall src dst f f1,
      copy2 src dst f = (Return tt, f1) ->
      path_exists src f1 = path_exists src f
      /\ read_text src f1 = read_text src f
}.

(** What the property of a failed update relies on: an operation on one
    path leaves the files at the other paths as they were, and so does an
    operation that fails with its target or its source. *)
Class Separate (F : Type) `{FileSystem F} : Prop := {
  write_keeps_others :
    forall q p text f r f1,
      q <> p -> write_text q text f = (r, f1) ->
      path_exists p f1 = path_exists p f /\ read_text p f1 = read_text p f;
  unlink_keeps_others :
    forall q p f r f1,
      q <> p -> unlink q f = (r, f1) ->
      path_exists p f1 = path_exists p f /\ read_text p f1 = read_text p f;
  failed_replace_keeps_target :
    forall q p f e f1,
      replace q p f = (Raise e, f1) ->
      path_exists p f1 = path_exists p f /\ read_text p f1 = read_text p f;
  failed_copy_keeps_source :
    forall src dst f e f1,
      copy2 src dst f = (Raise e, f1) ->
      path_exists src f1 = path_exists src f
      /\ read_text src f1 = read_text src f
}.

(** The state of the module: the files, the clock and the standard
    output. *)
Record env_state (F : Type) : Type := {
  files : F;
  clock : datetime;
  printed : list string
}.
Arguments files {F} _.
Arguments clock {F} _.
Arguments printed {F} _.

Section WithFileSystem.

Context {F : Type} `{FileSystem F}.

Definition on_files {A} (f : F -> outcome A * F) : M (env_state F) A :=
  fun s =>
    let (r, fs) := f (files s) in
    (r, {| files := fs; clock := clock s; printed := printed s |}).

Definition exists_ (p : path) : M (env_state F) bool :=
  fun s => (Return (path_exists p (files s)), s).

Definition echo (line : string) : M (env_state F) unit :=
  fun s =>
    (Return tt,
     {| files := files s; clock := clock s; printed := print (printed s) line |}).

(** The lines of a file opened for reading. *)
Definition open_lines (p : path) : M (env_state F) (list string) :=
  text <- (fun s => (read_text p (files s), s)) ;;
  ret (readlines (universal_newlines text)).

Definition update_env_section (file_path : path) (section_name : string)
    (section_content : list string) (create_backup : bool)
    : M (env_state F) unit :=
  file_exists <- exists_ file_path ;;
  (if create_backup && file_exists
   then fun s =>
          (let name := ".env.backup." ++ strftime (clock s) "%Y%m%d_%H%M%S" in
           let backup_name := join (parent file_path) name in
           on_files (copy2 file_path backup_name) ;;;
           echo ("📁 Created backup: " ++ name)) s
   else ret tt) ;;;
  file_exists <- exists_ file_path ;;
  existing_lines <- (if file_exists then open_lines file_path else ret []) ;;
  let lines := new_lines existing_lines section_name section_content in
  let temp_file := with_suffix file_path ".tmp" in
  try_except
    (on_files (write_text temp_file (writelines lines)) ;;;
     on_files (replace temp_file file_path))
    (fun e =>
       temp_exists <- exists_ temp_file ;;
       (if temp_exists then on_files (unlink temp_file) else ret tt) ;;;
       raise e).

Definition read_env_section (file_path : path) (section_name : string)
    : M (env_state F) dict :=
  file_exists <- exists_ file_path ;;
  if negb file_exists then ret []
  else
    let start_marker := section_marker section_name in
    lines <- open_lines file_path ;;
    lift (read_section_loop start_marker lines false []).

Definition get_all_env_vars (file_path : path) : M (env_state F) dict :=
  file_exists <- exists_ file_path ;;
  if negb file_exists then ret []
  else
    lines <- open_lines file_path ;;
    lift (read_all_loop lines []).

End WithFileSystem.

(** A file system for concrete runs: one directory, whose files are a list
    of names without suffix with their texts; no operation fails but on a
    file that is not there. *)
Definition mem_files : Type := list (string * string).

Definition mem_set (p text : string) (fs : mem_files) : mem_files :=
  (p, text) :: filter (fun f => negb (String.eqb (fst f) p)) fs.

Definition mem_remove (p : string) (fs : mem_files) : mem_files :=
  filter (fun f => negb (String.eqb (fst f) p)) fs.

Definition missing (p : string) : exn :=
  mk_exn (OtherException "FileNotFoundError")
    ("[Errno 2] No such file or directory: " ++ repr p).

Definition mem_fs : FileSystem mem_files := {|
  path := string;
  parent := fun _ => EmptyString;
  join := fun p name =>
    if is_empty p then name else p ++ "/" ++ name;
  with_suffix := fun p suffix => p ++ suffix;
  path_exists := fun p fs =>
    match lookup p fs with Some _ => true | None => false end;
  read_text := fun p fs =>
    match lookup p fs with
    | Some text => Return text
    | None => Raise (missing p)
    end;
  write_text := fun p text fs => (Return tt, mem_set p text fs);
  copy2 := fun src dst fs =>
    match lookup src fs with
    | Some text => (Return tt, mem_set dst text fs)
    | None => (Raise (missing src), fs)
    end;
  replace := fun src dst fs =>
    match lookup src fs with
    | Some text => (Return tt, mem_set dst text (mem_remove src fs))
    | None => (Raise (missing src), fs)
    end;
  unlink := fun p fs =>
    match lookup p fs with
    | Some _ => (Return tt, mem_remove p fs)
    | None => (Raise (missing p), fs)
    end
|}.

(** The same directory when it cannot be written to. *)
Definition denied (p : string) : exn :=
  mk_exn (OtherException "PermissionError")
    ("[Errno 13] Permission denied: " ++ repr p).

Definition read_only_fs : FileSystem mem_files := {|
  path := string;
  parent := fun _ => EmptyString;
  join := fun p name =>
    if is_empty p then name else p ++ "/" ++ name;
  with_suffix := fun p suffix => p ++ suffix;
  path_exists := fun p fs =>
    match lookup p fs with Some _ => true | None => false end;
  read_text := fun p fs =>
    match lookup p fs with
    | Some text => Return text
    | None => Raise (missing p)
    end;
  write_text := fun p _ fs => (Raise (denied p), fs);
  copy2 := fun _ dst fs => (Raise (denied dst), fs);
  replace := fun _ dst fs => (Raise (denied dst), fs);
  unlink := fun p fs => (Raise (denied p), fs)
|}.

(** A deployment file as [setup_auth.py] leaves it, with a last line that has
    no line feed, and the lines [deploy_runtime.py] writes. *)
Definition auth_env : string :=
  "# === AUTHENTICATION ===" ++ nl ++
  "# Cognito Configuration" ++ nl ++
  "export COGNITO_USER_POOL_ID=us-west-2_Ab12" ++ nl ++
  "export COGNITO_DOMAIN = auth.example.com" ++ nl ++
  nl ++
  "# === NOTES ===" ++ nl ++
  "REGION=us-west-2".

Definition runtime_content : list string :=
  ["# Phase 1 Runtime";
   "export AGENTCORE_RUNTIME_ARN_SIMPLE=arn:aws:bedrock:runtime/simple";
   "";
   "REGION=eu-west-1"].

Definition deployed : env_state mem_files :=
  {| files := [(".env", auth_env)];
     clock := mk_datetime 2025 12 19 10 0 0;
     printed := [] |}.

End EnvUtils.

(** ** [test_runtime.py]: the configuration *)

Module TestRuntime.
Import EnvUtils.

(** The loop over the lines of one file.  The lines that split a line into
    key and value are those of [env_utils.py]. *)
Fixpoint load_lines (lines : list string) (config : dict) : outcome dict :=
  match lines with
  | [] => Return config
  | line :: rest =>
      if contains "=" line && negb (startswith line "#")
      then
        let line := strip line in
        match parse_assignment line with
        | Raise e => Raise e
        | Return (key, value) => load_lines rest (dict_set key value config)
        end
      else load_lines rest config
  end.

(** One turn of the loop, for the properties. *)
Definition load_step (config : dict) (line : string) : dict :=
  if contains "=" line && negb (startswith line "#")
  then dict_set (fst (assignment (strip line))) (snd (assignment (strip line)))
         config
  else config.

Section WithFileSystem.

Context {F : Type} `{FileSystem F}.

(** The body of the two loops over the files. *)
Definition load_file (env_file : path) (config : dict)
    : M (env_state F) dict :=
  file_exists <- exists_ env_file ;;
  if file_exists
  then lines <- open_lines env_file ;; lift (load_lines lines config)
  else ret config.

Fixpoint load_files (env_files : list path) (config : dict)
    : M (env_state F) dict :=
  match env_files with
  | [] => ret config
  | env_file :: rest =>
      config <- load_file env_file config ;;
      load_files rest config
  end.

(** [this_file] is [Path(__file__)]. *)
Definition load_configuration (this_file : path) : M (env_state F) dict :=
  let config : dict := [] in
  let deployment_env :=
    join (join (parent this_file) "deployment") ".env.deployment" in
  let cognito_env :=
    join (join (parent this_file) "deployment") ".env.cognito" in
  let parent_env := join (parent (parent this_file)) ".env" in
  let current_env := join (parent this_file) ".env" in
  config <- load_files [deployment_env; cognito_env] config ;;
  config <- load_files [parent_env; current_env] config ;;
  ret config.

End WithFileSystem.

End TestRuntime.


(* ================================================================== *)
(** * Part II: theorems                                                 *)
(* ================================================================== *)

(** ** Text and finite checks *)

Module PyFacts.

(** A check by [all_below] gives the property for every number below the
    bound. *)
Lemma all_below_spec f k :
  all_below f k = true -> forall n, 0 <= n < Z.of_nat k -> f n = true.
Proof.
  induction k as [|k IH]; intros Hall n Hn.
  - simpl in Hn. lia.
  - simpl in Hall. apply andb_true_iff in Hall as [Hk Hrest].
    destruct (Z.eq_dec n (Z.of_nat k)) as [->|Hne]; [exact Hk|].
    apply IH; [exact Hrest | lia].
Qed.

Lemma append_assoc (a b c : string) : (a ++ b) ++ c = a ++ (b ++ c).
Proof. induction a as [|x a IH]; simpl; [reflexivity | now rewrite IH]. Qed.

Lemma append_nil_r (s : string) : s ++ EmptyString = s.
Proof. induction s; simpl; [reflexivity | now rewrite IHs]. Qed.

Lemma length_append (x y : string) :
  String.length (x ++ y) = (String.length x + String.length y)%nat.
Proof. induction x; simpl; [reflexivity | now rewrite IHx]. Qed.

Lemma all_chars_app p a b :
  all_chars p (a ++ b) = all_chars p a && all_chars p b.
Proof.
  induction a as [|x a IH]; simpl; [reflexivity|].
  rewrite IH. now rewrite andb_assoc.
Qed.

(** The decimal text of a number has no line feed. *)
Lemma string_of_uint_no_nl u : all_chars not_nl (NilEmpty.string_of_uint u) = true.
Proof. induction u; simpl; auto. Qed.

Lemma str_int_no_nl n : all_chars not_nl (str_int n) = true.
Proof.
  unfold str_int. destruct (Z.to_int n) as [u|u]; simpl.
  - destruct u; try reflexivity; apply (string_of_uint_no_nl (_ u)) || idtac;
      simpl; apply string_of_uint_no_nl.
  - destruct u; try reflexivity; simpl; apply string_of_uint_no_nl.
Qed.

Lemma zeros_no_nl k : all_chars not_nl (zeros k) = true.
Proof. induction k; simpl; auto. Qed.

Lemma zfill_no_nl w n : all_chars not_nl (zfill w (str_int n)) = true.
Proof.
  unfold zfill. rewrite all_chars_app, zeros_no_nl, str_int_no_nl. reflexivity.
Qed.

(** Splitting at line feeds gives back the lines that were joined. *)
Lemma split_lines_line a b :
  all_chars not_nl a = true ->
  split_lines (a ++ String (ascii_of_nat 10) b) = a :: split_lines b.
Proof.
  change (ascii_of_nat 10) with "010"%char.
  induction a as [|x a IH]; intros Ha.
  - reflexivity.
  - cbn [all_chars] in Ha. apply andb_true_iff in Ha as [Hx Ha].
    unfold not_nl in Hx. change (ascii_of_nat 10) with "010"%char in Hx.
    change (split_lines (String x (a ++ String "010" b))
            = String x a :: split_lines b).
    change (split_lines (String x (a ++ String "010" b)))
      with (if Ascii.eqb x "010" then EmptyString :: split_lines (a ++ String "010" b)
            else match split_lines (a ++ String "010" b) with
                 | [] => [String x EmptyString]
                 | l :: ls => String x l :: ls
                 end).
    destruct (Ascii.eqb x "010"); [discriminate|].
    rewrite (IH Ha). reflexivity.
Qed.

Lemma split_lines_last a :
  all_chars not_nl a = true -> split_lines a = [a].
Proof.
  induction a as [|x a IH]; intros Ha.
  - reflexivity.
  - cbn [all_chars] in Ha. apply andb_true_iff in Ha as [Hx Ha].
    unfold not_nl in Hx. change (ascii_of_nat 10) with "010"%char in Hx.
    change (split_lines (String x a))
      with (if Ascii.eqb x "010" then EmptyString :: split_lines a
            else match split_lines a with
                 | [] => [String x EmptyString]
                 | l :: ls => String x l :: ls
                 end).
    destruct (Ascii.eqb x "010"); [discriminate|].
    rewrite (IH Ha). reflexivity.
Qed.

Lemma split_lines_join l ls :
  forallb (all_chars not_nl) (l :: ls) = true ->
  split_lines (join nl (l :: ls)) = l :: ls.
Proof.
  revert l. induction ls as [|l' ls IH]; intros l H.
  - cbn in H. rewrite andb_true_r in H. apply split_lines_last. exact H.
  - cbn [forallb] in H. apply andb_true_iff in H as [Hl H].
    change (join nl (l :: l' :: ls))
      with (l ++ String (ascii_of_nat 10) (join nl (l' :: ls))).
    rewrite (split_lines_line _ _ Hl). rewrite (IH l' H). reflexivity.
Qed.

End PyFacts.
Import PyFacts.

(** ** The calendar of [datetime] *)

Module DatetimeFacts.

(** A year written as 400-year cycles, centuries, 4-year cycles and years:
    the days before it and whether it is a leap year. *)
Lemma days_before_year_decomp n400 n100 n4 n1 :
  0 <= n100 <= 3 -> 0 <= n4 <= 24 -> 0 <= n1 <= 3 ->
  days_before_year (n400 * 400 + 1 + n100 * 100 + n4 * 4 + n1)
  = 146097 * n400 + 36524 * n100 + 1461 * n4 + 365 * n1.
Proof.
  intros H100 H4 H1. unfold days_before_year.
  Z.div_mod_to_equations. lia.
Qed.

Lemma is_leap_decomp n400 n100 n4 n1 :
  0 <= n100 <= 3 -> 0 <= n4 <= 24 -> 0 <= n1 <= 3 ->
  is_leap (n400 * 400 + 1 + n100 * 100 + n4 * 4 + n1)
  = (n1 =? 3) && (negb (n4 =? 24) || (n100 =? 3)).
Proof.
  intros H100 H4 H1. unfold is_leap.
  destruct (Z.eqb_spec n1 3), (Z.eqb_spec n4 24), (Z.eqb_spec n100 3); simpl;
    repeat match goal with
           | |- context [?a mod ?b =? 0] => destruct (Z.eqb_spec (a mod b) 0)
           end; simpl; try reflexivity; exfalso;
    Z.div_mod_to_equations; lia.
Qed.

(** A year has 365 days, or 366 when it is a leap year. *)
Lemma days_before_year_succ y :
  days_before_year (y + 1) = days_before_year y + 365 + (if is_leap y then 1 else 0).
Proof.
  unfold days_before_year, is_leap.
  replace (y + 1 - 1) with y by lia.
  repeat match goal with
         | |- context [?a mod ?b =? 0] => destruct (Z.eqb_spec (a mod b) 0)
         end; simpl; Z.div_mod_to_equations; lia.
Qed.

(** [month_day] is right on each of the 365 days it is used for, by
    evaluation. *)
Lemma month_day_spec leapyear n :
  0 <= n < 365 ->
  month_day_ok leapyear n = true.
Proof.
  intros Hn.
  assert (H : all_below (month_day_ok leapyear) 365 = true)
    by (destruct leapyear; vm_compute; reflexivity).
  apply (all_below_spec _ _ H). simpl. lia.
Qed.

Ltac month_case :=
  cbv [DAYS_IN_MONTH DAYS_BEFORE_MONTH Z.eqb Z.ltb Z.compare
       Pos.compare Pos.compare_cont Pos.eqb andb] in *; lia.

(** [ord2ymd] gives a date of the calendar, and [ymd2ord] leads back from
    it. *)
Lemma ord2ymd_spec ordinal :
  1 <= ordinal ->
  let ymd := ord2ymd ordinal in
  let y := fst (fst ymd) in
  let m := snd (fst ymd) in
  let d := snd ymd in
  1 <= y /\ 1 <= m <= 12 /\ 1 <= d <= days_in_month y m
  /\ ymd2ord y m d = ordinal.
Proof.
  intros Hord. unfold ord2ymd.
  set (n0 := ordinal - 1).
  set (n400 := n0 / DI400Y). set (r1 := n0 mod DI400Y).
  set (n100 := r1 / DI100Y). set (r2 := r1 mod DI100Y).
  set (n4 := r2 / DI4Y). set (r3 := r2 mod DI4Y).
  set (n1 := r3 / 365). set (n := r3 mod 365).
  assert (E0 : n0 = 146097 * n400 + r1 /\ 0 <= r1 < 146097 /\ 0 <= n400).
  { subst n400 r1. unfold DI400Y. Z.div_mod_to_equations. lia. }
  assert (E1 : r1 = 36524 * n100 + r2 /\ 0 <= r2 < 36524 /\ 0 <= n100 <= 4).
  { subst n100 r2. unfold DI100Y. Z.div_mod_to_equations. lia. }
  assert (E2 : r2 = 1461 * n4 + r3 /\ 0 <= r3 < 1461 /\ 0 <= n4 <= 24).
  { subst n4 r3. unfold DI4Y. Z.div_mod_to_equations. lia. }
  assert (E3 : r3 = 365 * n1 + n /\ 0 <= n < 365 /\ 0 <= n1 <= 4).
  { subst n1 n. Z.div_mod_to_equations. lia. }
  clearbody n400 r1 n100 r2 n4 r3 n1 n. subst n0.
  destruct E0 as (E0 & B0 & P0), E1 as (E1 & B1 & P1),
           E2 as (E2 & B2 & P2), E3 as (E3 & B3 & P3).
  destruct ((n1 =? 4) || (n100 =? 4)) eqn:Hspecial; cbv zeta.
  - (* the last day of a leap year *)
    apply orb_true_iff in Hspecial.
    cbn [fst snd].
    assert (Hy : n400 * 400 + 1 + n100 * 100 + n4 * 4 + n1 - 1
                 = n400 * 400 + 1 + (n100 * 100 + n4 * 4 + n1 - 1)) by lia.
    assert (Hleap : is_leap (n400 * 400 + 1 + n100 * 100 + n4 * 4 + n1 - 1) = true).
    { unfold is_leap.
      repeat match goal with
             | |- context [?a mod ?b =? 0] => destruct (Z.eqb_spec (a mod b) 0)
             end; simpl; try reflexivity; exfalso;
        destruct Hspecial as [Hs|Hs]; apply Z.eqb_eq in Hs;
        Z.div_mod_to_equations; lia. }
    unfold ymd2ord, days_in_month, days_before_month. rewrite Hleap. simpl.
    split; [lia|]. split; [lia|]. split; [lia|].
    unfold days_before_year.
    destruct Hspecial as [Hs|Hs]; apply Z.eqb_eq in Hs;
      Z.div_mod_to_equations; lia.
  - apply orb_false_iff in Hspecial as [Hn1 Hn100].
    apply Z.eqb_neq in Hn1. apply Z.eqb_neq in Hn100.
    cbn [fst snd].
    pose proof (month_day_spec
                  ((n1 =? 3) && (negb (n4 =? 24) || (n100 =? 3))) n B3) as Hmd.
    unfold month_day_ok in Hmd. cbv zeta in Hmd.
    repeat (apply andb_true_iff in Hmd as [Hmd ?]).
    unfold ymd2ord, days_in_month, days_before_month.
    rewrite is_leap_decomp by lia.
    rewrite days_before_year_decomp by lia.
    set (md := month_day ((n1 =? 3) && (negb (n4 =? 24) || (n100 =? 3))) n) in *.
    set (lp := (n1 =? 3) && (negb (n4 =? 24) || (n100 =? 3))) in *.
    clearbody md lp.
    cbn [fst snd] in *.
    set (m := fst md) in *. set (d := snd md) in *. clearbody m d. clear md.
    apply Z.leb_le in Hmd, H2, H1, H0. apply Z.eqb_eq in H.
    assert (Hm : m = 1 \/ m = 2 \/ m = 3 \/ m = 4 \/ m = 5 \/ m = 6 \/ m = 7
                 \/ m = 8 \/ m = 9 \/ m = 10 \/ m = 11 \/ m = 12) by lia.
    destruct lp;
      destruct Hm as [Hm|[Hm|[Hm|[Hm|[Hm|[Hm|[Hm|[Hm|[Hm|[Hm|[Hm|Hm]]]]]]]]]]];
      subst m; month_case.
Qed.

(** Later dates have larger ordinals. *)
Lemma days_before_year_mono a b :
  a <= b -> days_before_year a + 365 * (b - a) <= days_before_year b.
Proof.
  intros Hab. unfold days_before_year. Z.div_mod_to_equations. lia.
Qed.

Ltac month_cases m :=
  let Hm := fresh "Hm" in
  assert (Hm : m = 1 \/ m = 2 \/ m = 3 \/ m = 4 \/ m = 5 \/ m = 6 \/ m = 7
               \/ m = 8 \/ m = 9 \/ m = 10 \/ m = 11 \/ m = 12) by lia;
  destruct Hm as [Hm|[Hm|[Hm|[Hm|[Hm|[Hm|[Hm|[Hm|[Hm|[Hm|[Hm|Hm]]]]]]]]]]];
  subst m.

Lemma day_of_year_bounds y m d :
  1 <= m <= 12 -> 1 <= d <= days_in_month y m ->
  1 <= days_before_month y m + d <= 365 + (if is_leap y then 1 else 0).
Proof.
  intros Hm Hd. unfold days_in_month, days_before_month in *.
  destruct (is_leap y); month_cases m; month_case.
Qed.

Lemma days_before_month_next y m1 m2 :
  1 <= m1 -> m1 < m2 -> m2 <= 12 ->
  days_before_month y m1 + days_in_month y m1 <= days_before_month y m2.
Proof.
  intros H1 H12 H2. unfold days_in_month, days_before_month.
  destruct (is_leap y); month_cases m1; month_cases m2;
    try lia; month_case.
Qed.

Lemma ymd2ord_lt y1 m1 d1 y2 m2 d2 :
  1 <= m1 <= 12 -> 1 <= d1 <= days_in_month y1 m1 ->
  1 <= m2 <= 12 -> 1 <= d2 <= days_in_month y2 m2 ->
  lex_lt [y1; m1; d1] [y2; m2; d2] = true ->
  ymd2ord y1 m1 d1 < ymd2ord y2 m2 d2.
Proof.
  intros Hm1 Hd1 Hm2 Hd2 Hlt. unfold ymd2ord.
  pose proof (day_of_year_bounds y1 m1 d1 Hm1 Hd1) as B1.
  pose proof (day_of_year_bounds y2 m2 d2 Hm2 Hd2) as B2.
  cbn [lex_lt] in Hlt.
  apply orb_true_iff in Hlt as [Hy|Hlt].
  - apply Z.ltb_lt in Hy.
    pose proof (days_before_year_succ y1) as Hs.
    pose proof (days_before_year_mono (y1 + 1) y2 ltac:(lia)) as Hmono.
    destruct (is_leap y1); lia.
  - apply andb_true_iff in Hlt as [Hy Hlt]. apply Z.eqb_eq in Hy. subst y2.
    apply orb_true_iff in Hlt as [Hm|Hlt].
    + apply Z.ltb_lt in Hm.
      pose proof (days_before_month_next y1 m1 m2 ltac:(lia) Hm ltac:(lia)).
      lia.
    + apply andb_true_iff in Hlt as [Hm Hlt]. apply Z.eqb_eq in Hm. subst m2.
      apply orb_true_iff in Hlt as [Hd|Hlt].
      * apply Z.ltb_lt in Hd. lia.
      * apply andb_true_iff in Hlt as [_ Hlt]. discriminate.
Qed.

(** The order of date-times is the order of their positions on the time
    line. *)
Lemma valid_fields dt :
  valid dt = true ->
  (1 <= year dt <= 9999) /\ (1 <= month dt <= 12)
  /\ (1 <= day dt <= days_in_month (year dt) (month dt))
  /\ (0 <= hour dt <= 23) /\ (0 <= minute dt <= 59) /\ (0 <= second dt <= 59).
Proof.
  unfold valid, valid_date, valid_time, MINYEAR, MAXYEAR. intros H.
  repeat (apply andb_true_iff in H as [H ?]).
  repeat match goal with
         | H : (_ <=? _) = true |- _ => apply Z.leb_le in H
         end.
  lia.
Qed.

Lemma lex_lt_total a b c d e f a' b' c' d' e' f' :
  lex_lt [a; b; c; d; e; f] [a'; b'; c'; d'; e'; f'] = false ->
  lex_lt [a'; b'; c'; d'; e'; f'] [a; b; c; d; e; f] = false ->
  a = a' /\ b = b' /\ c = c' /\ d = d' /\ e = e' /\ f = f'.
Proof.
  cbn [lex_lt]. intros H1 H2.
  repeat match goal with
         | H : (_ || _) = false |- _ => apply orb_false_iff in H as [? ?]
         | H : (?x <? ?y) = false |- _ => apply Z.ltb_ge in H
         | H : (?x =? ?y) && _ = false |- _ =>
             destruct (Z.eqb_spec x y); [cbn [andb] in H | try lia]
         end; lia.
Qed.

Lemma datetime_lt_minutes a b :
  valid a = true -> valid b = true ->
  datetime_lt a b = true -> minutes_of a <= minutes_of b.
Proof.
  intros Va Vb Hlt.
  apply valid_fields in Va as (Ya & Ma & Da & Ha & Mia & Sa).
  apply valid_fields in Vb as (Yb & Mb & Db & Hb & Mib & Sb).
  unfold minutes_of, toordinal.
  destruct (lex_lt [year a; month a; day a] [year b; month b; day b]) eqn:Hdate.
  - pose proof (ymd2ord_lt _ _ _ _ _ _ Ma Da Mb Db Hdate). lia.
  - unfold datetime_lt, field_list in Hlt. cbn [lex_lt] in Hlt, Hdate.
    repeat match goal with
           | H : (_ || _) = false |- _ => apply orb_false_iff in H as [? ?]
           | H : (?x <? ?y) = false |- _ => apply Z.ltb_ge in H
           | H : (?x =? ?y) && _ = false |- _ =>
               destruct (Z.eqb_spec x y); [cbn [andb] in H | clear H]
           | H : (_ || _) = true |- _ => apply orb_true_iff in H as [H|H]
           | H : (_ && _) = true |- _ => apply andb_true_iff in H as [? H]
           | H : (_ <? _) = true |- _ => apply Z.ltb_lt in H
           | H : (_ =? _) = true |- _ => apply Z.eqb_eq in H
           | H : false = true |- _ => discriminate H
           | H : true = false |- _ => discriminate H
           end; try lia;
    repeat match goal with
           | H : year a = year b |- _ => rewrite H in *; clear H
           | H : month a = month b |- _ => rewrite H in *; clear H
           | H : day a = day b |- _ => rewrite H in *; clear H
           end; try lia.
Qed.

Lemma minutes_lt_datetime_lt a b :
  valid a = true -> valid b = true ->
  minutes_of a < minutes_of b -> datetime_lt a b = true.
Proof.
  intros Va Vb Hlt.
  destruct (datetime_lt a b) eqn:Hab; [reflexivity|exfalso].
  destruct (datetime_lt b a) eqn:Hba.
  - pose proof (datetime_lt_minutes b a Vb Va Hba). lia.
  - unfold datetime_lt, field_list in Hab, Hba.
    pose proof (lex_lt_total _ _ _ _ _ _ _ _ _ _ _ _ Hab Hba) as (E1&E2&E3&E4&E5&E6).
    unfold minutes_of, toordinal in Hlt.
    rewrite E1, E2, E3, E4, E5 in Hlt. lia.
Qed.

(** What [strptime] returns is a date-time of the calendar with no
    seconds, and what it raises is a [ValueError]. *)
Lemma check_date_ok y m d :
  check_date y m d = Return tt -> valid_date y m d = true.
Proof.
  unfold check_date, valid_date.
  destruct ((MINYEAR <=? y) && (y <=? MAXYEAR)) eqn:Hy; cbn [negb]; [|discriminate].
  destruct ((1 <=? m) && (m <=? 12)) eqn:Hm; cbn [negb]; [|discriminate].
  destruct ((1 <=? d) && (d <=? days_in_month y m)) eqn:Hd; cbn [negb]; [|discriminate].
  intros _.
  apply andb_true_iff in Hy as [Hy1 Hy2], Hm as [Hm1 Hm2], Hd as [Hd1 Hd2].
  rewrite ?Hy1, ?Hy2, ?Hm1, ?Hm2, ?Hd1, ?Hd2. reflexivity.
Qed.

Lemma check_time_ok h mi s :
  check_time h mi s = Return tt -> valid_time h mi s = true.
Proof.
  unfold check_time, valid_time.
  destruct ((0 <=? h) && (h <=? 23)) eqn:Hh; cbn [negb]; [|discriminate].
  destruct ((0 <=? mi) && (mi <=? 59)) eqn:Hm; cbn [negb]; [|discriminate].
  destruct ((0 <=? s) && (s <=? 59)) eqn:Hs; cbn [negb]; [|discriminate].
  intros _.
  apply andb_true_iff in Hh as [Hh1 Hh2], Hm as [Hm1 Hm2], Hs as [Hs1 Hs2].
  rewrite ?Hh1, ?Hh2, ?Hm1, ?Hm2, ?Hs1, ?Hs2. reflexivity.
Qed.

Lemma datetime_new_valid y m d h mi s dt :
  datetime_new y m d h mi s = Return dt ->
  valid dt = true /\ dt = mk_datetime y m d h mi s.
Proof.
  unfold datetime_new.
  destruct (check_date y m d) as [[]|] eqn:Hd; [|discriminate].
  destruct (check_time h mi s) as [[]|] eqn:Ht; [|discriminate].
  intros [= <-]. split; [|reflexivity].
  unfold valid. cbn [year month day hour minute second].
  rewrite (check_date_ok _ _ _ Hd), (check_time_ok _ _ _ Ht). reflexivity.
Qed.

Lemma strptime_valid data dt :
  strptime data "%Y-%m-%d %H:%M" = Return dt ->
  valid dt = true /\ second dt = 0.
Proof.
  unfold strptime.
  destruct (format_regex "%Y-%m-%d %H:%M") as [r|]; [|discriminate].
  destruct (re_match r data) as [[g rest]|]; [|discriminate].
  destruct (negb (is_empty rest)); [discriminate|].
  destruct (check_date _ _ _); [|discriminate].
  intros Hnew. apply datetime_new_valid in Hnew as [Hv ->]. split; [exact Hv|reflexivity].
Qed.

Lemma strptime_raises_ValueError data e :
  strptime data "%Y-%m-%d %H:%M" = Raise e -> exn_cls e = ValueError.
Proof.
  unfold strptime.
  destruct (format_regex "%Y-%m-%d %H:%M") as [r|]; [|intros [= <-]; reflexivity].
  destruct (re_match r data) as [[g rest]|]; [|intros [= <-]; reflexivity].
  destruct (negb (is_empty rest)); [intros [= <-]; reflexivity|].
  unfold datetime_new.
  set (y := field "Y" 1900 g). set (m := field "m" 1 g). set (d := field "d" 1 g).
  set (h := field "H" 0 g). set (mi := field "M" 0 g).
  assert (Hcd : forall e', check_date y m d = Raise e' -> exn_cls e' = ValueError).
  { unfold check_date. intros e'.
    repeat match goal with
           | |- context [if ?c then _ else _] => destruct c
           end; intros [= <-]; reflexivity. }
  assert (Hct : forall e', check_time h mi 0 = Raise e' -> exn_cls e' = ValueError).
  { unfold check_time. intros e'.
    repeat match goal with
           | |- context [if ?c then _ else _] => destruct c
           end; intros [= <-]; reflexivity. }
  destruct (check_date y m d) as [[]|e1] eqn:Hd; [|intros [= <-]; eauto].
  destruct (check_time h mi 0) as [[]|e2] eqn:Ht; [discriminate|intros [= <-]; eauto].
Qed.

(** Durations and sums. *)
Lemma timedelta_minutes_ok n :
  - 1440 * 999999999 <= n < 1440 * 1000000000 ->
  timedelta_minutes n = Return (mk_timedelta (n * 60 / 86400) ((n * 60) mod 86400)).
Proof.
  intros Hn. unfold timedelta_minutes, MAX_DELTA_DAYS.
  assert (H1 : - 999999999 <= n * 60 / 86400 <= 999999999)
    by (Z.div_mod_to_equations; lia).
  repeat match goal with
         | |- context [?a <? ?b] => rewrite (proj2 (Z.ltb_ge a b)) by lia
         end.
  reflexivity.
Qed.

Lemma timedelta_minutes_raises n e :
  timedelta_minutes n = Raise e -> exn_cls e = OverflowError.
Proof.
  unfold timedelta_minutes.
  repeat match goal with
         | |- context [if ?c then _ else _] => destruct c
         end; intros [= <-]; reflexivity.
Qed.

Lemma ymd2ord_bounds y m d :
  1 <= y <= 9999 -> 1 <= m <= 12 -> 1 <= d <= days_in_month y m ->
  1 <= ymd2ord y m d <= MAXORDINAL.
Proof.
  intros Hy Hm Hd. unfold ymd2ord, MAXORDINAL.
  pose proof (day_of_year_bounds y m d Hm Hd) as B.
  pose proof (days_before_year_succ y) as S.
  pose proof (days_before_year_mono 1 y ltac:(lia)) as L.
  pose proof (days_before_year_mono (y + 1) 10000 ltac:(lia)) as U.
  change (days_before_year 1) with 0 in L.
  change (days_before_year 10000) with 3652059 in U.
  destruct (is_leap y); lia.
Qed.

Lemma minutes_of_bounds dt :
  valid dt = true -> MIN_MINUTES <= minutes_of dt <= MAX_MINUTES.
Proof.
  intros V. apply valid_fields in V as (Y & M & D & H & Mi & S).
  pose proof (ymd2ord_bounds _ _ _ Y M D) as B.
  change MIN_MINUTES with 1440. change MAX_MINUTES with 5258966399.
  unfold minutes_of, toordinal, MAXORDINAL in *. lia.
Qed.

Lemma ord2ymd_valid ordinal :
  1 <= ordinal <= MAXORDINAL ->
  let ymd := ord2ymd ordinal in
  valid_date (fst (fst ymd)) (snd (fst ymd)) (snd ymd) = true
  /\ ymd2ord (fst (fst ymd)) (snd (fst ymd)) (snd ymd) = ordinal.
Proof.
  intros [Hlo Hhi]. cbv zeta.
  pose proof (ord2ymd_spec ordinal Hlo) as (Hy & Hm & Hd & Hord). cbv zeta in *.
  set (y := fst (fst (ord2ymd ordinal))) in *.
  set (m := snd (fst (ord2ymd ordinal))) in *.
  set (d := snd (ord2ymd ordinal)) in *.
  split; [|exact Hord].
  assert (Hmax : y <= 9999).
  { destruct (Z_le_gt_dec y 9999) as [|Hgt]; [assumption|exfalso].
    pose proof (day_of_year_bounds y m d Hm Hd) as B.
    pose proof (days_before_year_mono 10000 y ltac:(lia)) as U.
    change (days_before_year 10000) with 3652059 in U.
    unfold ymd2ord, MAXORDINAL in *. lia. }
  unfold valid_date, MINYEAR, MAXYEAR.
  repeat (apply andb_true_iff; split); apply Z.leb_le; lia.
Qed.

(** The sum of a date-time and a number of minutes: inside the range of
    [datetime] it is the date-time that many minutes later, outside it
    raises. *)
Lemma add_minutes start n :
  valid start = true -> second start = 0 ->
  MIN_MINUTES <= minutes_of start + n <= MAX_MINUTES ->
  exists delta end_dt,
    timedelta_minutes n = Return delta
    /\ add start delta = Return end_dt
    /\ valid end_dt = true /\ second end_dt = 0
    /\ minutes_of end_dt = minutes_of start + n.
Proof.
  intros V S0 Hrange.
  pose proof (minutes_of_bounds start V) as Bs.
  change MIN_MINUTES with 1440 in *. change MAX_MINUTES with 5258966399 in *.
  apply valid_fields in V as (Y & M & D & H & Mi & S).
  pose (secs := hour start * 3600 + minute start * 60 + 0 + (n * 60) mod 86400).
  pose (ordinal := toordinal start + n * 60 / 86400 + secs / 86400).
  assert (Hsecs : 0 <= secs mod 86400 < 86400 /\ (secs mod 86400) mod 60 = 0
                  /\ ordinal * 1440 + (secs mod 86400) / 60 = minutes_of start + n).
  { subst ordinal secs. unfold minutes_of. Z.div_mod_to_equations. lia. }
  destruct Hsecs as (Hs1 & Hs2 & Hs3).
  assert (Hord : 1 <= ordinal <= MAXORDINAL).
  { unfold MAXORDINAL. clear - Hs1 Hs3 Hrange. Z.div_mod_to_equations. lia. }
  destruct (ord2ymd_valid ordinal Hord) as [Hvd Hrt]. cbv zeta in *.
  assert (Hif : (0 <? ordinal) && (ordinal <=? MAXORDINAL) = true).
  { apply andb_true_iff. split; [apply Z.ltb_lt | apply Z.leb_le]; lia. }
  exists (mk_timedelta (n * 60 / 86400) ((n * 60) mod 86400)).
  exists (mk_datetime (fst (fst (ord2ymd ordinal))) (snd (fst (ord2ymd ordinal)))
            (snd (ord2ymd ordinal))
            (secs mod 86400 / 3600) ((secs mod 86400) mod 3600 / 60)
            (((secs mod 86400) mod 3600) mod 60)).
  split; [apply timedelta_minutes_ok; lia|].
  split.
  { unfold add. cbn [days seconds]. rewrite S0. fold secs. fold ordinal.
    rewrite Hif. reflexivity. }
  clearbody ordinal secs.
  unfold valid. unfold minutes_of at 1. unfold toordinal at 1.
  cbn [year month day hour minute second].
  rewrite Hvd, Hrt. cbn [andb].
  set (s' := secs mod 86400) in *. clearbody s'.
  split; [|split].
  - unfold valid_time.
    repeat (apply andb_true_iff; split); apply Z.leb_le;
      Z.div_mod_to_equations; lia.
  - Z.div_mod_to_equations; lia.
  - Z.div_mod_to_equations; lia.
Qed.

Lemma add_minutes_overflow start n delta :
  valid start = true -> second start = 0 ->
  timedelta_minutes n = Return delta ->
  ~ (MIN_MINUTES <= minutes_of start + n <= MAX_MINUTES) ->
  add start delta = Raise (mk_exn OverflowError "date value out of range").
Proof.
  intros V S0 Hd Hout.
  change MIN_MINUTES with 1440 in *. change MAX_MINUTES with 5258966399 in *.
  apply valid_fields in V as (Y & M & D & H & Mi & S).
  unfold timedelta_minutes in Hd.
  repeat match type of Hd with
         | (if ?c then _ else _) = _ => destruct c; [discriminate|]
         end.
  injection Hd as <-.
  unfold add. cbn [days seconds]. rewrite S0.
  set (secs := hour start * 3600 + minute start * 60 + 0 + (n * 60) mod 86400).
  set (ordinal := toordinal start + n * 60 / 86400 + secs / 86400).
  assert (Hord : ~ (1 <= ordinal <= MAXORDINAL)).
  { unfold MAXORDINAL. subst ordinal secs. unfold minutes_of in Hout.
    Z.div_mod_to_equations. lia. }
  destruct ((0 <? ordinal) && (ordinal <=? MAXORDINAL)) eqn:Hif; [|reflexivity].
  apply andb_true_iff in Hif as [H1 H2].
  apply Z.ltb_lt in H1. apply Z.leb_le in H2. lia.
Qed.

(** Some readings of [strptime]: the call of the specification, fields
    without their leading zero, a day the month does not have, text that is
    not a date. *)
Example strptime_padded :
  strptime "2025-12-19 10:00" "%Y-%m-%d %H:%M"
  = Return (mk_datetime 2025 12 19 10 0 0).
Proof. vm_compute. reflexivity. Qed.

Example strptime_unpadded :
  strptime "2025-1-5 9:05" "%Y-%m-%d %H:%M" = Return (mk_datetime 2025 1 5 9 5 0).
Proof. vm_compute. reflexivity. Qed.

Example strptime_no_such_day :
  strptime "2025-02-30 10:00" "%Y-%m-%d %H:%M"
  = Raise (mk_exn ValueError "day is out of range for month").
Proof. vm_compute. reflexivity. Qed.

Example strptime_trailing_text :
  strptime "2025-12-19 10:00:30" "%Y-%m-%d %H:%M"
  = Raise (mk_exn ValueError "unconverted data remains: :30").
Proof. vm_compute. reflexivity. Qed.

End DatetimeFacts.

(** ** [create_meeting_ics] *)

Module MeetingsFacts.
Import DatetimeFacts Meetings.

(** A stamp has no line feed. *)
Lemma stamp_no_nl dt : all_chars not_nl (stamp dt) = true.
Proof.
  unfold stamp. cbn [strftime directive_text Ascii.eqb Bool.eqb].
  repeat (rewrite all_chars_app || rewrite zfill_no_nl || rewrite str_int_no_nl
          || (cbn [all_chars not_nl Ascii.eqb Bool.eqb negb andb ascii_of_nat])).
  reflexivity.
Qed.

(** The three ways a call can go: the date and time do not parse; they
    parse and the end is a date-time; they parse and the end is out of
    range. *)
Lemma create_meeting_ics_parse_error title date time duration participants location
    description utcnow e :
  strptime (date ++ " " ++ time) "%Y-%m-%d %H:%M" = Raise e ->
  create_meeting_ics title date time duration participants location description
    utcnow = Raise e.
Proof. intros H. unfold create_meeting_ics. rewrite H. reflexivity. Qed.

Lemma create_meeting_ics_in_range title date time duration participants location
    description utcnow start :
  strptime (date ++ " " ++ time) "%Y-%m-%d %H:%M" = Return start ->
  MIN_MINUTES <= minutes_of start + duration <= MAX_MINUTES ->
  exists end_dt,
    valid end_dt = true /\ second end_dt = 0
    /\ minutes_of end_dt = minutes_of start + duration
    /\ create_meeting_ics title date time duration participants location
         description utcnow
       = Return (ics_head ++ ics_stamp (stamp utcnow)
                 ++ ics_event (stamp start) (stamp end_dt) title description
                      location participants).
Proof.
  intros Hparse Hrange.
  destruct (strptime_valid _ _ Hparse) as [V S0].
  destruct (add_minutes start duration V S0 Hrange)
    as (delta & end_dt & Hdelta & Hadd & Vend & Send & Hmin).
  exists end_dt. repeat split; try assumption.
  unfold create_meeting_ics. rewrite Hparse, Hdelta, Hadd.
  unfold ics_head, ics_stamp, ics_event, stamp.
  cbn [append]. rewrite !append_assoc. cbn [append]. reflexivity.
Qed.

(** Outside the range of [datetime] the call raises [OverflowError]. *)
Lemma create_meeting_ics_out_of_range title date time duration participants
    location description utcnow start :
  strptime (date ++ " " ++ time) "%Y-%m-%d %H:%M" = Return start ->
  ~ (MIN_MINUTES <= minutes_of start + duration <= MAX_MINUTES) ->
  exists e,
    create_meeting_ics title date time duration participants location
      description utcnow = Raise e
    /\ exn_cls e = OverflowError.
Proof.
  intros Hparse Hout.
  destruct (strptime_valid _ _ Hparse) as [V S0].
  unfold create_meeting_ics. rewrite Hparse.
  destruct (timedelta_minutes duration) as [delta|e] eqn:Hd.
  - rewrite (add_minutes_overflow start duration delta V S0 Hd Hout).
    eexists. split; reflexivity.
  - exists e. split; [reflexivity|]. apply (timedelta_minutes_raises _ _ Hd).
Qed.

Lemma create_meeting_ics_document title date time duration participants location
    description utcnow start delta end_dt :
  strptime (date ++ " " ++ time) "%Y-%m-%d %H:%M" = Return start ->
  timedelta_minutes duration = Return delta ->
  add start delta = Return end_dt ->
  create_meeting_ics title date time duration participants location
    description utcnow
  = Return (ics_head ++ ics_stamp (stamp utcnow)
            ++ ics_event (stamp start) (stamp end_dt) title description
                 location participants).
Proof.
  intros Hparse Hdelta Hadd.
  unfold create_meeting_ics. rewrite Hparse, Hdelta, Hadd.
  unfold ics_head, ics_stamp, ics_event, stamp.
  cbn [append]. rewrite !append_assoc. cbn [append]. reflexivity.
Qed.

(** Claim C5 (the program departs from it).  The call of the
    specification, [create_meeting("Sprint Review", "2025-12-19", "10:00", 60,
    ["Sarah", "David"])], returns at every reading of the clock the document
    whose lines are listed here: the start is 10:00, the end 11:00 (start plus
    60 minutes), the title is the SUMMARY, and the text ATTENDEE occurs twice.
    But the two attendees are joined by the empty text, so they share one
    line, [ATTENDEE;CN=SarahATTENDEE;CN=David], where the claim has one line
    for each participant. *)
Theorem sprint_review_attendees_share_one_line (utcnow : datetime) :
  exists doc,
    create_meeting_ics "Sprint Review" "2025-12-19" "10:00" 60
      ["Sarah"; "David"] "" "" utcnow = Return doc
    /\ split_lines doc
       = [ "BEGIN:VCALENDAR";
           "        VERSION:2.0";
           "        PRODID:-//Strands Tool//Meeting Scheduler//EN";
           "        BEGIN:VEVENT";
           "        UID:" ++ stamp utcnow ++ "-strands@tool";
           "        DTSTAMP:" ++ stamp utcnow;
           "        DTSTART:20251219T100000";
           "        DTEND:20251219T110000";
           "        SUMMARY:Sprint Review";
           "        DESCRIPTION:";
           "        LOCATION:";
           "        ATTENDEE;CN=SarahATTENDEE;CN=David";
           "        END:VEVENT";
           "        END:VCALENDAR";
           "        " ].
Proof.
  eexists. split.
  - apply (create_meeting_ics_document _ _ _ _ _ _ _ _
             (mk_datetime 2025 12 19 10 0 0) (mk_timedelta 0 3600)
             (mk_datetime 2025 12 19 11 0 0)); vm_compute; reflexivity.
  - match goal with
    | |- split_lines ?d = ?ls =>
        replace d with (join nl ls)
    end.
    + apply split_lines_join.
      cbn [forallb]. rewrite !all_chars_app, !stamp_no_nl. reflexivity.
    + unfold ics_head, ics_stamp, ics_event, join, nl.
      cbn [String.concat map append].
      rewrite !append_assoc. cbn [append]. reflexivity.
Qed.

(** The date of the specification's example of a failure, [Dec 19], is
    refused with the error of the parser. *)
Example dec_19_is_refused :
  create_meeting_ics "Sprint Review" "Dec 19" "10:00" 60 ["Sarah"; "David"] "" ""
    (mk_datetime 2025 12 1 9 30 0)
  = Raise (mk_exn ValueError
             "time data 'Dec 19 10:00' does not match format '%Y-%m-%d %H:%M'").
Proof. vm_compute. reflexivity. Qed.

(** Claim C7.  Two calls with the same arguments at two readings of the
    clock either raise the same exception or return two documents that are
    the same head, then the UID and DTSTAMP fields made from the reading of
    the clock, then the same DTSTART, DTEND, SUMMARY, DESCRIPTION, LOCATION
    and ATTENDEE fields: only UID and DTSTAMP can differ. *)
Theorem only_the_stamp_depends_on_the_clock title date time duration participants
    location description (now1 now2 : datetime) :
  (exists e,
      create_meeting_ics title date time duration participants location
        description now1 = Raise e
      /\ create_meeting_ics title date time duration participants location
           description now2 = Raise e)
  \/ (exists dtstart dtend,
        create_meeting_ics title date time duration participants location
          description now1
        = Return (ics_head ++ ics_stamp (stamp now1)
                  ++ ics_event dtstart dtend title description location
                       participants)
        /\ create_meeting_ics title date time duration participants location
             description now2
           = Return (ics_head ++ ics_stamp (stamp now2)
                     ++ ics_event dtstart dtend title description location
                          participants)).
Proof.
  destruct (strptime (date ++ " " ++ time) "%Y-%m-%d %H:%M") as [start|e] eqn:Hp.
  2:{ left. exists e. unfold create_meeting_ics. rewrite Hp. split; reflexivity. }
  destruct (timedelta_minutes duration) as [delta|e] eqn:Hd.
  2:{ left. exists e. unfold create_meeting_ics. rewrite Hp, Hd. split; reflexivity. }
  destruct (add start delta) as [end_dt|e] eqn:Ha.
  2:{ left. exists e. unfold create_meeting_ics. rewrite Hp, Hd, Ha.
      split; reflexivity. }
  right. exists (stamp start), (stamp end_dt).
  split; apply (create_meeting_ics_document _ _ _ _ _ _ _ _ _ _ _ Hp Hd Ha).
Qed.

(** Claim C10 as stated fails at the first day of the calendar: one minute
    before 0001-01-01 00:00 is not a date-time, and the call raises
    [OverflowError]. *)
Lemma negative_duration_before_the_first_day :
  create_meeting_ics "Standup" "0001-01-01" "00:00" (-1) ["Sarah"] "" ""
    (mk_datetime 2025 12 1 9 30 0)
  = Raise (mk_exn OverflowError "date value out of range").
Proof. vm_compute. reflexivity. Qed.

(** Claim C10, amended.  For a date and time that parse and a strictly
    negative duration whose end is not before 0001-01-01 00:00, the call
    succeeds: no check refuses the negative duration, and the document has a
    DTEND that is [duration] minutes after, so strictly before, its
    DTSTART. *)
Theorem negative_duration_ends_before_start title date time duration participants
    location description utcnow start :
  strptime (date ++ " " ++ time) "%Y-%m-%d %H:%M" = Return start ->
  duration < 0 ->
  MIN_MINUTES <= minutes_of start + duration ->
  exists end_dt,
    create_meeting_ics title date time duration participants location
      description utcnow
    = Return (ics_head ++ ics_stamp (stamp utcnow)
              ++ ics_event (stamp start) (stamp end_dt) title description
                   location participants)
    /\ minutes_of end_dt = minutes_of start + duration
    /\ datetime_lt end_dt start = true.
Proof.
  intros Hp Hneg Hmin.
  destruct (strptime_valid _ _ Hp) as [V S0].
  pose proof (minutes_of_bounds start V) as B.
  destruct (create_meeting_ics_in_range title date time duration participants
              location description utcnow start Hp ltac:(lia))
    as (end_dt & Vend & Send & Hm & Hdoc).
  exists end_dt. split; [exact Hdoc|]. split; [exact Hm|].
  apply minutes_lt_datetime_lt; [exact Vend | exact V | lia].
Qed.

Lemma negative_duration_ends_before_start_witness :
  exists end_dt,
    create_meeting_ics "Sprint Review" "2025-12-19" "10:00" (-90)
      ["Sarah"; "David"] "" "" (mk_datetime 2025 12 1 9 30 0)
    = Return (ics_head ++ ics_stamp (stamp (mk_datetime 2025 12 1 9 30 0))
              ++ ics_event (stamp (mk_datetime 2025 12 19 10 0 0)) (stamp end_dt)
                   "Sprint Review" "" "" ["Sarah"; "David"])
    /\ minutes_of end_dt = minutes_of (mk_datetime 2025 12 19 10 0 0) + (-90)
    /\ datetime_lt end_dt (mk_datetime 2025 12 19 10 0 0) = true.
Proof.
  apply (negative_duration_ends_before_start "Sprint Review" "2025-12-19" "10:00"
           (-90) ["Sarah"; "David"] "" "" (mk_datetime 2025 12 1 9 30 0)
           (mk_datetime 2025 12 19 10 0 0)).
  - vm_compute. reflexivity.
  - lia.
  - vm_compute. discriminate.
Defined.

(** A duration of zero gives an event that ends when it starts. *)
Example zero_length_event :
  create_meeting_ics "Retro" "2025-12-19" "10:00" 0 [] "" ""
    (mk_datetime 2025 12 1 9 30 0)
  = Return (ics_head ++ ics_stamp "20251201T093000"
            ++ ics_event "20251219T100000" "20251219T100000" "Retro" "" "" []).
Proof. vm_compute. reflexivity. Qed.

End MeetingsFacts.

(** ** [create_jira_ticket] *)

Module JiraFacts.
Import Jira.

(** Every key made of one of the five prefixes, a dash and a number from
    100 to 999 matches the pattern, by evaluation. *)
Lemma key_pattern_matches p n :
  In p ["DEV"; "OPS"; "TEST"; "PROD"; "SEC"] ->
  100 <= n <= 999 ->
  re_fullmatch key_pattern (p ++ "-" ++ str_int n) = true.
Proof.
  intros Hp Hn.
  assert (H : forallb (fun p =>
                all_below (fun k => re_fullmatch key_pattern
                                      (p ++ "-" ++ str_int (100 + k))) 900)
                ["DEV"; "OPS"; "TEST"; "PROD"; "SEC"] = true)
    by (vm_compute; reflexivity).
  rewrite forallb_forall in H. specialize (H p Hp).
  pose proof (all_below_spec _ _ H (n - 100) ltac:(lia)) as Hk.
  cbv beta in Hk. replace (100 + (n - 100)) with n in Hk by lia. exact Hk.
Qed.

Section Contract.

Variable G : Type.
Variable randbelow : Z -> G -> Z * G.

(** The contract of [_randbelow(n)]: a number from 0 to [n - 1]. *)
Hypothesis randbelow_range :
  forall n g, 0 < n -> 0 <= fst (randbelow n g) < n.

Lemma randint_range a b g :
  a <= b -> a <= fst (randint G randbelow a b g) <= b.
Proof.
  intros Hab. unfold randint.
  pose proof (randbelow_range (b - a + 1) g ltac:(lia)) as H.
  destruct (randbelow (b - a + 1) g) as [k g']. cbn [fst] in *. lia.
Qed.

Lemma choice_in {A} (first : A) others g :
  In (fst (choice G randbelow first others g)) (first :: others).
Proof.
  unfold choice.
  pose proof (randbelow_range (Z.of_nat (List.length (first :: others))) g
                ltac:(cbn [List.length]; lia)) as H.
  destruct (randbelow _ g) as [i g']. cbn [fst] in *.
  apply nth_In. lia.
Qed.

(** Claim C4.  With a generator that keeps the contract of [_randbelow],
    [create_jira_ticket] returns for every summary, description and tenant a
    record that is filled in: the key matches
    [^(DEV|OPS|TEST|PROD|SEC)-\d{3}$], the status is one of To Do, In Progress
    and Done, the priority one of Low, Medium and High, the creator one of the
    two fixed names, the summary and the description are those given, and the
    identifier is a number from 30000 to 99999 that also ends the locator.
    The function is total: it has no way to fail. *)
Theorem create_jira_ticket_populated summary description tenant_id st :
  let t := fst (create_jira_ticket G randbelow summary description tenant_id st) in
  re_fullmatch key_pattern (key t) = true
  /\ In (name (status (fields t))) ["To Do"; "In Progress"; "Done"]
  /\ In (name (priority (fields t))) ["Low"; "Medium"; "High"]
  /\ In (displayName (creator (fields t))) ["System Agent"; "Automation Bot"]
  /\ active (creator (fields t)) = true
  /\ Jira.summary (fields t) = summary
  /\ Jira.description (fields t) = description
  /\ (exists n, 30000 <= n <= 99999 /\ id t = str_int n
                /\ self t = "http://localhost:8080/rest/api/2/issue/" ++ str_int n).
Proof.
  unfold create_jira_ticket.
  pose proof (randint_range 30000 99999 (rng st) ltac:(lia)) as H1.
  destruct (randint G randbelow 30000 99999 (rng st)) as [n g1].
  pose proof (choice_in "DEV" ["OPS"; "TEST"; "PROD"; "SEC"] g1) as H2.
  destruct (choice G randbelow "DEV" ["OPS"; "TEST"; "PROD"; "SEC"] g1)
    as [project_key g2].
  pose proof (randint_range 100 999 g2 ltac:(lia)) as H3.
  destruct (randint G randbelow 100 999 g2) as [issue_number g3].
  pose proof (choice_in "To Do" ["In Progress"; "Done"] g3) as H4.
  destruct (choice G randbelow "To Do" ["In Progress"; "Done"] g3)
    as [status_name g4].
  pose proof (choice_in "Low" ["Medium"; "High"] g4) as H5.
  destruct (choice G randbelow "Low" ["Medium"; "High"] g4)
    as [priority_name g5].
  pose proof (choice_in "System Agent" ["Automation Bot"] g5) as H6.
  destruct (choice G randbelow "System Agent" ["Automation Bot"] g5)
    as [creator_name g6].
  cbn [fst] in *. cbv zeta.
  cbn [key fields status priority creator name displayName active
       Jira.summary Jira.description id self].
  split; [apply key_pattern_matches; assumption|].
  repeat (split; [assumption || reflexivity|]).
  exists n. repeat split; try lia.
Qed.

End Contract.

Lemma create_jira_ticket_populated_witness :
  (forall n g, 0 < n -> 0 <= fst (counter_randbelow n g) < n)
  /\ let t := fst (create_jira_ticket Z counter_randbelow "Fix login bug" "desc"
                     "default" {| rng := 7; stdout := [] |}) in
     re_fullmatch key_pattern (key t) = true
     /\ In (name (status (fields t))) ["To Do"; "In Progress"; "Done"]
     /\ In (name (priority (fields t))) ["Low"; "Medium"; "High"]
     /\ In (displayName (creator (fields t))) ["System Agent"; "Automation Bot"]
     /\ active (creator (fields t)) = true
     /\ Jira.summary (fields t) = "Fix login bug"
     /\ Jira.description (fields t) = "desc"
     /\ (exists n, 30000 <= n <= 99999 /\ id t = str_int n
                   /\ self t = "http://localhost:8080/rest/api/2/issue/" ++ str_int n).
Proof.
  assert (C : forall n g, 0 < n -> 0 <= fst (counter_randbelow n g) < n).
  { intros n g Hn. unfold counter_randbelow. cbn [fst].
    apply Z.mod_pos_bound. exact Hn. }
  split; [exact C|].
  apply (create_jira_ticket_populated Z counter_randbelow C).
Defined.

End JiraFacts.

(** ** [send_sns_email] *)

Module EmailFacts.
Import Email.

Section AnyService.

Context {W : Type} `{SNS W}.

(** Once the client is built, the tool returns a dict whatever [publish]
    does. *)
Lemma send_sns_email_reports_publish subject message w c w1 :
  boto3_client "sns" "us-west-2" w = (Return c, w1) ->
  match publish c "arn:aws:sns:us-west-2:905418322763:test" message subject w1 with
  | (Return response, w2) =>
      send_sns_email subject message w
      = (Return {| status := "success";
                   message :=
                     "Email successfully published to SNS topic 'test'. Message ID: "
                     ++ str_get "MessageId" response |}, w2)
  | (Raise e, w2) =>
      send_sns_email subject message w
      = (Return {| status := "error";
                   message := "Failed to publish email to SNS: " ++ exn_str e |},
         w2)
  end.
Proof.
  intros Hc. unfold send_sns_email, bind, try_except, ret. rewrite Hc.
  destruct (publish c _ message subject w1) as [[response|e] w2]; reflexivity.
Qed.

(** Claim C8 (the program departs from it).  The client is built by
    [boto3.client] before the [try] begins, so when that call raises, the
    exception leaves [send_sns_email]: the tool raises outward and returns no
    dict, where the claim has every failure of the call reported as
    [{status: "error", ...}]. *)
Theorem send_sns_email_client_failure_escapes subject message w e w1 :
  boto3_client "sns" "us-west-2" w = (Raise e, w1) ->
  send_sns_email subject message w = (Raise e, w1).
Proof.
  intros Hc. unfold send_sns_email, bind. rewrite Hc. reflexivity.
Qed.

End AnyService.

Lemma send_sns_email_client_failure_escapes_witness :
  @send_sns_email Z misconfigured_sns "Sprint Tasks" "US-102 goes to David" 0
  = (Raise (mk_exn (OtherException "ProfileNotFound")
              "The config profile (missing) could not be found"), 0).
Proof.
  apply (@send_sns_email_client_failure_escapes Z misconfigured_sns).
  reflexivity.
Defined.

Example send_sns_email_success :
  @send_sns_email Z working_sns "Sprint Tasks" "US-102 goes to David" 41
  = (Return {| status := "success";
               message := "Email successfully published to SNS topic 'test'. Message ID: msg-41" |},
     42).
Proof. reflexivity. Qed.

Example send_sns_email_publish_failure :
  @send_sns_email Z unreachable_sns "Sprint Tasks" "US-102 goes to David" 41
  = (Return {| status := "error";
               message := "Failed to publish email to SNS: Could not connect to the endpoint URL" |},
     41).
Proof. reflexivity. Qed.

End EmailFacts.

(** ** [OrchestratorAgent] *)

Module OrchestratorFacts.
Import Orchestrator.

(** The guard [q and q.strip()] of the batch call is the test that [q] is
    not empty after trimming. *)
Lemma requested_guard q : truthy q && truthy (strip q) = truthy (strip q).
Proof.
  destruct q as [|c t]; [reflexivity|]. reflexivity.
Qed.

Section AnyServices.

Context {E : Type} `{Services E}.

Lemma world_eta (w : world E) :
  {| calls := calls w; stdout := stdout w; ext := ext w |} = w.
Proof. destruct w; reflexivity. Qed.

(** Claim C3.  When the handlers that are called return, the batch call
    [coordinate_analysis] calls exactly the handlers whose sub-query is not
    empty after trimming, in the order jira, meetings, email (the calls are
    added to the record of calls in that order), and returns their labelled
    results joined by a blank line; when the three sub-queries are empty or
    blank it returns the fixed text and leaves the state as it was, so that no
    handler is called. *)
Theorem coordinate_analysis_batch inventory_query sales_query market_query w rs e' :
  replies (selected inventory_query sales_query market_query) (ext w)
  = (Return rs, e') ->
  coordinate_analysis inventory_query sales_query market_query w
  = (Return (aggregate (selected inventory_query sales_query market_query) rs),
     {| calls := (calls w ++ selected inventory_query sales_query market_query)%list;
        stdout := stdout w; ext := e' |})
  /\ List.length rs
     = List.length (selected inventory_query sales_query market_query)
  /\ (selected inventory_query sales_query market_query = [] ->
      coordinate_analysis inventory_query sales_query market_query w
      = (Return "No analysis was requested. Please specify at least one query.",
         w)).
Proof.
  unfold coordinate_analysis, selected, bind, ret, invoke, append.
  rewrite !requested_guard. cbn [filter snd]. unfold requested.
  destruct (truthy (strip inventory_query)), (truthy (strip sales_query)),
    (truthy (strip market_query)); cbn [replies ext calls stdout];
    repeat match goal with
           | |- context [sub_agent_query ?h ?q ?e] =>
               destruct (sub_agent_query h q e) as [[?r|?x] ?e1];
               cbn [replies ext calls stdout]
           end;
    intros Hr; try discriminate Hr; injection Hr as <- <-;
    (split; [|split; [reflexivity|intros Hnil; try discriminate Hnil]]);
    cbn [aggregate labelled batch_label app List.length];
    rewrite <- ?app_assoc; cbn [app]; rewrite ?app_nil_r, ?world_eta;
    reflexivity.
Qed.

(** When a handler raises, the batch call raises the same exception: the
    handlers after it are not called. *)
Lemma coordinate_analysis_raises inventory_query sales_query market_query w x e' :
  replies (selected inventory_query sales_query market_query) (ext w)
  = (Raise x, e') ->
  exists w',
    coordinate_analysis inventory_query sales_query market_query w = (Raise x, w')
    /\ ext w' = e'.
Proof.
  unfold coordinate_analysis, selected, bind, ret, invoke, append.
  rewrite !requested_guard. cbn [filter snd]. unfold requested.
  destruct (truthy (strip inventory_query)), (truthy (strip sales_query)),
    (truthy (strip market_query)); cbn [replies ext calls stdout];
    repeat match goal with
           | |- context [sub_agent_query ?h ?q ?e] =>
               destruct (sub_agent_query h q e) as [[?r|?x] ?e1];
               cbn [replies ext calls stdout]
           end;
    intros Hr; try discriminate Hr; injection Hr as <- <-;
    eexists; split; reflexivity.
Qed.

(** A call on an orchestrator that already has its agent. *)
Lemma query_with_agent prompt self w a :
  agent self = Some a ->
  query prompt (self, w) = (Return None, (self, w)).
Proof. intros Ha. unfold query. rewrite Ha. reflexivity. Qed.

(** The first call: the agent is built and called once; no check is made on
    the prompt. *)
Lemma query_first prompt self w e1 :
  agent self = None ->
  Agent_new (ext w) = (Return tt, e1) ->
  let a := {| system_prompt := create_system_prompt;
              tools := create_tools; messages := [] |} in
  let w2 := {| calls := calls w;
               stdout := print (stdout w) "✅ Agent created with 4 tools";
               ext := e1 |} in
  query prompt (self, w)
  = match Agent_call a prompt w2 with
    | (Return text, a', w3) => (Return (Some text), ({| agent := Some a' |}, w3))
    | (Raise e, a', w3) => (Raise e, ({| agent := Some a' |}, w3))
    end.
Proof.
  intros Ha Hn. unfold query, external, say. rewrite Ha, Hn.
  cbn [calls stdout ext]. reflexivity.
Qed.

(** Claim C1 (the program departs from it).  The two last statements of
    [query] are inside the [if not self.agent:] block, so once a first call
    has built the agent and returned the text of the session, a second call on
    the same orchestrator returns [None], not a text, and leaves the object and
    the world as they were: the session is kept but never called again. *)
Theorem query_again_returns_None prompt1 prompt2 self w text st1 :
  agent self = None ->
  query prompt1 (self, w) = (Return (Some text), st1) ->
  query prompt2 st1 = (Return None, st1).
Proof.
  intros Ha Hq. unfold query in Hq. rewrite Ha in Hq.
  destruct (external Agent_new w) as [[[]|e] w1]; [|discriminate Hq].
  destruct (say _ w1) as [u w2].
  destruct (Agent_call _ prompt1 w2) as [[[t|e] a'] w3]; [|discriminate Hq].
  injection Hq as <- <-.
  apply (query_with_agent prompt2 _ w3 a'). reflexivity.
Qed.

End AnyServices.

Lemma query_again_returns_None_witness :
  let st1 := snd (@query Z eager_services (VStr "Sarah: Welcome to Sprint Planning.")
                    ({| agent := None |}, world0)) in
  @query Z eager_services (VStr "David: I take US-102.") st1 = (Return None, st1).
Proof.
  apply (@query_again_returns_None Z eager_services
           (VStr "Sarah: Welcome to Sprint Planning.") (VStr "David: I take US-102.")
           {| agent := None |} world0
           ("[Jira tickets creation]" ++ nl ++ "done 0")).
  - reflexivity.
  - vm_compute. reflexivity.
Defined.

(** Claim C2 as stated fails: on a transcript of three spaces [query] does
    not raise; the session is called with it, and with a model that asks for a
    tool the jira handler is called. *)
Lemma blank_transcript_is_routed :
  exists a w,
    @query Z eager_services (VStr "   ") ({| agent := None |}, world0)
    = (Return (Some ("[Jira tickets creation]" ++ nl ++ "done 0")),
       ({| agent := Some a |}, w))
    /\ calls w = [(jira_agent, "   ")].
Proof.
  eexists. eexists. split; [vm_compute; reflexivity|reflexivity].
Qed.

Lemma coordinate_analysis_batch_witness :
  @coordinate_analysis Z eager_services "US-102 for David" "   " "Mail the plan" world0
  = (Return (aggregate (selected "US-102 for David" "   " "Mail the plan")
              ["done 0"; "done 1"]),
     {| calls := ([] ++ selected "US-102 for David" "   " "Mail the plan")%list;
        stdout := []; ext := 2 |})
  /\ List.length ["done 0"; "done 1"]
     = List.length (selected "US-102 for David" "   " "Mail the plan")
  /\ (selected "US-102 for David" "   " "Mail the plan" = [] ->
      @coordinate_analysis Z eager_services "US-102 for David" "   " "Mail the plan" world0
      = (Return "No analysis was requested. Please specify at least one query.",
         world0)).
Proof.
  apply (@coordinate_analysis_batch Z eager_services "US-102 for David" "   "
           "Mail the plan" world0 ["done 0"; "done 1"] 2).
  vm_compute. reflexivity.
Defined.

End OrchestratorFacts.

(** ** [agent_invocation] *)

Module AppFacts.
Import Orchestrator App.

Section AnyServices.

Context {E : Type} `{Services E}.

(** Claim C2, amended.  A request whose prompt is missing or empty (or any
    value that counts as false) is answered at the entrypoint with the text
    [Error: No prompt provided in payload]: nothing is raised, the
    orchestrator is not built and no handler is called, the state is the one
    before the call. *)
Theorem empty_prompt_is_answered_at_the_entrypoint items context w :
  truth (match lookup "prompt" items with Some v => v | None => VStr "" end)
  = false ->
  agent_invocation (VDict items) context w
  = (Return "Error: No prompt provided in payload", w).
Proof.
  intros Hfalsy.
  unfold agent_invocation, try_except, agent_invocation_body, bind, lift, get, ret.
  rewrite Hfalsy. reflexivity.
Qed.

(** Claim C9.  For every payload, [agent_invocation] returns a text: the
    text of its body when the body returns, and [Error: ] followed by the
    message of the exception when the body raises.  No exception leaves the
    entrypoint. *)
Theorem agent_invocation_always_returns_text payload context w :
  agent_invocation payload context w
  = match agent_invocation_body payload context w with
    | (Return text, w') => (Return text, w')
    | (Raise e, w') => (Return ("Error: " ++ exn_str e), w')
    end
  /\ exists text w', agent_invocation payload context w = (Return text, w').
Proof.
  unfold agent_invocation, try_except, ret.
  destruct (agent_invocation_body payload context w) as [[text|e] w'];
    (split; [reflexivity|eauto]).
Qed.

End AnyServices.

Lemma empty_prompt_is_answered_at_the_entrypoint_witness :
  @agent_invocation Z eager_services
    (VDict [("customer_id", VStr "sarah.manager"); ("prompt", VStr "")]) VNone world0
  = (Return "Error: No prompt provided in payload", world0).
Proof.
  apply (@empty_prompt_is_answered_at_the_entrypoint Z eager_services).
  reflexivity.
Defined.

Example missing_prompt :
  @agent_invocation Z eager_services (VDict []) VNone world0
  = (Return "Error: No prompt provided in payload", world0).
Proof. reflexivity. Qed.

Example blank_prompt_reaches_a_handler :
  exists w,
    @agent_invocation Z eager_services (VDict [("prompt", VStr "   ")]) VNone world0
    = (Return ("[Jira tickets creation]" ++ nl ++ "done 0"), w)
    /\ calls w = [(jira_agent, "   ")].
Proof. eexists. split; [vm_compute; reflexivity|reflexivity]. Qed.

Example number_prompt_is_reported :
  exists w,
    @agent_invocation Z eager_services (VDict [("prompt", VInt 5)]) VNone world0
    = (Return "Error: 'int' object is not subscriptable", w).
Proof. eexists. vm_compute. reflexivity. Qed.

Example payload_without_get_is_reported :
  @agent_invocation Z eager_services (VList [VStr "prompt"]) VNone world0
  = (Return "Error: 'list' object has no attribute 'get'", world0).
Proof. reflexivity. Qed.

End AppFacts.

(** ** More on [create_meeting_ics] *)

Module MeetingsMore.
Import DatetimeFacts Meetings MeetingsFacts.

(** Two date-times of the calendar at the same minute and second are the
    same. *)
Lemma minutes_of_inj a b :
  valid a = true -> valid b = true -> second a = second b ->
  minutes_of a = minutes_of b -> a = b.
Proof.
  intros Va Vb Hs Hm.
  apply valid_fields in Va as (Ya & Ma & Da & Ha & Mia & Sa).
  apply valid_fields in Vb as (Yb & Mb & Db & Hb & Mib & Sb).
  unfold minutes_of, toordinal in Hm.
  assert (Hord : ymd2ord (year a) (month a) (day a)
                 = ymd2ord (year b) (month b) (day b)) by lia.
  assert (Hdate : year a = year b /\ month a = month b /\ day a = day b).
  { destruct (lex_lt [year a; month a; day a] [year b; month b; day b]) eqn:L1.
    { pose proof (ymd2ord_lt _ _ _ _ _ _ Ma Da Mb Db L1). lia. }
    destruct (lex_lt [year b; month b; day b] [year a; month a; day a]) eqn:L2.
    { pose proof (ymd2ord_lt _ _ _ _ _ _ Mb Db Ma Da L2). lia. }
    cbn [lex_lt] in L1, L2.
    repeat match goal with
           | H : (_ || _) = false |- _ => apply orb_false_iff in H as [? ?]
           | H : (?x <? ?y) = false |- _ => apply Z.ltb_ge in H
           | H : (?x =? ?y) && _ = false |- _ =>
               destruct (Z.eqb_spec x y); [cbn [andb] in H | try lia]
           end; lia. }
  destruct Hdate as (Ey & Em & Ed).
  destruct a, b. cbn [year month day hour minute second] in *.
  subst. f_equal; lia.
Qed.

(** Fields padded with zeros are digits of the width asked for. *)
Lemma zfill_digits w bound :
  all_below (fun n => digits_of_width w (zfill w (str_int n))) bound = true ->
  forall n, 0 <= n < Z.of_nat bound ->
  digits_of_width w (zfill w (str_int n)) = true.
Proof. intros H n Hn. exact (all_below_spec _ _ H n Hn). Qed.

(** The year, which is not padded, has four digits from 1000 on and fewer
    before. *)
Lemma year_four_digits n : 1000 <= n <= 9999 ->
  digits_of_width 4 (str_int n) = true.
Proof.
  intros Hn.
  assert (H : all_below (fun k => (k <? 1000) || digits_of_width 4 (str_int k))
                (Z.to_nat 10000) = true) by (vm_compute; reflexivity).
  pose proof (all_below_spec _ _ H n) as Hk.
  rewrite Z2Nat.id in Hk by lia. specialize (Hk ltac:(lia)). cbv beta in Hk.
  destruct (Z.ltb_spec n 1000); [lia | exact Hk].
Qed.

Lemma year_fewer_digits n : 0 <= n < 1000 ->
  (String.length (str_int n) <=? 3)%nat = true.
Proof.
  intros Hn.
  assert (H : all_below (fun k => (String.length (str_int k) <=? 3)%nat)
                (Z.to_nat 1000) = true) by (vm_compute; reflexivity).
  pose proof (all_below_spec _ _ H n) as Hk.
  rewrite Z2Nat.id in Hk by lia. exact (Hk ltac:(lia)).
Qed.

Lemma zfill2_digits n : 0 <= n <= 99 ->
  digits_of_width 2 (zfill 2 (str_int n)) = true.
Proof.
  intros Hn. apply (zfill_digits 2 (Z.to_nat 100)); [vm_compute; reflexivity|].
  rewrite Z2Nat.id; lia.
Qed.

Lemma digits_4 s : digits_of_width 4 s = true ->
  exists a b c d, s = String a (String b (String c (String d "")))
    /\ isdigit a = true /\ isdigit b = true /\ isdigit c = true /\ isdigit d = true.
Proof.
  unfold digits_of_width. intros H. apply andb_true_iff in H as [Hl Hd].
  destruct s as [|a [|b [|c [|d [|e s]]]]]; try discriminate Hl.
  cbn [all_chars] in Hd.
  repeat (apply andb_true_iff in Hd as [? Hd]).
  exists a, b, c, d. auto.
Qed.

Lemma digits_2 s : digits_of_width 2 s = true ->
  exists a b, s = String a (String b "") /\ isdigit a = true /\ isdigit b = true.
Proof.
  unfold digits_of_width. intros H. apply andb_true_iff in H as [Hl Hd].
  destruct s as [|a [|b [|c s]]]; try discriminate Hl.
  cbn [all_chars] in Hd.
  repeat (apply andb_true_iff in Hd as [? Hd]).
  exists a, b. auto.
Qed.

Lemma days_in_month_le y m : 1 <= m <= 12 -> days_in_month y m <= 31.
Proof.
  intros Hm. unfold days_in_month. destruct (is_leap y); month_cases m; month_case.
Qed.

(** A stamp has the shape [YYYYMMDDTHHMMSS] exactly from the year 1000
    on: before, the year has fewer than four digits and the stamp is
    shorter. *)
Lemma stamp_shape dt :
  valid dt = true -> is_stamp (stamp dt) = (1000 <=? year dt).
Proof.
  intros V. apply valid_fields in V as (Y & M & D & H & Mi & S).
  pose proof (days_in_month_le (year dt) (month dt) M) as Hdim.
  unfold stamp. cbn [strftime directive_text Ascii.eqb Bool.eqb].
  destruct (digits_2 _ (zfill2_digits (month dt) ltac:(lia))) as (m1&m2&-> &?&?).
  destruct (digits_2 _ (zfill2_digits (day dt) ltac:(lia))) as (d1&d2&-> &?&?).
  destruct (digits_2 _ (zfill2_digits (hour dt) ltac:(lia))) as (h1&h2&-> &?&?).
  destruct (digits_2 _ (zfill2_digits (minute dt) ltac:(lia))) as (i1&i2&-> &?&?).
  destruct (digits_2 _ (zfill2_digits (second dt) ltac:(lia))) as (s1&s2&-> &?&?).
  destruct (Z.leb_spec 1000 (year dt)) as [Hy|Hy].
  - destruct (digits_4 _ (year_four_digits (year dt) ltac:(lia)))
      as (y1&y2&y3&y4&-> &?&?&?&?).
    cbv [is_stamp digits_of_width String.append substring String.length Nat.eqb
         all_chars].
    repeat match goal with H : isdigit _ = true |- _ => rewrite H; clear H end.
    reflexivity.
  - pose proof (year_fewer_digits (year dt) ltac:(lia)) as Hlen.
    apply Nat.leb_le in Hlen.
    unfold is_stamp. rewrite length_append. cbn [String.append String.length].
    match goal with
    | |- _ && Nat.eqb ?n 15 = false =>
        destruct (Nat.eqb_spec n 15) as [E|_]; [lia | apply andb_false_r]
    end.
Qed.

(** When the date and time parse and the end stays within the range of
    [datetime], the call returns the document whose DTSTART is the stamp of
    the start and whose DTEND is the stamp of the date-time [duration] minutes
    later on the time line, with no seconds. *)
Theorem meeting_end_is_start_plus_duration title date time duration participants
    location description utcnow start :
  strptime (date ++ " " ++ time) "%Y-%m-%d %H:%M" = Return start ->
  MIN_MINUTES <= minutes_of start + duration <= MAX_MINUTES ->
  exists end_dt,
    valid end_dt = true /\ second end_dt = 0
    /\ minutes_of end_dt = minutes_of start + duration
    /\ create_meeting_ics title date time duration participants location
         description utcnow
       = Return (ics_head ++ ics_stamp (stamp utcnow)
                 ++ ics_event (stamp start) (stamp end_dt) title description
                      location participants).
Proof.
  intros Hparse Hrange.
  destruct (strptime_valid _ _ Hparse) as [V S0].
  destruct (add_minutes start duration V S0 Hrange)
    as (delta & end_dt & Hdelta & Hadd & Vend & Send & Hmin).
  exists end_dt. repeat split; try assumption.
  apply (create_meeting_ics_document _ _ _ _ _ _ _ _ _ _ _ Hparse Hdelta Hadd).
Qed.

Lemma meeting_end_is_start_plus_duration_witness :
  exists end_dt,
    valid end_dt = true /\ second end_dt = 0
    /\ minutes_of end_dt = minutes_of (mk_datetime 2025 12 31 23 30 0) + 45
    /\ create_meeting_ics "Handover" "2025-12-31" "23:30" 45 ["Mark"] "Room 2" ""
         (mk_datetime 2025 12 1 9 30 0)
       = Return (ics_head ++ ics_stamp (stamp (mk_datetime 2025 12 1 9 30 0))
                 ++ ics_event (stamp (mk_datetime 2025 12 31 23 30 0)) (stamp end_dt)
                      "Handover" "" "Room 2" ["Mark"]).
Proof.
  apply (meeting_end_is_start_plus_duration "Handover" "2025-12-31" "23:30" 45
           ["Mark"] "Room 2" "" (mk_datetime 2025 12 1 9 30 0)
           (mk_datetime 2025 12 31 23 30 0)).
  - vm_compute. reflexivity.
  - vm_compute. split; discriminate.
Defined.

(** When the date and time parse but the end leaves the range of
    [datetime] (before 0001-01-01 00:00 or after 9999-12-31 23:59), the call
    raises [OverflowError] and returns no document. *)
Theorem meeting_out_of_range_raises title date time duration participants
    location description utcnow start :
  strptime (date ++ " " ++ time) "%Y-%m-%d %H:%M" = Return start ->
  ~ (MIN_MINUTES <= minutes_of start + duration <= MAX_MINUTES) ->
  exists e,
    create_meeting_ics title date time duration participants location
      description utcnow = Raise e
    /\ exn_cls e = OverflowError.
Proof.
  intros Hparse Hout.
  destruct (strptime_valid _ _ Hparse) as [V S0].
  unfold create_meeting_ics. rewrite Hparse.
  destruct (timedelta_minutes duration) as [delta|e] eqn:Hd.
  - rewrite (add_minutes_overflow start duration delta V S0 Hd Hout).
    eexists. split; reflexivity.
  - exists e. split; [reflexivity|]. apply (timedelta_minutes_raises _ _ Hd).
Qed.

Lemma meeting_out_of_range_raises_witness :
  exists e,
    create_meeting_ics "New Year" "9999-12-31" "23:30" 60 [] "" ""
      (mk_datetime 2025 12 1 9 30 0) = Raise e
    /\ exn_cls e = OverflowError.
Proof.
  apply (meeting_out_of_range_raises "New Year" "9999-12-31" "23:30" 60 [] "" ""
           (mk_datetime 2025 12 1 9 30 0) (mk_datetime 9999 12 31 23 30 0)).
  - vm_compute. reflexivity.
  - vm_compute. intros [_ H]. apply H. reflexivity.
Defined.

(** A duration of zero gives, for every date and time that parse, an event
    whose DTEND is the same text as its DTSTART. *)
Theorem zero_duration_ends_at_start title date time participants location
    description utcnow start :
  strptime (date ++ " " ++ time) "%Y-%m-%d %H:%M" = Return start ->
  create_meeting_ics title date time 0 participants location description utcnow
  = Return (ics_head ++ ics_stamp (stamp utcnow)
            ++ ics_event (stamp start) (stamp start) title description
                 location participants).
Proof.
  intros Hp.
  destruct (strptime_valid _ _ Hp) as [V S0].
  pose proof (minutes_of_bounds start V) as B.
  destruct (create_meeting_ics_in_range title date time 0 participants location
              description utcnow start Hp ltac:(lia))
    as (end_dt & Vend & Send & Hm & Hdoc).
  assert (end_dt = start) as ->.
  { apply minutes_of_inj; try assumption; [congruence | lia]. }
  exact Hdoc.
Qed.

Lemma zero_duration_ends_at_start_witness :
  create_meeting_ics "Retro" "2024-02-29" "9:05" 0 ["Emily"] "" "notes"
    (mk_datetime 2025 12 1 9 30 0)
  = Return (ics_head ++ ics_stamp (stamp (mk_datetime 2025 12 1 9 30 0))
            ++ ics_event (stamp (mk_datetime 2024 2 29 9 5 0))
                 (stamp (mk_datetime 2024 2 29 9 5 0)) "Retro" "notes" ""
                 ["Emily"]).
Proof.
  apply (zero_duration_ends_at_start "Retro" "2024-02-29" "9:05" ["Emily"] ""
           "notes" (mk_datetime 2025 12 1 9 30 0) (mk_datetime 2024 2 29 9 5 0)).
  vm_compute. reflexivity.
Defined.

(** A strictly positive duration whose end is still in range gives an end
    that is later than the start, in the order of date-times. *)
Theorem positive_duration_ends_after_start title date time duration participants
    location description utcnow start :
  strptime (date ++ " " ++ time) "%Y-%m-%d %H:%M" = Return start ->
  0 < duration ->
  minutes_of start + duration <= MAX_MINUTES ->
  exists end_dt,
    create_meeting_ics title date time duration participants location
      description utcnow
    = Return (ics_head ++ ics_stamp (stamp utcnow)
              ++ ics_event (stamp start) (stamp end_dt) title description
                   location participants)
    /\ datetime_lt start end_dt = true.
Proof.
  intros Hp Hpos Hmax.
  destruct (strptime_valid _ _ Hp) as [V S0].
  pose proof (minutes_of_bounds start V) as B.
  destruct (create_meeting_ics_in_range title date time duration participants
              location description utcnow start Hp ltac:(lia))
    as (end_dt & Vend & Send & Hm & Hdoc).
  exists end_dt. split; [exact Hdoc|].
  apply minutes_lt_datetime_lt; [exact V | exact Vend | lia].
Qed.

Lemma positive_duration_ends_after_start_witness :
  exists end_dt,
    create_meeting_ics "Sprint Review" "2025-12-19" "10:00" 60 ["Sarah"; "David"]
      "" "" (mk_datetime 2025 12 1 9 30 0)
    = Return (ics_head ++ ics_stamp (stamp (mk_datetime 2025 12 1 9 30 0))
              ++ ics_event (stamp (mk_datetime 2025 12 19 10 0 0)) (stamp end_dt)
                   "Sprint Review" "" "" ["Sarah"; "David"])
    /\ datetime_lt (mk_datetime 2025 12 19 10 0 0) end_dt = true.
Proof.
  apply (positive_duration_ends_after_start "Sprint Review" "2025-12-19" "10:00"
           60 ["Sarah"; "David"] "" "" (mk_datetime 2025 12 1 9 30 0)
           (mk_datetime 2025 12 19 10 0 0)).
  - vm_compute. reflexivity.
  - lia.
  - vm_compute. discriminate.
Defined.

(** In every document returned, the values of DTSTART and DTEND, and
    the stamp of a clock that shows a date-time of the calendar, have the
    shape [YYYYMMDDTHHMMSS] exactly when their year is 1000 or later.  For an
    earlier year the year is written without leading zeros and the value is
    shorter than the pattern: a meeting on 0999-01-01 has
    [DTSTART:9990101T000000]. *)
Theorem meeting_stamps_have_the_calendar_shape_from_1000 title date time
    duration participants location description utcnow doc :
  valid utcnow = true ->
  create_meeting_ics title date time duration participants location
    description utcnow = Return doc ->
  exists start end_dt,
    strptime (date ++ " " ++ time) "%Y-%m-%d %H:%M" = Return start
    /\ valid end_dt = true
    /\ minutes_of end_dt = minutes_of start + duration
    /\ doc = ics_head ++ ics_stamp (stamp utcnow)
             ++ ics_event (stamp start) (stamp end_dt) title description
                  location participants
    /\ is_stamp (stamp utcnow) = (1000 <=? year utcnow)
    /\ is_stamp (stamp start) = (1000 <=? year start)
    /\ is_stamp (stamp end_dt) = (1000 <=? year end_dt).
Proof.
  intros Vnow Hdoc.
  destruct (strptime (date ++ " " ++ time) "%Y-%m-%d %H:%M") as [start|e] eqn:Hp.
  2:{ rewrite (create_meeting_ics_parse_error _ _ _ _ _ _ _ _ _ Hp) in Hdoc.
      discriminate. }
  destruct (strptime_valid _ _ Hp) as [V S0].
  destruct (Z_le_dec MIN_MINUTES (minutes_of start + duration)) as [Hlo|Hlo];
    [destruct (Z_le_dec (minutes_of start + duration) MAX_MINUTES) as [Hhi|Hhi]|].
  - destruct (create_meeting_ics_in_range title date time duration participants
                location description utcnow start Hp (conj Hlo Hhi))
      as (end_dt & Vend & Send & Hm & Hd).
    rewrite Hd in Hdoc. injection Hdoc as <-.
    exists start, end_dt.
    repeat split; auto using stamp_shape.
  - destruct (create_meeting_ics_out_of_range title date time duration participants
                location description utcnow start Hp ltac:(lia)) as (e & He & _).
    rewrite He in Hdoc. discriminate.
  - destruct (create_meeting_ics_out_of_range title date time duration participants
                location description utcnow start Hp ltac:(lia)) as (e & He & _).
    rewrite He in Hdoc. discriminate.
Qed.

Lemma meeting_stamps_have_the_calendar_shape_from_1000_witness :
  exists start end_dt,
    strptime ("0999-12-31" ++ " " ++ "23:30") "%Y-%m-%d %H:%M" = Return start
    /\ valid end_dt = true
    /\ minutes_of end_dt = minutes_of start + 60
    /\ ics_head ++ ics_stamp "20251201T093000"
       ++ ics_event "9991231T233000" "10000101T003000" "Sprint Review" "" ""
            ["Sarah"; "David"]
       = ics_head ++ ics_stamp (stamp (mk_datetime 2025 12 1 9 30 0))
         ++ ics_event (stamp start) (stamp end_dt) "Sprint Review" "" ""
              ["Sarah"; "David"]
    /\ is_stamp (stamp (mk_datetime 2025 12 1 9 30 0))
       = (1000 <=? year (mk_datetime 2025 12 1 9 30 0))
    /\ is_stamp (stamp start) = (1000 <=? year start)
    /\ is_stamp (stamp end_dt) = (1000 <=? year end_dt).
Proof.
  apply (meeting_stamps_have_the_calendar_shape_from_1000 "Sprint Review"
           "0999-12-31" "23:30" 60 ["Sarah"; "David"] "" ""
           (mk_datetime 2025 12 1 9 30 0)).
  - vm_compute. reflexivity.
  - vm_compute. reflexivity.
Defined.

Lemma attendees_no_nl participants :
  forallb (all_chars not_nl) participants = true ->
  all_chars not_nl (join "" (map (fun p => "ATTENDEE;CN=" ++ p) participants)) = true.
Proof.
  induction participants as [|p ps IH]; intros H; [reflexivity|].
  cbn [forallb] in H. apply andb_true_iff in H as [Hp Hps].
  specialize (IH Hps).
  destruct ps as [|p' ps].
  - cbn [map join String.concat]. rewrite all_chars_app, Hp. reflexivity.
  - change (join "" (map (fun p => "ATTENDEE;CN=" ++ p) (p :: p' :: ps)))
      with (("ATTENDEE;CN=" ++ p) ++ ""
            ++ join "" (map (fun p => "ATTENDEE;CN=" ++ p) (p' :: ps))).
    rewrite !all_chars_app, Hp, IH. reflexivity.
Qed.

(** When no argument holds a line feed, every document returned has the
    same fifteen lines, whatever the number of participants: the entries of
    all the attendees stand on one line. *)
Theorem meeting_document_has_fifteen_lines title date time duration participants
    location description utcnow doc :
  all_chars not_nl title = true ->
  all_chars not_nl description = true ->
  all_chars not_nl location = true ->
  forallb (all_chars not_nl) participants = true ->
  create_meeting_ics title date time duration participants location
    description utcnow = Return doc ->
  exists dtstart dtend,
    split_lines doc
    = [ "BEGIN:VCALENDAR";
        "        VERSION:2.0";
        "        PRODID:-//Strands Tool//Meeting Scheduler//EN";
        "        BEGIN:VEVENT";
        "        UID:" ++ stamp utcnow ++ "-strands@tool";
        "        DTSTAMP:" ++ stamp utcnow;
        "        DTSTART:" ++ dtstart;
        "        DTEND:" ++ dtend;
        "        SUMMARY:" ++ title;
        "        DESCRIPTION:" ++ description;
        "        LOCATION:" ++ location;
        "        " ++ join "" (map (fun p => "ATTENDEE;CN=" ++ p) participants);
        "        END:VEVENT";
        "        END:VCALENDAR";
        "        " ].
Proof.
  intros Ht Hd Hl Hps Hdoc.
  destruct (strptime (date ++ " " ++ time) "%Y-%m-%d %H:%M") as [start|e] eqn:Hp.
  2:{ rewrite (create_meeting_ics_parse_error _ _ _ _ _ _ _ _ _ Hp) in Hdoc.
      discriminate. }
  destruct (timedelta_minutes duration) as [delta|e] eqn:Hdelta.
  2:{ unfold create_meeting_ics in Hdoc. rewrite Hp, Hdelta in Hdoc. discriminate. }
  destruct (add start delta) as [end_dt|e] eqn:Hadd.
  2:{ unfold create_meeting_ics in Hdoc. rewrite Hp, Hdelta, Hadd in Hdoc.
      discriminate. }
  rewrite (create_meeting_ics_document _ _ _ _ _ _ _ _ _ _ _ Hp Hdelta Hadd) in Hdoc.
  injection Hdoc as <-.
  exists (stamp start), (stamp end_dt).
  match goal with
  | |- split_lines ?d = ?ls => replace d with (join nl ls)
  end.
  - apply split_lines_join.
    cbn [forallb]. rewrite !all_chars_app, !stamp_no_nl, Ht, Hd, Hl.
    rewrite (attendees_no_nl _ Hps). reflexivity.
  - unfold ics_head, ics_stamp, ics_event, join, nl.
    cbn [String.concat String.append].
    rewrite !append_assoc. cbn [String.append]. reflexivity.
Qed.

Lemma meeting_document_has_fifteen_lines_witness :
  exists dtstart dtend,
    split_lines
      (ics_head ++ ics_stamp "20251201T093000"
       ++ ics_event "20251219T100000" "20251219T103000" "Sync" "" "Room 1"
            ["Sarah"; "David"; "Emily"])
    = [ "BEGIN:VCALENDAR";
        "        VERSION:2.0";
        "        PRODID:-//Strands Tool//Meeting Scheduler//EN";
        "        BEGIN:VEVENT";
        "        UID:" ++ stamp (mk_datetime 2025 12 1 9 30 0) ++ "-strands@tool";
        "        DTSTAMP:" ++ stamp (mk_datetime 2025 12 1 9 30 0);
        "        DTSTART:" ++ dtstart;
        "        DTEND:" ++ dtend;
        "        SUMMARY:" ++ "Sync";
        "        DESCRIPTION:" ++ "";
        "        LOCATION:" ++ "Room 1";
        "        " ++ join "" (map (fun p => "ATTENDEE;CN=" ++ p)
                                 ["Sarah"; "David"; "Emily"]);
        "        END:VEVENT";
        "        END:VCALENDAR";
        "        " ].
Proof.
  apply (meeting_document_has_fifteen_lines "Sync" "2025-12-19" "10:00" 30
           ["Sarah"; "David"; "Emily"] "Room 1" "" (mk_datetime 2025 12 1 9 30 0));
    vm_compute; reflexivity.
Defined.

End MeetingsMore.

(** ** The date and the time that [create_meeting_ics] takes *)

Module MeetingsInput.
Import DatetimeFacts Meetings MeetingsFacts MeetingsMore.

(** *** The matcher gives matches *)

Lemma substring_prefix w rest : substring 0 (String.length w) (w ++ rest) = w.
Proof. induction w as [|c w IH]; [destruct rest; reflexivity|]. cbn. now rewrite IH. Qed.

Lemma consumed_app w rest : consumed (w ++ rest) rest = w.
Proof.
  unfold consumed. rewrite length_append.
  replace (String.length w + String.length rest - String.length rest)%nat
    with (String.length w) by lia.
  apply substring_prefix.
Qed.

Lemma plus_rests_sound p s rest :
  In rest (plus_rests p s) ->
  exists w, s = w ++ rest /\ w <> EmptyString /\ all_chars p w = true.
Proof.
  induction s as [|c t IH]; intros H; [destruct H|].
  cbn [plus_rests] in H. destruct (p c) eqn:Hc; [|destruct H].
  apply in_app_or in H as [H|[<-|[]]].
  - destruct (IH H) as (w & -> & _ & Hw).
    exists (String c w). repeat split; [discriminate|].
    cbn [all_chars]. now rewrite Hc, Hw.
  - exists (String c EmptyString). repeat split; [discriminate|].
    cbn [all_chars]. now rewrite Hc.
Qed.

Lemma rmatch_sound r :
  forall s g rest,
    In (g, rest) (rmatch r s) -> exists w, s = w ++ rest /\ matches r w g.
Proof.
  induction r as [|c|p|a IHa b IHb|a IHa b IHb|p|name r IH]; intros s g rest H;
    cbn [rmatch] in H.
  - destruct H as [[= <- <-]|[]]. exists EmptyString. now repeat split.
  - destruct s as [|c' t]; [destruct H|].
    destruct (Ascii.eqb c c') eqn:E; [|destruct H].
    apply Ascii.eqb_eq in E. subst c'. destruct H as [[= <- <-]|[]].
    exists (String c EmptyString). now repeat split.
  - destruct s as [|c' t]; [destruct H|].
    destruct (p c') eqn:E; [|destruct H].
    destruct H as [[= <- <-]|[]].
    exists (String c' EmptyString). split; [reflexivity|].
    exists c'. now repeat split.
  - apply in_flat_map in H as ([g1 r1] & H1 & H2).
    apply in_map_iff in H2 as ([g2 r2] & [= <- <-] & H2).
    destruct (IHa _ _ _ H1) as (w1 & -> & M1).
    cbn [snd] in H2. destruct (IHb _ _ _ H2) as (w2 & -> & M2).
    exists (w1 ++ w2). split; [now rewrite append_assoc|].
    cbn [matches fst]. exists w1, w2, g1, g2. now repeat split.
  - apply in_app_or in H as [H|H].
    + destruct (IHa _ _ _ H) as (w & -> & M). exists w. split; [reflexivity|now left].
    + destruct (IHb _ _ _ H) as (w & -> & M). exists w. split; [reflexivity|now right].
  - apply in_map_iff in H as (t & [= <- <-] & H).
    destruct (plus_rests_sound _ _ _ H) as (w & -> & Hne & Hw).
    exists w. now repeat split.
  - apply in_map_iff in H as ([g' r'] & [= <- <-] & H).
    cbn [fst snd]. destruct (IH _ _ _ H) as (w & -> & M).
    exists w. split; [reflexivity|]. cbn [matches].
    exists g'. split; [now rewrite consumed_app | exact M].
Qed.

(** *** The first match *)

Lemma first_seq a b s g1 r1 g2 r2 :
  hd_error (rmatch a s) = Some (g1, r1) ->
  hd_error (rmatch b r1) = Some (g2, r2) ->
  hd_error (rmatch (Seq a b) s) = Some ((g1 ++ g2)%list, r2).
Proof.
  intros Ha Hb. cbn [rmatch].
  destruct (rmatch a s) as [|m1 l]; [discriminate|].
  cbn [hd_error] in Ha. injection Ha as ->.
  cbn [flat_map snd fst].
  destruct (rmatch b r1) as [|m2 l2]; [discriminate|].
  cbn [hd_error] in Hb. injection Hb as ->. reflexivity.
Qed.

Lemma first_seq_groups a b s g1 r1 g2 r2 g :
  hd_error (rmatch a s) = Some (g1, r1) ->
  hd_error (rmatch b r1) = Some (g2, r2) ->
  g = (g1 ++ g2)%list ->
  hd_error (rmatch (Seq a b) s) = Some (g, r2).
Proof. intros Ha Hb ->. exact (first_seq a b s g1 r1 g2 r2 Ha Hb). Qed.

Lemma first_group name r w rest g :
  hd_error (rmatch r (w ++ rest)) = Some (g, rest) ->
  hd_error (rmatch (Group name r) (w ++ rest)) = Some ((name, w) :: g, rest).
Proof.
  intros H. cbn [rmatch].
  destruct (rmatch r (w ++ rest)) as [|m l]; [discriminate|].
  cbn [hd_error] in H. injection H as ->.
  cbn [map hd_error fst snd]. now rewrite consumed_app.
Qed.

Lemma first_plus p ws rest :
  ws <> EmptyString -> all_chars p ws = true ->
  match rest with String c _ => p c = false | EmptyString => True end ->
  hd_error (rmatch (Plus p) (ws ++ rest)) = Some ([], rest).
Proof.
  intros Hne Hws Hrest. cbn [rmatch].
  assert (exists l, plus_rests p (ws ++ rest) = rest :: l) as [l ->];
    [|reflexivity].
  induction ws as [|c ws IH]; [congruence|].
  cbn [all_chars] in Hws. apply andb_true_iff in Hws as [Hc Hws].
  cbn [String.append plus_rests]. rewrite Hc.
  destruct ws as [|c' ws'].
  - cbn [String.append]. exists [].
    destruct rest as [|x rest']; [reflexivity|].
    cbn [plus_rests]. now rewrite Hrest.
  - destruct (IH ltac:(discriminate) Hws) as [l ->]. eexists. reflexivity.
Qed.

(** *** Characters and numbers *)

Lemma isdigit_cases c :
  isdigit c = true ->
  In c ["0"; "1"; "2"; "3"; "4"; "5"; "6"; "7"; "8"; "9"]%char.
Proof.
  destruct c as [[|] [|] [|] [|] [|] [|] [|] [|]]; intros H;
    try (vm_compute in H; discriminate H); simpl; auto 12.
Qed.

Lemma isspace_cases c :
  isspace c = true ->
  In c (map ascii_of_nat [9; 10; 11; 12; 13; 28; 29; 30; 31; 32]%nat).
Proof.
  destruct c as [[|] [|] [|] [|] [|] [|] [|] [|]]; intros H;
    try (vm_compute in H; discriminate H); simpl; auto 12.
Qed.

Lemma isdigit_not_space c : isdigit c = true -> isspace c = false.
Proof.
  intros H. apply isdigit_cases in H. simpl in H.
  repeat (destruct H as [<-|H]; [reflexivity|]). destruct H.
Qed.

Lemma digits_1 s :
  digits_of_width 1 s = true ->
  exists a, s = String a EmptyString /\ isdigit a = true.
Proof.
  unfold digits_of_width. intros H. apply andb_true_iff in H as [Hl Hd].
  destruct s as [|a [|b s]]; try discriminate Hl.
  cbn [all_chars] in Hd. apply andb_true_iff in Hd as [? _]. eauto.
Qed.

(** The texts of one or two digits. *)
Lemma digits_1_2_cases t :
  digits_1_2 t = true ->
  (exists a, t = String a EmptyString
             /\ In a ["0"; "1"; "2"; "3"; "4"; "5"; "6"; "7"; "8"; "9"]%char)
  \/ (exists a b, t = String a (String b EmptyString)
                  /\ In a ["0"; "1"; "2"; "3"; "4"; "5"; "6"; "7"; "8"; "9"]%char
                  /\ In b ["0"; "1"; "2"; "3"; "4"; "5"; "6"; "7"; "8"; "9"]%char).
Proof.
  unfold digits_1_2. intros H. apply orb_true_iff in H as [H|H].
  - left. destruct (digits_1 _ H) as (a & -> & Ha).
    exists a. split; [reflexivity | now apply isdigit_cases].
  - right. destruct (digits_2 _ H) as (a & b & -> & Ha & Hb).
    exists a, b. repeat split; now apply isdigit_cases.
Qed.

Lemma in_range_digit lo hi c :
  isdigit lo = true -> isdigit hi = true ->
  in_range lo hi c = true -> isdigit c = true.
Proof.
  unfold isdigit, in_range. intros Hlo Hhi H.
  apply andb_true_iff in Hlo as [Hlo _]. apply andb_true_iff in Hhi as [_ Hhi].
  apply andb_true_iff in H as [H1 H2].
  apply Z.leb_le in Hlo, Hhi, H1, H2.
  apply andb_true_iff. split; apply Z.leb_le; lia.
Qed.

Ltac split_in H :=
  lazymatch type of H with
  | _ \/ _ => destruct H as [H|H]; [subst | split_in H]
  | False => destruct H
  | _ = _ => subst
  end.

(** Each character of a class, one value after the other. *)
Ltac enum_class :=
  repeat match goal with
    | Hc : isdigit ?c = true |- _ =>
        is_var c;
        let Hin := fresh "Hin" in
        pose proof (isdigit_cases c Hc) as Hin; clear Hc;
        simpl in Hin; split_in Hin
    | Hc : in_range ?lo ?hi ?c = true |- _ =>
        is_var c;
        let Hin := fresh "Hin" in
        pose proof (isdigit_cases c (in_range_digit lo hi c eq_refl eq_refl Hc))
          as Hin;
        simpl in Hin; split_in Hin;
        (vm_compute in Hc; first [discriminate Hc | clear Hc])
    | Hc : isspace ?c = true |- _ =>
        is_var c;
        let Hin := fresh "Hin" in
        pose proof (isspace_cases c Hc) as Hin; clear Hc;
        simpl in Hin; split_in Hin
    end.

(** *** The directives, one by one *)

Lemma directive_Y :
  directive "Y" = Group "Y" (Seq d_ (Seq d_ (Seq d_ (Seq d_ Eps)))).
Proof. reflexivity. Qed.

Lemma directive_m :
  directive "m"
  = Group "m" (Alt (Alt (Seq (Lit "1") (rg "0" "2")) (Seq (Lit "0") (rg "1" "9")))
                 (rg "1" "9")).
Proof. reflexivity. Qed.

Lemma directive_d :
  directive "d"
  = Group "d" (Alt (Alt (Alt (Alt (Seq (Lit "3") (rg "0" "1")) (Seq (rg "1" "2") d_))
                          (Seq (Lit "0") (rg "1" "9")))
                     (rg "1" "9"))
                 (Seq (Lit " ") (rg "1" "9"))).
Proof. reflexivity. Qed.

Lemma directive_H :
  directive "H"
  = Group "H" (Alt (Alt (Seq (Lit "2") (rg "0" "3")) (Seq (rg "0" "1") d_)) d_).
Proof. reflexivity. Qed.

Lemma directive_M :
  directive "M" = Group "M" (Alt (Seq (rg "0" "5") d_) d_).
Proof. reflexivity. Qed.

Lemma format_regex_date_time :
  format_regex "%Y-%m-%d %H:%M"
  = Some (Seq (directive "Y") (Seq (Lit "-") (Seq (directive "m") (Seq (Lit "-")
       (Seq (directive "d") (Seq (Plus isspace) (Seq (directive "H")
          (Seq (Lit ":") (Seq (directive "M") Eps))))))))).
Proof. reflexivity. Qed.

(** What a match of a directive is. *)
Lemma year_sound w g :
  matches (directive "Y") w g -> g = [("Y"%char, w)] /\ year_text w = true.
Proof.
  rewrite directive_Y. unfold d_. cbn [matches].
  intros (g' & -> & w1 & r1 & g1 & h1 & -> & -> & (a & Ha & -> & ->)
          & w2 & r2 & g2 & h2 & -> & -> & (b & Hb & -> & ->)
          & w3 & r3 & g3 & h3 & -> & -> & (c & Hc & -> & ->)
          & w4 & r4 & g4 & h4 & -> & -> & (d & Hd & -> & ->) & -> & ->).
  split; [reflexivity|].
  unfold year_text, digits_of_width. cbn [String.append String.length all_chars].
  now rewrite Ha, Hb, Hc, Hd.
Qed.

Lemma month_sound w g :
  matches (directive "m") w g -> g = [("m"%char, w)] /\ month_text w = true.
Proof.
  rewrite directive_m. unfold rg. cbn [matches].
  intros (g' & -> & [[H|H]|H]);
    repeat match goal with
      | H : exists _, _ |- _ => destruct H
      | H : _ /\ _ |- _ => destruct H
      end; subst; enum_class; split; reflexivity.
Qed.

Lemma day_sound w g :
  matches (directive "d") w g -> g = [("d"%char, w)] /\ day_text w = true.
Proof.
  rewrite directive_d. unfold rg, d_. cbn [matches].
  intros (g' & -> & [[[[H|H]|H]|H]|H]);
    repeat match goal with
      | H : exists _, _ |- _ => destruct H
      | H : _ /\ _ |- _ => destruct H
      end; subst; enum_class; split; reflexivity.
Qed.

Lemma hour_sound w g :
  matches (directive "H") w g -> g = [("H"%char, w)] /\ hour_text w = true.
Proof.
  rewrite directive_H. unfold rg, d_. cbn [matches].
  intros (g' & -> & [[H|H]|H]);
    repeat match goal with
      | H : exists _, _ |- _ => destruct H
      | H : _ /\ _ |- _ => destruct H
      end; subst; enum_class; split; reflexivity.
Qed.

Lemma minute_sound w g :
  matches (directive "M") w g -> g = [("M"%char, w)] /\ minute_text w = true.
Proof.
  rewrite directive_M. unfold rg, d_. cbn [matches].
  intros (g' & -> & [H|H]);
    repeat match goal with
      | H : exists _, _ |- _ => destruct H
      | H : _ /\ _ |- _ => destruct H
      end; subst; enum_class; split; reflexivity.
Qed.

(** The first match of a directive in front of text that does not go on
    with a digit. *)
Lemma year_first y rest :
  year_text y = true ->
  hd_error (rmatch (directive "Y") (y ++ rest)) = Some ([("Y"%char, y)], rest).
Proof.
  intros H. rewrite directive_Y. apply first_group.
  destruct (digits_4 _ H) as (a & b & c & d & -> & Ha & Hb & Hc & Hd).
  unfold d_. cbn [String.append rmatch]. rewrite Ha. cbn [flat_map fst snd].
  rewrite Hb. cbn [flat_map map fst snd List.app]. rewrite Hc.
  cbn [flat_map map fst snd List.app]. rewrite Hd. reflexivity.
Qed.

Ltac enum_text Hd :=
  let a := fresh "a" in
  let b := fresh "b" in
  let Ha := fresh "Ha" in
  let Hb := fresh "Hb" in
  destruct (digits_1_2_cases _ Hd) as [(a & -> & Ha)|(a & b & -> & Ha & Hb)];
  [ simpl in Ha; split_in Ha
  | simpl in Ha; split_in Ha; simpl in Hb; split_in Hb ].

Lemma month_first m rest :
  month_text m = true ->
  hd_error (rmatch (directive "m") (m ++ String "-" rest))
  = Some ([("m"%char, m)], String "-" rest).
Proof.
  intros H. rewrite directive_m. apply first_group.
  unfold month_text in H. apply andb_true_iff in H as [H Hhi].
  apply andb_true_iff in H as [Hd Hlo].
  enum_text Hd; vm_compute in Hlo, Hhi; try discriminate; reflexivity.
Qed.

Lemma hour_first h rest :
  hour_text h = true ->
  hd_error (rmatch (directive "H") (h ++ String ":" rest))
  = Some ([("H"%char, h)], String ":" rest).
Proof.
  intros H. rewrite directive_H. apply first_group.
  unfold hour_text in H. apply andb_true_iff in H as [Hd Hhi].
  enum_text Hd; vm_compute in Hhi; try discriminate; reflexivity.
Qed.

Lemma minute_first mi :
  minute_text mi = true ->
  hd_error (rmatch (directive "M") (mi ++ EmptyString))
  = Some ([("M"%char, mi)], EmptyString).
Proof.
  intros H. rewrite directive_M. apply first_group.
  unfold minute_text in H. apply andb_true_iff in H as [Hd Hhi].
  enum_text Hd; vm_compute in Hhi; try discriminate; reflexivity.
Qed.

Lemma day_first d c rest :
  day_text d = true -> isspace c = true ->
  hd_error (rmatch (directive "d") (d ++ String c rest))
  = Some ([("d"%char, d)], String c rest).
Proof.
  intros H Hc. rewrite directive_d. apply first_group.
  unfold day_text in H. apply andb_true_iff in H as [H Hhi].
  apply andb_true_iff in H as [Hd Hlo].
  apply orb_true_iff in Hd as [Hd|Hd].
  - enum_text Hd; vm_compute in Hlo, Hhi; try discriminate;
      enum_class; reflexivity.
  - destruct d as [|b t]; [discriminate|].
    apply andb_true_iff in Hd as [Hb Ht]. apply Ascii.eqb_eq in Hb. subst b.
    destruct (digits_1 _ Ht) as (a & -> & Ha).
    enum_class; vm_compute in Hlo, Hhi; try discriminate;
      enum_class; reflexivity.
Qed.

(** *** The numbers of the fields *)

Lemma rstrip_digits t : all_chars isdigit t = true -> rstrip t = t.
Proof.
  induction t as [|c t IH]; intros H; [reflexivity|].
  cbn [all_chars] in H. apply andb_true_iff in H as [Hc H].
  cbn [rstrip]. rewrite (isdigit_not_space _ Hc), andb_false_r, (IH H).
  reflexivity.
Qed.

Lemma strip_digits t : all_chars isdigit t = true -> strip t = t.
Proof.
  intros H. unfold strip. rewrite (rstrip_digits _ H).
  destruct t as [|c t]; [reflexivity|].
  cbn [all_chars] in H. apply andb_true_iff in H as [Hc _].
  cbn [lstrip]. now rewrite (isdigit_not_space _ Hc).
Qed.

Lemma digits_value_some t :
  all_chars isdigit t = true ->
  forall acc, 0 <= acc -> exists v, digits_value acc t = Some v /\ 0 <= v.
Proof.
  induction t as [|c t IH]; intros H acc Hacc.
  - exists acc. now split.
  - cbn [all_chars] in H. apply andb_true_iff in H as [Hc H].
    cbn [digits_value]. rewrite Hc. apply (IH H).
    unfold isdigit in Hc. apply andb_true_iff in Hc as [Hlo _].
    apply Z.leb_le in Hlo. lia.
Qed.

Lemma int_of_text_digits t :
  all_chars isdigit t = true -> t <> EmptyString ->
  exists v, int_of_text t = Some v /\ 0 <= v.
Proof.
  intros H Hne. unfold int_of_text. rewrite (strip_digits _ H).
  destruct t as [|c t]; [congruence|].
  now apply digits_value_some.
Qed.

Lemma number_of text v : int_of_text text = Some v -> number text = v.
Proof. unfold number. now intros ->. Qed.

Lemma field_number name dflt text g :
  int_of_text text <> None -> field name dflt ((name, text) :: g) = number text.
Proof.
  intros H. unfold field, number. cbn [group]. rewrite Ascii.eqb_refl.
  destruct (int_of_text text); [reflexivity | congruence].
Qed.

Lemma field_skip name n dflt text g :
  Ascii.eqb n name = false ->
  field name dflt ((n, text) :: g) = field name dflt g.
Proof. intros H. unfold field. cbn [group]. now rewrite H. Qed.

Lemma digits_of_width_number w text :
  digits_of_width (S w) text = true ->
  int_of_text text <> None /\ 0 <= number text.
Proof.
  unfold digits_of_width. intros H. apply andb_true_iff in H as [Hl Hd].
  destruct (int_of_text_digits text Hd) as (v & Hv & Hpos).
  - destruct text; [discriminate | discriminate].
  - rewrite (number_of _ _ Hv), Hv. split; [discriminate | exact Hpos].
Qed.

Lemma digits_1_2_number text :
  digits_1_2 text = true -> int_of_text text <> None /\ 0 <= number text.
Proof.
  unfold digits_1_2. intros H.
  apply orb_true_iff in H as [H|H]; exact (digits_of_width_number _ _ H).
Qed.

Lemma year_number y :
  year_text y = true -> int_of_text y <> None /\ 0 <= number y <= 9999.
Proof.
  intros H. destruct (digits_of_width_number _ _ H) as [Hsome Hpos].
  split; [exact Hsome|]. split; [exact Hpos|].
  destruct (digits_4 _ H) as (a & b & c & d & -> & Ha & Hb & Hc & Hd).
  unfold number, int_of_text.
  rewrite strip_digits by (cbn [all_chars]; now rewrite Ha, Hb, Hc, Hd).
  cbn [digits_value]. rewrite Ha, Hb, Hc, Hd.
  unfold isdigit in Ha, Hb, Hc, Hd.
  apply andb_true_iff in Ha as [_ Ha]. apply andb_true_iff in Hb as [_ Hb].
  apply andb_true_iff in Hc as [_ Hc]. apply andb_true_iff in Hd as [_ Hd].
  apply Z.leb_le in Ha, Hb, Hc, Hd. lia.
Qed.

Lemma day_number d :
  day_text d = true -> int_of_text d <> None /\ 1 <= number d <= 31.
Proof.
  unfold day_text. intros H. apply andb_true_iff in H as [H Hhi].
  apply andb_true_iff in H as [Hd Hlo].
  apply Z.leb_le in Hlo, Hhi. split; [|lia].
  apply orb_true_iff in Hd as [Hd|Hd].
  - exact (proj1 (digits_1_2_number _ Hd)).
  - destruct d as [|b t]; [discriminate|].
    apply andb_true_iff in Hd as [Hb Ht]. apply Ascii.eqb_eq in Hb. subst b.
    destruct (digits_1 _ Ht) as (a & -> & Ha).
    enum_class; discriminate.
Qed.

Lemma month_number m :
  month_text m = true -> int_of_text m <> None /\ 1 <= number m <= 12.
Proof.
  unfold month_text. intros H. apply andb_true_iff in H as [H Hhi].
  apply andb_true_iff in H as [Hd Hlo].
  apply Z.leb_le in Hlo, Hhi. split; [|lia].
  exact (proj1 (digits_1_2_number _ Hd)).
Qed.

Lemma hour_number h :
  hour_text h = true -> int_of_text h <> None /\ 0 <= number h <= 23.
Proof.
  unfold hour_text. intros H. apply andb_true_iff in H as [Hd Hhi].
  apply Z.leb_le in Hhi. destruct (digits_1_2_number _ Hd). now repeat split.
Qed.

Lemma minute_number mi :
  minute_text mi = true -> int_of_text mi <> None /\ 0 <= number mi <= 59.
Proof.
  unfold minute_text. intros H. apply andb_true_iff in H as [Hd Hhi].
  apply Z.leb_le in Hhi. destruct (digits_1_2_number _ Hd). now repeat split.
Qed.

Lemma hour_head h :
  hour_text h = true -> exists a t, h = String a t /\ isspace a = false.
Proof.
  unfold hour_text. intros H. apply andb_true_iff in H as [Hd _].
  unfold digits_1_2 in Hd. apply orb_true_iff in Hd as [Hd|Hd].
  - destruct (digits_1 _ Hd) as (a & -> & Ha). exists a, EmptyString.
    split; [reflexivity | now apply isdigit_not_space].
  - destruct (digits_2 _ Hd) as (a & b & -> & Ha & _). exists a, (String b "").
    split; [reflexivity | now apply isdigit_not_space].
Qed.

(** The fields of a match of the whole pattern. *)
Lemma fields_of_match y m d h mi :
  int_of_text y <> None -> int_of_text m <> None -> int_of_text d <> None ->
  int_of_text h <> None -> int_of_text mi <> None ->
  let g := [("Y"%char, y); ("m"%char, m); ("d"%char, d); ("H"%char, h);
            ("M"%char, mi)] in
  field "Y" 1900 g = number y /\ field "m" 1 g = number m
  /\ field "d" 1 g = number d /\ field "H" 0 g = number h
  /\ field "M" 0 g = number mi.
Proof.
  intros Hy Hm Hd Hh Hmi g. unfold g.
  repeat split;
    repeat (rewrite field_skip by reflexivity); now apply field_number.
Qed.

(** *** The texts that parse *)

Lemma accepted_parses text :
  accepted text ->
  exists start, strptime text "%Y-%m-%d %H:%M" = Return start.
Proof.
  intros (y & m & d & ws & h & mi & -> & Hy & Hm & Hd & Hws & Hh & Hmi & Hdate).
  destruct (year_number _ Hy) as [Ny By].
  destruct (month_number _ Hm) as [Nm Bm].
  destruct (day_number _ Hd) as [Nd Bd].
  destruct (hour_number _ Hh) as [Nh Bh].
  destruct (minute_number _ Hmi) as [Nmi Bmi].
  apply andb_true_iff in Hdate as [Hy1 Hdim]. apply Z.leb_le in Hy1, Hdim.
  unfold blanks in Hws. apply andb_true_iff in Hws as [Hne Hall].
  destruct ws as [|c ws]; [discriminate|]. clear Hne.
  pose proof Hall as Hall'. cbn [all_chars] in Hall'.
  apply andb_true_iff in Hall' as [Hc _].
  destruct (hour_head _ Hh) as (a & t & Eh & Ha).
  exists (mk_datetime (number y) (number m) (number d) (number h) (number mi) 0).
  unfold strptime. rewrite format_regex_date_time.
  assert (re_match
            (Seq (directive "Y") (Seq (Lit "-") (Seq (directive "m") (Seq (Lit "-")
               (Seq (directive "d") (Seq (Plus isspace) (Seq (directive "H")
                  (Seq (Lit ":") (Seq (directive "M") Eps)))))))))
            (y ++ "-" ++ m ++ "-" ++ d ++ String c ws ++ h ++ ":" ++ mi)
          = Some ([("Y"%char, y); ("m"%char, m); ("d"%char, d); ("H"%char, h);
                   ("M"%char, mi)], EmptyString)) as ->.
  { unfold re_match. cbn [String.append].
    eapply first_seq_groups; [apply (year_first y _ Hy) | | reflexivity].
    eapply first_seq_groups; [reflexivity | | reflexivity].
    eapply first_seq_groups; [apply (month_first m _ Hm) | | reflexivity].
    eapply first_seq_groups; [reflexivity | | reflexivity].
    eapply first_seq_groups; [apply (day_first d c _ Hd Hc) | | reflexivity].
    change (String c (ws ++ h ++ String ":" mi))
      with (String c ws ++ (h ++ String ":" mi)).
    eapply first_seq_groups;
      [apply first_plus;
         [discriminate | exact Hall | rewrite Eh; cbn [String.append]; exact Ha]
      | | reflexivity].
    eapply first_seq_groups; [apply (hour_first h _ Hh) | | reflexivity].
    eapply first_seq_groups; [reflexivity | | reflexivity].
    eapply first_seq_groups;
      [rewrite <- (append_nil_r mi) at 1; apply (minute_first mi Hmi)
      | reflexivity | reflexivity]. }
  cbn [is_empty negb].
  destruct (fields_of_match y m d h mi Ny Nm Nd Nh Nmi) as (-> & -> & -> & -> & ->).
  unfold datetime_new, check_date, check_time, MINYEAR, MAXYEAR.
  repeat match goal with
         | |- context [?a <=? ?b] => rewrite (proj2 (Z.leb_le a b)) by lia
         end.
  reflexivity.
Qed.

Lemma parsed_is_accepted text start :
  strptime text "%Y-%m-%d %H:%M" = Return start -> accepted text.
Proof.
  unfold strptime. rewrite format_regex_date_time.
  destruct (re_match _ text) as [[g rest]|] eqn:Hm; [|discriminate].
  destruct rest as [|x rest]; cbn [is_empty negb]; [|discriminate].
  intros Hfields.
  unfold re_match in Hm.
  destruct (rmatch _ text) as [|first others] eqn:E; [discriminate|].
  cbn [hd_error] in Hm. injection Hm as ->.
  assert (In (g, EmptyString) ((g, EmptyString) :: others)) as Hin by now left.
  rewrite <- E in Hin. clear E others.
  apply rmatch_sound in Hin as (w & -> & HM). rewrite append_nil_r.
  cbn [matches] in HM.
  destruct HM as (y & r1 & gy & g1 & -> & -> & HY
                  & l1 & r2 & gl1 & g2 & -> & -> & (-> & ->)
                  & m & r3 & gm & g3 & -> & -> & HMo
                  & l2 & r4 & gl2 & g4 & -> & -> & (-> & ->)
                  & d & r5 & gd & g5 & -> & -> & HD
                  & ws & r6 & gws & g6 & -> & -> & (Hne & Hall & ->)
                  & h & r7 & gh & g7 & -> & -> & HH
                  & l3 & r8 & gl3 & g8 & -> & -> & (-> & ->)
                  & mi & r9 & gmi & g9 & -> & -> & HMi & -> & ->).
  apply year_sound in HY as [-> Hy]. apply month_sound in HMo as [-> Hm].
  apply day_sound in HD as [-> Hd]. apply hour_sound in HH as [-> Hh].
  apply minute_sound in HMi as [-> Hmi].
  cbn [List.app] in Hfields.
  destruct (year_number _ Hy) as [Ny By].
  destruct (month_number _ Hm) as [Nm Bm].
  destruct (day_number _ Hd) as [Nd Bd].
  destruct (hour_number _ Hh) as [Nh Bh].
  destruct (minute_number _ Hmi) as [Nmi Bmi].
  destruct (fields_of_match y m d h mi Ny Nm Nd Nh Nmi) as (Ey & Em & Ed & _).
  cbv zeta in Ey, Em, Ed. rewrite Ey, Em, Ed in Hfields.
  destruct (check_date (number y) (number m) (number d)) as [[]|e] eqn:Hcd;
    [|discriminate].
  apply check_date_ok in Hcd. unfold valid_date, MINYEAR in Hcd.
  repeat (apply andb_true_iff in Hcd as [Hcd ?]).
  exists y, m, d, ws, h, mi. rewrite append_nil_r.
  repeat split; try assumption.
  - unfold blanks. rewrite Hall. destruct ws; [congruence | reflexivity].
  - apply andb_true_iff. split; assumption.
Qed.

(** Claim C6 as stated fails for a date and a time without their leading
    zeros: they are not in the pattern [YYYY-MM-DD] and [HH:MM], and the call
    returns a document for the 5th of January 2025 at 09:05. *)
Lemma date_time_without_leading_zeros_is_taken :
  fixed_pattern "2025-1-5" "9:05" = false
  /\ create_meeting_ics "Sprint Review" "2025-1-5" "9:05" 60 ["Sarah"; "David"]
       "" "" (mk_datetime 2025 12 1 9 30 0)
     = Return (ics_head ++ ics_stamp "20251201T093000"
               ++ ics_event "20250105T090500" "20250105T100500" "Sprint Review"
                    "" "" ["Sarah"; "David"]).
Proof. split; vm_compute; reflexivity. Qed.

(** Claim C6, amended.  For a date and a time in ASCII, the call fails with
    the [ValueError] of the parser (the [InvalidInputError] of the
    specification), and returns no document, exactly when the text
    [date + " " + time] is not of the accepted form: a year of four digits
    that is not 0, a dash, a month, a dash, a day that the month has, one blank
    or more, an hour, a colon and a minute, where month, day, hour and minute
    have one or two digits (the day may be a blank and a digit) and nothing
    follows the minute.  Every text of this form is taken, in the pattern
    [YYYY-MM-DD] and [HH:MM] or not: the call then returns a document, or
    raises [OverflowError] when the end is not a date-time. *)
Theorem date_time_fails_exactly_outside_the_accepted_form title date time
    duration participants location description utcnow :
  ascii_text date = true -> ascii_text time = true ->
  (~ accepted (date ++ " " ++ time) ->
   exists e,
     create_meeting_ics title date time duration participants location
       description utcnow = Raise e
     /\ InvalidInputError e)
  /\ (accepted (date ++ " " ++ time) ->
      (exists doc,
          create_meeting_ics title date time duration participants location
            description utcnow = Return doc)
      \/ (exists e,
             create_meeting_ics title date time duration participants location
               description utcnow = Raise e
             /\ exn_cls e = OverflowError)).
Proof.
  intros _ _. split.
  - intros Hout.
    destruct (strptime (date ++ " " ++ time) "%Y-%m-%d %H:%M") as [start|e] eqn:Hp.
    + exfalso. apply Hout. exact (parsed_is_accepted _ _ Hp).
    + exists e. split.
      * apply create_meeting_ics_parse_error. exact Hp.
      * exact (strptime_raises_ValueError _ _ Hp).
  - intros Hin. destruct (accepted_parses _ Hin) as [start Hp].
    destruct (Z_le_dec MIN_MINUTES (minutes_of start + duration)) as [Hlo|Hlo];
      [destruct (Z_le_dec (minutes_of start + duration) MAX_MINUTES) as [Hhi|Hhi]|].
    + left.
      destruct (create_meeting_ics_in_range title date time duration participants
                  location description utcnow start Hp (conj Hlo Hhi))
        as (end_dt & _ & _ & _ & Hdoc).
      eexists. exact Hdoc.
    + right.
      exact (create_meeting_ics_out_of_range title date time duration participants
               location description utcnow start Hp ltac:(lia)).
    + right.
      exact (create_meeting_ics_out_of_range title date time duration participants
               location description utcnow start Hp ltac:(lia)).
Qed.

Lemma date_time_fails_exactly_outside_the_accepted_form_witness :
  exists e,
    create_meeting_ics "Sprint Review" "Dec 19" "10:00" 60 ["Sarah"; "David"]
      "" "" (mk_datetime 2025 12 1 9 30 0) = Raise e
    /\ InvalidInputError e.
Proof.
  apply (proj1 (date_time_fails_exactly_outside_the_accepted_form
                  "Sprint Review" "Dec 19" "10:00" 60 ["Sarah"; "David"] "" ""
                  (mk_datetime 2025 12 1 9 30 0) eq_refl eq_refl)).
  intros (y & m & d & ws & h & mi & Heq & Hy & _).
  destruct (digits_4 _ Hy) as (a & b & c & d' & -> & Ha & _).
  cbn [String.append] in Heq. injection Heq as <-. discriminate Ha.
Defined.

End MeetingsInput.

(** ** More on [create_jira_ticket] *)

Module JiraMore.
Import Jira.

(** What the generator decides does not depend on the texts: from the same
    state, two calls with any summaries, descriptions and tenants give the
    same identifier, key, locator, status, priority and creator, and leave the
    generator in the same state. *)
Theorem ticket_draws_ignore_the_texts (G : Type) (randbelow : Z -> G -> Z * G)
    summary1 description1 tenant1 summary2 description2 tenant2 (st : state G) :
  let r1 := create_jira_ticket G randbelow summary1 description1 tenant1 st in
  let r2 := create_jira_ticket G randbelow summary2 description2 tenant2 st in
  id (fst r1) = id (fst r2)
  /\ key (fst r1) = key (fst r2)
  /\ self (fst r1) = self (fst r2)
  /\ status (fields (fst r1)) = status (fields (fst r2))
  /\ priority (fields (fst r1)) = priority (fields (fst r2))
  /\ creator (fields (fst r1)) = creator (fields (fst r2))
  /\ rng (snd r1) = rng (snd r2).
Proof.
  unfold create_jira_ticket.
  destruct (randint G randbelow 30000 99999 (rng st)) as [n g1].
  destruct (choice G randbelow "DEV" ["OPS"; "TEST"; "PROD"; "SEC"] g1) as [pk g2].
  destruct (randint G randbelow 100 999 g2) as [k g3].
  destruct (choice G randbelow "To Do" ["In Progress"; "Done"] g3) as [s g4].
  destruct (choice G randbelow "Low" ["Medium"; "High"] g4) as [p g5].
  destruct (choice G randbelow "System Agent" ["Automation Bot"] g5) as [c g6].
  cbn. repeat split; reflexivity.
Qed.

End JiraMore.

(** ** More on [send_sns_email] *)

Module EmailMore.
Import Email EmailFacts.

(** Once the client is built the tool never raises: when [publish] returns,
    the result has status success and a message that ends with the identifier
    of the message ([None] when the response has none); when [publish] raises,
    the result has status error and a message that ends with the text of the
    exception. *)
Theorem publish_outcome_is_reported {W : Type} `{SNS W} subject message w c w1 :
  boto3_client "sns" "us-west-2" w = (Return c, w1) ->
  match publish c "arn:aws:sns:us-west-2:905418322763:test" message subject w1 with
  | (Return response, w2) =>
      send_sns_email subject message w
      = (Return {| status := "success";
                   message :=
                     "Email successfully published to SNS topic 'test'. Message ID: "
                     ++ str_get "MessageId" response |}, w2)
  | (Raise e, w2) =>
      send_sns_email subject message w
      = (Return {| status := "error";
                   message := "Failed to publish email to SNS: " ++ exn_str e |},
         w2)
  end.
Proof.
  intros Hc. unfold send_sns_email, bind, try_except, ret. rewrite Hc.
  destruct (publish c _ message subject w1) as [[response|e] w2]; reflexivity.
Qed.

Lemma publish_outcome_is_reported_witness :
  @send_sns_email Z unreachable_sns "Sprint Tasks" "US-102 goes to David" 3
  = (Return {| status := "error";
               message := "Failed to publish email to SNS: "
                          ++ "Could not connect to the endpoint URL" |}, 3).
Proof.
  apply (@publish_outcome_is_reported Z unreachable_sns "Sprint Tasks"
           "US-102 goes to David" 3 tt 3).
  reflexivity.
Defined.

End EmailMore.

(** ** More on [OrchestratorAgent] *)

Module OrchestratorMore.
Import Orchestrator OrchestratorFacts.

Section AnyServices.
Context {E : Type} `{Services E}.

(** When a handler of the batch call raises, the batch call raises the same
    exception: the handlers up to and with that one have been called, those
    after it are not, and the results already obtained are lost. *)
Theorem batch_stops_at_the_first_failure inventory_query sales_query market_query
    w x e' :
  replies (selected inventory_query sales_query market_query) (ext w)
  = (Raise x, e') ->
  coordinate_analysis inventory_query sales_query market_query w
  = (Raise x,
     {| calls := (calls w
                  ++ calls_until_raise
                       (selected inventory_query sales_query market_query)
                       (ext w))%list;
        stdout := stdout w; ext := e' |}).
Proof.
  unfold coordinate_analysis, selected, bind, ret, invoke, append.
  rewrite !requested_guard. cbn [filter snd]. unfold requested.
  destruct (truthy (strip inventory_query)), (truthy (strip sales_query)),
    (truthy (strip market_query));
    cbn [replies calls_until_raise ext calls stdout];
    repeat match goal with
           | |- context [sub_agent_query ?h ?q ?e] =>
               destruct (sub_agent_query h q e) as [[?r|?x] ?e1];
               cbn [replies calls_until_raise ext calls stdout]
           end;
    intros Hr; try discriminate Hr; injection Hr as <- <-;
    rewrite <- ?app_assoc; reflexivity.
Qed.

(** The batch call with only the first sub-query requested does what the
    tool [jira_tickets] does on that query: same call, same text, same
    state. *)
Theorem batch_with_one_query_is_jira_tickets inventory_query sales_query
    market_query w :
  requested inventory_query = true ->
  requested sales_query = false ->
  requested market_query = false ->
  coordinate_analysis inventory_query sales_query market_query w
  = jira_tickets inventory_query w.
Proof.
  unfold requested. intros H1 H2 H3.
  unfold coordinate_analysis, jira_tickets, bind, ret, invoke, append.
  rewrite !requested_guard, H1, H2, H3.
  destruct (sub_agent_query jira_agent inventory_query (ext w)) as [[r|x] e1];
    reflexivity.
Qed.

(** When the constructor of the agent raises on a first call, [query]
    raises the same exception; the orchestrator still has no agent, nothing is
    printed and no handler is called, so the next call builds the agent
    anew. *)
Theorem failed_agent_construction_changes_nothing prompt self w e e1 :
  agent self = None ->
  Agent_new (ext w) = (Raise e, e1) ->
  query prompt (self, w)
  = (Raise e, (self, {| calls := calls w; stdout := stdout w; ext := e1 |})).
Proof.
  intros Ha Hn. unfold query, external. rewrite Ha, Hn. reflexivity.
Qed.

(** When the agent is built but the session raises on the first call, the
    agent stays in place: every later call on that orchestrator returns [None]
    without calling the session. *)
Theorem failed_first_call_leaves_a_silent_orchestrator prompt1 prompt2 self w e1
    x st1 :
  agent self = None ->
  Agent_new (ext w) = (Return tt, e1) ->
  query prompt1 (self, w) = (Raise x, st1) ->
  query prompt2 st1 = (Return None, st1).
Proof.
  intros Ha Hn Hq. unfold query, external in Hq. rewrite Ha, Hn in Hq.
  destruct (say _ _) as [u w2].
  destruct (Agent_call _ prompt1 w2) as [[[t|e] a'] w3]; [discriminate Hq|].
  injection Hq as <- <-.
  apply (query_with_agent prompt2 _ w3 a'). reflexivity.
Qed.

(** The constructor of an orchestrator. *)
Lemma init_result w o w1 :
  OrchestratorAgent_init w = (Return o, w1) ->
  agent o = None /\ calls w1 = calls w
  /\ exists region,
       stdout w1
       = List.app (stdout w)
           ["🔐 Using region: " ++ region;
            "✅ MCP client initialized for retail calendar server"].
Proof.
  unfold OrchestratorAgent_init, bind, external, say, ret, print.
  destruct (Agent_new (ext w)) as [[[]|x] e1]; [|discriminate]. cbn [ext calls stdout].
  destruct (Agent_new e1) as [[[]|x] e2]; [|discriminate]. cbn [ext calls stdout].
  destruct (Agent_new e2) as [[[]|x] e3]; [|discriminate]. cbn [ext calls stdout].
  destruct (boto3_Session e3) as [[r|x] e4]; [|discriminate]. cbn [ext calls stdout].
  intros [= <- <-]. cbn [agent calls stdout].
  split; [reflexivity|]. split; [reflexivity|].
  eexists. rewrite <- app_assoc. reflexivity.
Qed.

Lemma init_calls w r w1 :
  OrchestratorAgent_init w = (r, w1) -> calls w1 = calls w.
Proof.
  unfold OrchestratorAgent_init, bind, external, say, ret, print.
  destruct (Agent_new (ext w)) as [[[]|x] e1]; cbn [ext calls stdout];
    [|intros [= <- <-]; reflexivity].
  destruct (Agent_new e1) as [[[]|x] e2]; cbn [ext calls stdout];
    [|intros [= <- <-]; reflexivity].
  destruct (Agent_new e2) as [[[]|x] e3]; cbn [ext calls stdout];
    [|intros [= <- <-]; reflexivity].
  destruct (boto3_Session e3) as [[rg|x] e4]; cbn [ext calls stdout];
    intros [= <- <-]; reflexivity.
Qed.

(** An orchestrator made by [create_orchestrator_agent] has no agent yet;
    making it calls no handler and prints two lines, the first with the region
    of the session. *)
Theorem new_orchestrator_has_no_agent w o w1 :
  create_orchestrator_agent w = (Return o, w1) ->
  agent o = None /\ calls w1 = calls w
  /\ exists region,
       stdout w1
       = List.app (stdout w)
           ["🔐 Using region: " ++ region;
            "✅ MCP client initialized for retail calendar server"].
Proof.
  unfold create_orchestrator_agent, OrchestratorAgent_init, bind, external, say,
    ret, print.
  destruct (Agent_new (ext w)) as [[[]|x] e1]; [|discriminate]. cbn [ext calls stdout].
  destruct (Agent_new e1) as [[[]|x] e2]; [|discriminate]. cbn [ext calls stdout].
  destruct (Agent_new e2) as [[[]|x] e3]; [|discriminate]. cbn [ext calls stdout].
  destruct (boto3_Session e3) as [[r|x] e4]; [|discriminate]. cbn [ext calls stdout].
  intros [= <- <-]. cbn [agent calls stdout].
  split; [reflexivity|]. split; [reflexivity|].
  eexists. rewrite <- app_assoc. reflexivity.
Qed.

End AnyServices.

Lemma batch_stops_at_the_first_failure_witness :
  @coordinate_analysis Z flaky_services "US-102 for David" "Friday 10:00"
    "Mail the plan" world0
  = (Raise (mk_exn (OtherException "ModelTimeoutError") "model timed out"),
     {| calls := ([] ++ @calls_until_raise Z flaky_services
                          (selected "US-102 for David" "Friday 10:00" "Mail the plan")
                          0)%list;
        stdout := []; ext := 2 |}).
Proof.
  apply (@batch_stops_at_the_first_failure Z flaky_services "US-102 for David"
           "Friday 10:00" "Mail the plan" world0).
  vm_compute. reflexivity.
Defined.

Lemma batch_with_one_query_is_jira_tickets_witness :
  @coordinate_analysis Z eager_services "US-102 for David" "" "  " world0
  = @jira_tickets Z eager_services "US-102 for David" world0.
Proof.
  apply (@batch_with_one_query_is_jira_tickets Z eager_services); reflexivity.
Defined.

Lemma failed_agent_construction_changes_nothing_witness :
  @query Z no_agent_services (VStr "Sarah: Welcome.") ({| agent := None |}, world0)
  = (Raise (mk_exn (OtherException "NoCredentialsError")
              "Unable to locate credentials"),
     ({| agent := None |}, {| calls := []; stdout := []; ext := 1 |})).
Proof.
  apply (@failed_agent_construction_changes_nothing Z no_agent_services);
    reflexivity.
Defined.

Lemma failed_first_call_leaves_a_silent_orchestrator_witness :
  let st1 := snd (@query Z unreachable_model_services (VStr "Sarah: Welcome.")
                    ({| agent := None |}, world0)) in
  @query Z unreachable_model_services (VStr "Sarah: Welcome.") st1
  = (Return None, st1).
Proof.
  apply (@failed_first_call_leaves_a_silent_orchestrator Z
           unreachable_model_services (VStr "Sarah: Welcome.")
           (VStr "Sarah: Welcome.") {| agent := None |} world0 0
           (mk_exn (OtherException "EndpointConnectionError")
              "Could not connect to the endpoint URL")).
  - reflexivity.
  - reflexivity.
  - vm_compute. reflexivity.
Defined.

Lemma new_orchestrator_has_no_agent_witness :
  agent {| agent := None |} = None
  /\ calls {| calls := []; stdout :=
                ["🔐 Using region: us-west-2";
                 "✅ MCP client initialized for retail calendar server"];
              ext := 0 |} = calls world0
  /\ exists region,
       stdout {| calls := []; stdout :=
                ["🔐 Using region: us-west-2";
                 "✅ MCP client initialized for retail calendar server"];
              ext := 0 |}
       = List.app (stdout world0)
           ["🔐 Using region: " ++ region;
            "✅ MCP client initialized for retail calendar server"].
Proof.
  apply (@new_orchestrator_has_no_agent Z unreachable_model_services world0).
  vm_compute. reflexivity.
Defined.

End OrchestratorMore.

(** ** More on [agent_invocation] *)

Module AppMore.
Import Orchestrator OrchestratorFacts OrchestratorMore App.

Section AnyServices.
Context {E : Type} `{Services E}.

(** A payload that is not a dict (a text, a list, a number, ...) has no
    method [get]: the entrypoint answers with the text of the
    [AttributeError], and the state is the one before the call. *)
Theorem payload_that_is_no_dict_is_reported payload context w :
  is_dict payload = false ->
  agent_invocation payload context w
  = (Return ("Error: '" ++ type_name payload ++ "' object has no attribute 'get'"),
     w).
Proof.
  intros Hd. destruct payload; try discriminate Hd; reflexivity.
Qed.

(** A prompt that counts as true but cannot be cut with [[:100]] (a number,
    [True], a dict) is answered with an error text: the orchestrator is built,
    or fails to be, but the session is not called and no handler is. *)
Theorem prompt_that_cannot_be_sliced_is_reported items context w v :
  lookup "prompt" items = Some v ->
  truth v = true ->
  sliceable v = false ->
  exists msg w',
    agent_invocation (VDict items) context w = (Return ("Error: " ++ msg), w')
    /\ calls w' = calls w.
Proof.
  intros Hl Ht Hs.
  unfold agent_invocation, try_except, agent_invocation_body, bind, lift, get, ret.
  rewrite Hl, Ht. cbn [negb].
  unfold import_orchestrator_agent, create_orchestrator_agent.
  destruct (OrchestratorAgent_init w) as [[o|x] w1] eqn:Hinit.
  - pose proof (init_calls _ _ _ Hinit) as Hc.
    destruct v; try discriminate Hs; cbn [slice_to]; eexists; eexists;
      (split; [reflexivity|exact Hc]).
  - pose proof (init_calls _ _ _ Hinit) as Hc.
    eexists; eexists; (split; [reflexivity|exact Hc]).
Qed.

(** The entrypoint reads nothing but the prompt: two payloads with the same
    value under [prompt] are answered alike, whatever their other keys (such as
    a customer identifier) and whatever the context. *)
Theorem only_the_prompt_is_read items1 items2 context1 context2 w :
  lookup "prompt" items1 = lookup "prompt" items2 ->
  agent_invocation (VDict items1) context1 w
  = agent_invocation (VDict items2) context2 w.
Proof.
  intros Hl.
  unfold agent_invocation, agent_invocation_body, get, lift, bind, try_except.
  rewrite Hl. reflexivity.
Qed.

(** A request with a text prompt that is not empty is served by an
    orchestrator made for it: when the orchestrator and its agent are built, the
    answer is the text of a session that starts from an empty conversation, or
    [Error: ] and the message when the session raises.  The case where [query]
    returns [None] does not arise at the entrypoint. *)
Theorem request_is_served_by_a_new_session items context w p o w1 e2 :
  lookup "prompt" items = Some (VStr p) ->
  truthy p = true ->
  create_orchestrator_agent w = (Return o, w1) ->
  Agent_new (ext w1) = (Return tt, e2) ->
  let a := {| system_prompt := create_system_prompt;
              tools := create_tools; messages := [] |} in
  let w2 := {| calls := calls w1;
               stdout := print (stdout w1) "✅ Agent created with 4 tools";
               ext := e2 |} in
  agent_invocation (VDict items) context w
  = match run_decision (model a (VStr p) e2) [UserTurn (VStr p)] w2 with
    | (Return text, _, w3) => (Return text, w3)
    | (Raise x, _, w3) => (Return ("Error: " ++ exn_str x), w3)
    end.
Proof.
  intros Hl Ht Hinit Hn a w2.
  destruct (init_result _ _ _ Hinit) as (Ha & _ & _).
  unfold agent_invocation, try_except, agent_invocation_body, bind, lift, get, ret.
  rewrite Hl. cbn [truth]. unfold truthy in Ht. rewrite Ht. cbn [negb].
  unfold import_orchestrator_agent. rewrite Hinit. cbn [slice_to].
  rewrite (query_first (VStr p) o w1 e2 Ha Hn). cbv zeta.
  unfold Agent_call. cbn [messages app ext system_prompt tools].
  fold a. fold w2.
  destruct (run_decision (model a (VStr p) e2) [UserTurn (VStr p)] w2)
    as [[[text|x] turns] w3]; reflexivity.
Qed.

End AnyServices.

Lemma payload_that_is_no_dict_is_reported_witness :
  @agent_invocation Z eager_services (VStr "Sarah: Welcome.") VNone world0
  = (Return ("Error: '" ++ type_name (VStr "Sarah: Welcome.")
             ++ "' object has no attribute 'get'"), world0).
Proof.
  apply (@payload_that_is_no_dict_is_reported Z eager_services). reflexivity.
Defined.

Lemma prompt_that_cannot_be_sliced_is_reported_witness :
  exists msg w',
    @agent_invocation Z eager_services (VDict [("prompt", VInt 42)]) VNone world0
    = (Return ("Error: " ++ msg), w')
    /\ calls w' = calls world0.
Proof.
  apply (@prompt_that_cannot_be_sliced_is_reported Z eager_services
           [("prompt", VInt 42)] VNone world0 (VInt 42)); reflexivity.
Defined.

Lemma only_the_prompt_is_read_witness :
  @agent_invocation Z eager_services
    (VDict [("prompt", VStr "Plan the sprint"); ("customer_id", VStr "sarah.manager")])
    VNone world0
  = @agent_invocation Z eager_services
      (VDict [("customer_id", VStr "david.dev"); ("prompt", VStr "Plan the sprint")])
      (VStr "context") world0.
Proof.
  apply (@only_the_prompt_is_read Z eager_services). reflexivity.
Defined.

Lemma request_is_served_by_a_new_session_witness :
  let w1 := {| calls := [];
               stdout := ["🔐 Using region: us-west-2";
                          "✅ MCP client initialized for retail calendar server"];
               ext := 0 |} in
  let a := {| system_prompt := create_system_prompt;
              tools := create_tools; messages := [] |} in
  let w2 := {| calls := calls w1;
               stdout := print (stdout w1) "✅ Agent created with 4 tools";
               ext := 0 |} in
  @agent_invocation Z eager_services (VDict [("prompt", VStr "Plan the sprint")])
    VNone world0
  = match @run_decision Z eager_services
            (@model Z eager_services a (VStr "Plan the sprint") 0)
            [UserTurn (VStr "Plan the sprint")] w2 with
    | (Return text, _, w3) => (Return text, w3)
    | (Raise x, _, w3) => (Return ("Error: " ++ exn_str x), w3)
    end.
Proof.
  apply (@request_is_served_by_a_new_session Z eager_services
           [("prompt", VStr "Plan the sprint")] VNone world0 "Plan the sprint"
           {| agent := None |}); reflexivity.
Defined.

End AppMore.

(** ** [deployment/env_utils.py] *)

Module EnvUtilsFacts.
Import EnvUtils.

(** *** Text *)

Lemma is_empty_app_r x y : is_empty y = false -> is_empty (x ++ y) = false.
Proof. destruct x; simpl; auto. Qed.

Lemma rstrip_app x y :
  rstrip (x ++ y) = if is_empty (rstrip y) then rstrip x else x ++ rstrip y.
Proof.
  induction x as [|c x IH].
  - simpl. destruct (rstrip y); reflexivity.
  - change (rstrip (String c x ++ y))
      with (if is_empty (rstrip (x ++ y)) && isspace c then EmptyString
            else String c (rstrip (x ++ y))).
    rewrite IH. destruct (is_empty (rstrip y)) eqn:E.
    + reflexivity.
    + rewrite (is_empty_app_r x _ E). reflexivity.
Qed.

Lemma rstrip_space w : all_chars isspace w = true -> rstrip w = EmptyString.
Proof.
  induction w as [|c w IH]; intros Hw; [reflexivity|].
  cbn [all_chars] in Hw. apply andb_true_iff in Hw as [Hc Hw].
  cbn [rstrip]. rewrite (IH Hw), Hc. reflexivity.
Qed.

Lemma lstrip_space_app w a :
  all_chars isspace w = true -> lstrip (w ++ a) = lstrip a.
Proof.
  induction w as [|c w IH]; intros Hw; [reflexivity|].
  cbn [all_chars] in Hw. apply andb_true_iff in Hw as [Hc Hw].
  cbn [String.append lstrip]. rewrite Hc. exact (IH Hw).
Qed.

Lemma is_empty_true s : is_empty s = true -> s = EmptyString.
Proof. destruct s; [reflexivity | discriminate]. Qed.

Lemma strip_space_l w a : all_chars isspace w = true -> strip (w ++ a) = strip a.
Proof.
  intros Hw. unfold strip. rewrite rstrip_app.
  destruct (is_empty (rstrip a)) eqn:E.
  - rewrite (rstrip_space w Hw), (is_empty_true _ E). reflexivity.
  - apply lstrip_space_app. exact Hw.
Qed.

Lemma strip_space_r a w : all_chars isspace w = true -> strip (a ++ w) = strip a.
Proof.
  intros Hw. unfold strip. rewrite rstrip_app, (rstrip_space w Hw). reflexivity.
Qed.

Lemma strip_nl a : strip (a ++ nl) = strip a.
Proof. apply strip_space_r. reflexivity. Qed.

(** Text that strips to nothing is made of blanks. *)
Lemma rstrip_empty_space s : rstrip s = EmptyString -> all_chars isspace s = true.
Proof.
  induction s as [|c s IH]; intros H; [reflexivity|].
  cbn [rstrip] in H. cbn [all_chars].
  destruct (is_empty (rstrip s)) eqn:E; cbn [andb] in H.
  - destruct (isspace c); [|discriminate].
    rewrite (IH (is_empty_true _ E)). reflexivity.
  - discriminate.
Qed.

Lemma lstrip_empty_space s : lstrip s = EmptyString -> all_chars isspace s = true.
Proof.
  induction s as [|c s IH]; intros H; [reflexivity|].
  cbn [lstrip] in H. cbn [all_chars].
  destruct (isspace c); [|discriminate]. exact (IH H).
Qed.

Lemma rstrip_keeps_space s :
  all_chars isspace (rstrip s) = true -> all_chars isspace s = true.
Proof.
  induction s as [|c s IH]; intros H; [reflexivity|].
  cbn [rstrip] in H. cbn [all_chars].
  destruct (is_empty (rstrip s)) eqn:E; cbn [andb] in H.
  - destruct (isspace c) eqn:Hc.
    + apply is_empty_true in E. rewrite (rstrip_empty_space _ E). reflexivity.
    + cbn [all_chars] in H. rewrite Hc in H. discriminate.
  - cbn [all_chars] in H. apply andb_true_iff in H as [Hc H].
    rewrite Hc, (IH H). reflexivity.
Qed.

Lemma strip_empty_space s : strip s = EmptyString -> all_chars isspace s = true.
Proof.
  unfold strip. intros H. apply rstrip_keeps_space, lstrip_empty_space, H.
Qed.

Lemma strip_section_marker n : strip (section_marker n) = section_marker n.
Proof.
  unfold strip, section_marker.
  rewrite rstrip_app, rstrip_app.
  change (rstrip " ===") with " ===". cbn [is_empty].
  rewrite (is_empty_app_r n " ===" eq_refl). reflexivity.
Qed.

Lemma prefix_nil s : prefix EmptyString s = true.
Proof. destruct s; reflexivity. Qed.

Lemma prefix_app a b : prefix a (a ++ b) = true.
Proof.
  induction a as [|c a IH]; [apply prefix_nil|].
  simpl. destruct (ascii_dec c c); [exact IH | congruence].
Qed.

Lemma prefix_cons c a d b :
  prefix (String c a) (String d b) = Ascii.eqb c d && prefix a b.
Proof.
  simpl. destruct (ascii_dec c d) as [->|Hne].
  - now rewrite Ascii.eqb_refl.
  - apply Ascii.eqb_neq in Hne. now rewrite Hne.
Qed.

Lemma header_section_marker n : header (section_marker n) = true.
Proof. apply prefix_app. Qed.

Lemma section_marker_not_empty n : section_marker n <> EmptyString.
Proof. discriminate. Qed.

Lemma append_inj_l (a x y : string) : a ++ x = a ++ y -> x = y.
Proof. induction a; simpl; intros H; [exact H | inversion H; auto]. Qed.

Lemma append_inj_r (x y a : string) :
  String.length x = String.length y -> x ++ a = y ++ a -> x = y.
Proof.
  revert y. induction x as [|c x IH]; intros [|d y] Hl H; try discriminate.
  - reflexivity.
  - simpl in H. inversion H. f_equal. apply IH; [simpl in Hl; lia | assumption].
Qed.

Lemma section_marker_inj n n' : section_marker n = section_marker n' -> n = n'.
Proof.
  unfold section_marker. intros H. apply append_inj_l in H.
  apply append_inj_r in H; [exact H|].
  apply (f_equal String.length) in H. rewrite !length_append in H. simpl in H. lia.
Qed.

(** *** The assignment of a line *)

Lemma contains_split1 sep s :
  contains sep s = true -> exists a b, split1 sep s = Some (a, b).
Proof.
  induction s as [|c s IH]; intros H.
  - cbn [contains] in H. rewrite orb_false_r in H.
    cbn [split1]. rewrite H. eauto.
  - cbn [contains] in H. cbn [split1].
    destruct (prefix sep (String c s)); [eauto|].
    cbn [orb] in H. destruct (IH H) as (a & b & ->). eauto.
Qed.

Lemma substring_all s : substring 0 (String.length s) s = s.
Proof. induction s; simpl; [reflexivity | now rewrite IHs]. Qed.

Lemma prefix_split a s :
  prefix a s = true ->
  s = a ++ substring (String.length a) (String.length s - String.length a) s.
Proof.
  revert s. induction a as [|c a IH]; intros s H.
  - cbn [String.length String.append]. rewrite Nat.sub_0_r, substring_all.
    reflexivity.
  - destruct s as [|d s]; [discriminate|].
    rewrite prefix_cons in H. apply andb_true_iff in H as [Hc H].
    apply Ascii.eqb_eq in Hc. subst d.
    cbn [String.length String.append Nat.sub substring]. f_equal. exact (IH s H).
Qed.

Lemma contains_after_export r :
  contains "=" ("export " ++ r) = true -> contains "=" r = true.
Proof.
  cbn [String.append]. intros H.
  repeat (cbn [contains] in H; rewrite prefix_cons in H;
          cbn [Ascii.eqb Bool.eqb andb orb] in H).
  exact H.
Qed.

Lemma parse_assignment_returns s :
  contains "=" s = true -> parse_assignment s = Return (assignment s).
Proof.
  intros H. unfold assignment.
  assert (exists p, parse_assignment s = Return p) as [p ->]; [|reflexivity].
  unfold parse_assignment, startswith.
  destruct (prefix "export " s) eqn:Hp.
  - unfold split_once at 1. unfold split1 at 1.
    destruct s as [|c s]; [discriminate|]. rewrite Hp. cbn [unpack2].
    pose proof (prefix_split _ _ Hp) as Hs.
    set (r := substring (String.length "export ")
                (String.length (String c s) - String.length "export ")
                (String c s)) in *.
    rewrite Hs in H. apply contains_after_export in H.
    destruct (contains_split1 _ _ H) as (a & b & Hab).
    unfold split_once. rewrite Hab. cbn [unpack2]. eauto.
  - destruct (contains_split1 _ _ H) as (a & b & Hab).
    unfold split_once. rewrite Hab. cbn [unpack2]. eauto.
Qed.

(** *** The loops of the readers as folds over the stripped lines *)

Lemma stripped_cons l ls :
  stripped (l :: ls)
  = if truthy (strip l) then strip l :: stripped ls else stripped ls.
Proof. reflexivity. Qed.

Lemma stripped_app a b : stripped (a ++ b) = (stripped a ++ stripped b)%list.
Proof. unfold stripped. now rewrite map_app, filter_app. Qed.

Lemma read_all_loop_fold ls d :
  read_all_loop ls d = Return (fold_left all_step (stripped ls) d).
Proof.
  revert d. induction ls as [|l ls IH]; intros d; [reflexivity|].
  cbn [read_all_loop]. rewrite stripped_cons.
  destruct (truthy (strip l)) eqn:Ht; cbn [andb]; [|apply IH].
  cbn [fold_left]. unfold all_step at 2, assigns.
  destruct (negb (startswith (strip l) "#")); cbn [andb]; [|apply IH].
  destruct (contains "=" (strip l)) eqn:Hc; [|apply IH].
  rewrite (parse_assignment_returns _ Hc).
  destruct (assignment (strip l)) as [key value]. apply IH.
Qed.

Lemma fold_section_step_done M ss d :
  fold_left (section_step M) ss (Done, d) = (Done, d).
Proof. induction ss as [|s ss IH]; [reflexivity | exact IH]. Qed.

Lemma header_truthy s : header s = true -> truthy s = true.
Proof. destruct s; [discriminate | reflexivity]. Qed.

Lemma step_marker M b d : section_step M (mode_of b, d) M = (Inside, d).
Proof. destruct b; cbn [mode_of section_step]; now rewrite String.eqb_refl. Qed.

Lemma step_outside M d s :
  String.eqb s M = false -> section_step M (Outside, d) s = (Outside, d).
Proof. intros H. cbn [section_step]. now rewrite H. Qed.

Lemma step_break M d s :
  String.eqb s M = false -> header s = true ->
  section_step M (Inside, d) s = (Done, d).
Proof. intros H Hh. cbn [section_step]. now rewrite H, Hh. Qed.

Lemma step_inside M d s :
  String.eqb s M = false -> header s = false ->
  section_step M (Inside, d) s = (Inside, all_step d s).
Proof. intros H Hh. cbn [section_step]. now rewrite H, Hh. Qed.

Lemma read_section_loop_fold M ls b d :
  M <> EmptyString ->
  read_section_loop M ls b d
  = Return (snd (fold_left (section_step M) (stripped ls) (mode_of b, d))).
Proof.
  intros HM. revert b d. induction ls as [|l ls IH]; intros b d.
  - destruct b; reflexivity.
  - cbn [read_section_loop]. rewrite stripped_cons.
    destruct (String.eqb (strip l) M) eqn:Hm.
    + assert (truthy (strip l) = true) as ->.
      { apply String.eqb_eq in Hm. rewrite Hm.
        destruct M; [congruence | reflexivity]. }
      cbn [fold_left]. apply String.eqb_eq in Hm. rewrite Hm.
      rewrite step_marker. apply (IH true).
    + fold (header (strip l)).
      destruct b; cbn [andb].
      * destruct (header (strip l)) eqn:Hh.
        { rewrite (header_truthy _ Hh). cbn [fold_left mode_of].
          rewrite (step_break _ _ _ Hm Hh), fold_section_step_done.
          reflexivity. }
        destruct (truthy (strip l)) eqn:Ht; cbn [andb]; [|apply IH].
        cbn [fold_left mode_of]. rewrite (step_inside _ _ _ Hm Hh).
        unfold all_step, assigns.
        destruct (negb (startswith (strip l) "#")); cbn [andb];
          [|apply (IH true)].
        destruct (contains "=" (strip l)) eqn:Hc; [|apply (IH true)].
        rewrite (parse_assignment_returns _ Hc).
        destruct (assignment (strip l)) as [key value]. apply (IH true).
      * destruct (truthy (strip l)) eqn:Ht; [|apply IH].
        cbn [fold_left mode_of]. rewrite (step_outside _ _ _ Hm).
        apply (IH false).
Qed.

(** *** The lines of a text *)

Lemma plain_not_lf c : plain c = true -> Ascii.eqb c LF = false.
Proof.
  unfold plain. intros H. apply andb_true_iff in H as [H _].
  now apply negb_true_iff in H.
Qed.

Lemma plain_not_cr c : plain c = true -> not_cr c = true.
Proof. unfold plain, not_cr. intros H. now apply andb_true_iff in H as [_ H]. Qed.

Lemma terminated_cons c t :
  t <> EmptyString -> terminated (String c t) = plain c && terminated t.
Proof. destruct t; [congruence | reflexivity]. Qed.

Lemma terminated_add_nl body :
  all_chars plain body = true -> terminated (body ++ nl) = true.
Proof.
  induction body as [|c body IH]; intros H; [reflexivity|].
  cbn [all_chars] in H. apply andb_true_iff in H as [Hc H].
  cbn [String.append]. rewrite terminated_cons.
  - now rewrite Hc, (IH H).
  - destruct body; discriminate.
Qed.

Lemma terminated_inv l :
  terminated l = true ->
  exists body, l = body ++ nl /\ all_chars plain body = true.
Proof.
  induction l as [|c l IH]; intros H; [discriminate|].
  destruct l as [|c' l'].
  - cbn [terminated] in H. apply Ascii.eqb_eq in H. subst c.
    exists EmptyString. split; reflexivity.
  - rewrite terminated_cons in H by discriminate.
    apply andb_true_iff in H as [Hc H].
    destruct (IH H) as (body & -> & Hb).
    exists (String c body). split; [reflexivity|].
    cbn [all_chars]. now rewrite Hc, Hb.
Qed.

Lemma readlines_cons c t :
  Ascii.eqb c LF = false ->
  readlines (String c t)
  = match readlines t with
    | [] => [String c EmptyString]
    | l :: ls => String c l :: ls
    end.
Proof. intros H. cbn [readlines]. now rewrite H. Qed.

Lemma readlines_lf t : readlines (String LF t) = nl :: readlines t.
Proof. reflexivity. Qed.

Lemma readlines_terminated l rest :
  terminated l = true -> readlines (l ++ rest) = l :: readlines rest.
Proof.
  intros H. destruct (terminated_inv _ H) as (body & -> & Hb). clear H.
  induction body as [|c body IH].
  - reflexivity.
  - cbn [all_chars] in Hb. apply andb_true_iff in Hb as [Hc Hb].
    cbn [String.append]. rewrite (readlines_cons _ _ (plain_not_lf _ Hc)).
    rewrite (IH Hb). reflexivity.
Qed.

Lemma readlines_unterminated t :
  unterminated t = true -> readlines t = [t].
Proof.
  unfold unterminated. intros H. apply andb_true_iff in H as [Hne H].
  destruct t as [|c t]; [discriminate|]. clear Hne. revert c H.
  induction t as [|c' t IH]; intros c H.
  - cbn [all_chars] in H. apply andb_true_iff in H as [Hc _].
    now rewrite (readlines_cons _ _ (plain_not_lf _ Hc)).
  - cbn [all_chars] in H. apply andb_true_iff in H as [Hc H].
    rewrite (readlines_cons _ _ (plain_not_lf _ Hc)).
    now rewrite (IH c' H).
Qed.

Lemma writelines_cons l ls : writelines (l :: ls) = l ++ writelines ls.
Proof.
  unfold writelines. destruct ls; [|reflexivity].
  cbn [String.concat]. now rewrite append_nil_r.
Qed.

Lemma writelines_app a b : writelines (a ++ b) = writelines a ++ writelines b.
Proof.
  induction a as [|l a IH]; [reflexivity|].
  cbn [List.app]. rewrite !writelines_cons, IH, append_assoc. reflexivity.
Qed.

Lemma well_formed_cons l rest :
  rest <> [] -> well_formed (l :: rest) = terminated l && well_formed rest.
Proof. destruct rest; [congruence | reflexivity]. Qed.

Lemma well_formed_app a b :
  forallb terminated a = true -> well_formed b = true ->
  well_formed (a ++ b) = true.
Proof.
  induction a as [|l a IH]; intros Ha Hb; [exact Hb|].
  cbn [forallb] in Ha. apply andb_true_iff in Ha as [Hl Ha].
  specialize (IH Ha Hb). cbn [List.app].
  destruct (a ++ b)%list as [|x rest].
  - cbn [well_formed]. now rewrite Hl.
  - rewrite well_formed_cons by discriminate. now rewrite Hl, IH.
Qed.

Lemma well_formed_terminated a :
  forallb terminated a = true -> well_formed a = true.
Proof.
  intros H. rewrite <- (app_nil_r a). now apply well_formed_app.
Qed.

Lemma well_formed_app_inv a b :
  well_formed (a ++ b) = true -> b <> [] ->
  forallb terminated a = true /\ well_formed b = true.
Proof.
  induction a as [|l a IH]; intros H Hb; [now split|].
  cbn [List.app] in H. rewrite well_formed_cons in H.
  - apply andb_true_iff in H as [Hl H]. destruct (IH H Hb) as [Ha Hb'].
    split; [|exact Hb']. cbn [forallb]. now rewrite Hl, Ha.
  - destruct a; [exact Hb | discriminate].
Qed.

Lemma well_formed_suffix a b :
  well_formed (a ++ b) = true -> well_formed b = true.
Proof.
  intros H. destruct b as [|x b]; [reflexivity|].
  now apply (well_formed_app_inv a (x :: b)).
Qed.

Lemma readlines_writelines L :
  well_formed L = true -> readlines (writelines L) = L.
Proof.
  induction L as [|l rest IH]; intros H; [reflexivity|].
  rewrite writelines_cons. destruct rest as [|l' rest'].
  - cbn [well_formed] in H. change (writelines []) with EmptyString.
    apply orb_true_iff in H as [H|H].
    + now rewrite (readlines_terminated _ _ H).
    + rewrite append_nil_r. now apply readlines_unterminated.
  - rewrite well_formed_cons in H by discriminate.
    apply andb_true_iff in H as [Hl H].
    rewrite (readlines_terminated _ _ Hl), (IH H). reflexivity.
Qed.

Lemma all_chars_impl (p q : ascii -> bool) s :
  (forall c, p c = true -> q c = true) ->
  all_chars p s = true -> all_chars q s = true.
Proof.
  intros Hpq. induction s as [|c s IH]; intros H; [reflexivity|].
  cbn [all_chars] in *. apply andb_true_iff in H as [Hc H].
  now rewrite (Hpq _ Hc), (IH H).
Qed.

Lemma terminated_not_cr l : terminated l = true -> all_chars not_cr l = true.
Proof.
  intros H. destruct (terminated_inv _ H) as (body & -> & Hb).
  rewrite all_chars_app, (all_chars_impl _ _ _ plain_not_cr Hb). reflexivity.
Qed.

Lemma unterminated_not_cr l :
  unterminated l = true -> all_chars not_cr l = true.
Proof.
  unfold unterminated. intros H. apply andb_true_iff in H as [_ H].
  exact (all_chars_impl _ _ _ plain_not_cr H).
Qed.

Lemma well_formed_not_cr L :
  well_formed L = true -> all_chars not_cr (writelines L) = true.
Proof.
  induction L as [|l rest IH]; intros H; [reflexivity|].
  rewrite writelines_cons, all_chars_app. destruct rest as [|l' rest'].
  - cbn [well_formed] in H. apply orb_true_iff in H as [H|H].
    + now rewrite (terminated_not_cr _ H).
    + now rewrite (unterminated_not_cr _ H).
  - rewrite well_formed_cons in H by discriminate.
    apply andb_true_iff in H as [Hl H].
    now rewrite (terminated_not_cr _ Hl), (IH H).
Qed.

Lemma universal_newlines_id s :
  all_chars not_cr s = true -> universal_newlines s = s.
Proof.
  induction s as [|c s IH]; intros H; [reflexivity|].
  cbn [all_chars] in H. apply andb_true_iff in H as [Hc H].
  unfold not_cr in Hc. apply negb_true_iff in Hc.
  cbn [universal_newlines]. rewrite Hc, (IH H). reflexivity.
Qed.

(** What is written is what is read again. *)
Lemma reread L :
  well_formed L = true ->
  readlines (universal_newlines (writelines L)) = L.
Proof.
  intros H. rewrite (universal_newlines_id _ (well_formed_not_cr _ H)).
  now apply readlines_writelines.
Qed.

Lemma universal_newlines_not_cr s :
  all_chars not_cr (universal_newlines s) = true.
Proof.
  assert (forall n s, (String.length s <= n)%nat ->
                      all_chars not_cr (universal_newlines s) = true) as H.
  { clear s. induction n as [|n IH]; intros s Hn.
    - destruct s; [reflexivity | simpl in Hn; lia].
    - destruct s as [|c s]; [reflexivity|].
      cbn [String.length] in Hn. cbn [universal_newlines].
      destruct (Ascii.eqb c CR) eqn:Hc.
      + destruct s as [|c' s']; [reflexivity|].
        destruct (Ascii.eqb c' LF).
        * cbn [all_chars]. rewrite IH; [reflexivity|].
          cbn [String.length] in Hn. lia.
        * cbn [all_chars]. rewrite IH; [reflexivity | lia].
      + cbn [all_chars]. unfold not_cr at 1. rewrite Hc.
        rewrite IH; [reflexivity | lia]. }
  exact (H _ s (le_n _)).
Qed.

Lemma well_formed_readlines s :
  all_chars not_cr s = true -> well_formed (readlines s) = true.
Proof.
  induction s as [|c s IH]; intros H; [reflexivity|].
  cbn [all_chars] in H. apply andb_true_iff in H as [Hc H].
  specialize (IH H). destruct (Ascii.eqb c LF) eqn:Hlf.
  - apply Ascii.eqb_eq in Hlf. subst c. rewrite readlines_lf.
    destruct (readlines s) eqn:E; [reflexivity|].
    rewrite well_formed_cons by discriminate. exact IH.
  - rewrite (readlines_cons _ _ Hlf).
    assert (plain c = true) as Hp.
    { unfold plain. unfold not_cr in Hc. now rewrite Hlf, Hc. }
    destruct (readlines s) as [|l ls] eqn:E.
    + cbn [well_formed]. unfold unterminated. cbn [is_empty negb all_chars].
      rewrite Hp. apply orb_true_r.
    + destruct ls as [|l' ls'].
      * cbn [well_formed] in *. apply orb_true_iff in IH as [IH|IH].
        -- rewrite terminated_cons, Hp, IH; [reflexivity|].
           destruct l; [discriminate | discriminate].
        -- unfold unterminated in *. cbn [is_empty negb all_chars].
           apply andb_true_iff in IH as [_ IH]. rewrite Hp, IH.
           apply orb_true_r.
      * rewrite well_formed_cons in * by discriminate.
        apply andb_true_iff in IH as [Hl IH].
        rewrite terminated_cons, Hp, Hl, IH; [reflexivity|].
        destruct l; discriminate.
Qed.

(** The lines of any file are well formed. *)
Lemma well_formed_lines text :
  well_formed (readlines (universal_newlines text)) = true.
Proof. apply well_formed_readlines, universal_newlines_not_cr. Qed.

(** *** The loop of [read_env_section] on plain stretches of lines *)

Lemma fold_outside_no_marker M ls d :
  forallb (fun l => negb (String.eqb (strip l) M)) ls = true ->
  fold_left (section_step M) (stripped ls) (Outside, d) = (Outside, d).
Proof.
  induction ls as [|l ls IH]; intros H; [reflexivity|].
  cbn [forallb] in H. apply andb_true_iff in H as [Hl H].
  apply negb_true_iff in Hl. rewrite stripped_cons.
  destruct (truthy (strip l)); [|exact (IH H)].
  cbn [fold_left]. rewrite (step_outside _ _ _ Hl). exact (IH H).
Qed.

Lemma header_not_marker M s :
  header M = true -> header s = false -> String.eqb s M = false.
Proof.
  intros HM Hs. destruct (String.eqb s M) eqn:E; [|reflexivity].
  apply String.eqb_eq in E. congruence.
Qed.

Lemma no_header_no_marker M ls :
  header M = true ->
  forallb (fun l => negb (header (strip l))) ls = true ->
  forallb (fun l => negb (String.eqb (strip l) M)) ls = true.
Proof.
  intros HM. induction ls as [|l ls IH]; intros H; [reflexivity|].
  cbn [forallb] in *. apply andb_true_iff in H as [Hl H].
  apply negb_true_iff in Hl. now rewrite (header_not_marker _ _ HM Hl), (IH H).
Qed.

Lemma fold_inside_no_header M ls d :
  header M = true ->
  forallb (fun l => negb (header (strip l))) ls = true ->
  fold_left (section_step M) (stripped ls) (Inside, d)
  = (Inside, fold_left all_step (stripped ls) d).
Proof.
  intros HM. revert d. induction ls as [|l ls IH]; intros d H; [reflexivity|].
  cbn [forallb] in H. apply andb_true_iff in H as [Hl H].
  apply negb_true_iff in Hl. rewrite stripped_cons.
  destruct (truthy (strip l)); [|exact (IH d H)].
  cbn [fold_left].
  rewrite (step_inside _ _ _ (header_not_marker _ _ HM Hl) Hl).
  exact (IH _ H).
Qed.

Lemma marker_truthy M : header M = true -> truthy M = true.
Proof. apply header_truthy. Qed.

Lemma stripped_marker_line M mline rest :
  header M = true -> strip mline = M ->
  stripped (mline :: rest) = M :: stripped rest.
Proof.
  intros HM Hs. rewrite stripped_cons, Hs, (marker_truthy _ HM). reflexivity.
Qed.

(** The state of the reader after a marker line: in the section, unless it
    had stopped before. *)
Lemma fold_through_section M pre mline mid d :
  header M = true -> strip mline = M ->
  forallb (fun l => negb (header (strip l))) mid = true ->
  fold_left (section_step M) (stripped (pre ++ mline :: mid)) (Outside, d)
  = match fold_left (section_step M) (stripped pre) (Outside, d) with
    | (Done, d') => (Done, d')
    | (_, d') => (Inside, fold_left all_step (stripped mid) d')
    end.
Proof.
  intros HM Hs Hmid.
  rewrite stripped_app, fold_left_app, (stripped_marker_line _ _ _ HM Hs).
  destruct (fold_left (section_step M) (stripped pre) (Outside, d)) as [m d'].
  cbn [fold_left]. destruct m.
  - change (Outside, d') with (mode_of false, d'). rewrite step_marker.
    now apply fold_inside_no_header.
  - change (Inside, d') with (mode_of true, d'). rewrite step_marker.
    now apply fold_inside_no_header.
  - apply fold_section_step_done.
Qed.

(** *** The search of the section in [update_env_section] *)

Lemma find_section_spec M L :
  header M = true ->
  forall done st,
  match st with
  | None => forallb (fun l => negb (String.eqb (strip l) M)) done = true
  | Some a =>
      exists pre mline mid,
        done = (pre ++ mline :: mid)%list /\ List.length pre = a
        /\ strip mline = M
        /\ forallb (fun l => negb (header (strip l))) mid = true
        /\ (forall d, fst (fold_left (section_step M) (stripped pre)
                             (Outside, d)) <> Done)
  end ->
  match find_section M L (List.length done) st with
  | (None, en) =>
      en = None
      /\ forallb (fun l => negb (String.eqb (strip l) M)) (done ++ L) = true
  | (Some a, en) =>
      exists pre mline mid post,
        (done ++ L = pre ++ mline :: mid ++ post)%list
        /\ List.length pre = a /\ strip mline = M
        /\ forallb (fun l => negb (header (strip l))) mid = true
        /\ (forall d, fst (fold_left (section_step M) (stripped pre)
                             (Outside, d)) <> Done)
        /\ match en with
           | None => post = []
           | Some e =>
               e = List.length (pre ++ mline :: mid)
               /\ exists h post',
                    post = h :: post' /\ header (strip h) = true
                    /\ String.eqb (strip h) M = false
           end
  end.
Proof.
  intros HM. induction L as [|l L IH]; intros done st Hinv.
  - cbn [find_section]. destruct st as [a|].
    + destruct Hinv as (pre & mline & mid & -> & Ha & Hs & Hmid & Hpre).
      exists pre, mline, mid, []. rewrite !app_nil_r. repeat split; auto.
    + rewrite app_nil_r. now split.
  - cbn [find_section].
    change (startswith (strip l) "# === ") with (header (strip l)).
    assert (List.length (done ++ [l]) = S (List.length done)) as Hlen
      by (rewrite length_app; simpl; lia).
    assert (((done ++ [l]) ++ L)%list = (done ++ l :: L)%list) as Happ
      by (now rewrite <- app_assoc).
    destruct (String.eqb (strip l) M) eqn:Hm.
    + rewrite <- Hlen, <- Happ. apply IH.
      exists done, l, []. repeat split; auto.
      * now apply String.eqb_eq.
      * intros d. destruct st as [a|].
        -- destruct Hinv as (pre & mline & mid & -> & Ha & Hs & Hmid & Hpre).
           rewrite (fold_through_section _ _ _ _ _ HM Hs Hmid).
           specialize (Hpre d).
           destruct (fold_left (section_step M) (stripped pre) (Outside, d))
             as [[| |] d']; cbn [fst] in *; congruence.
        -- rewrite (fold_outside_no_marker _ _ _ Hinv). discriminate.
    + destruct st as [a|]; cbn [andb negb].
      * destruct (header (strip l)) eqn:Hh; cbn [andb].
        -- destruct Hinv as (pre & mline & mid & -> & Ha & Hs & Hmid & Hpre).
           exists pre, mline, mid, (l :: L). repeat split; auto.
           ++ now rewrite <- app_assoc.
           ++ exists l, L. repeat split; auto.
        -- rewrite <- Hlen, <- Happ. apply IH.
           destruct Hinv as (pre & mline & mid & -> & Ha & Hs & Hmid & Hpre).
           exists pre, mline, (mid ++ [l])%list. repeat split; auto.
           ++ now rewrite <- app_assoc.
           ++ rewrite forallb_app, Hmid. cbn [forallb]. now rewrite Hh.
      * rewrite <- Hlen, <- Happ. apply IH.
        rewrite forallb_app, Hinv. cbn [forallb]. now rewrite Hm.
Qed.

(** *** The lines that [update_env_section] writes *)

Lemma endswith_nl_plain line :
  all_chars plain line = true -> endswith_nl line = false.
Proof.
  induction line as [|c t IH]; intros H; [reflexivity|].
  cbn [all_chars] in H. apply andb_true_iff in H as [Hc H].
  destruct t; [exact (plain_not_lf _ Hc) | exact (IH H)].
Qed.

Lemma content_lines acc content :
  forallb (all_chars plain) content = true ->
  fold_left (fun acc line =>
               append acc (if negb (endswith_nl line) then line ++ nl else line))
            content acc
  = (acc ++ map (fun l => (l ++ nl)%string) content)%list.
Proof.
  revert acc. induction content as [|l content IH]; intros acc H.
  - now rewrite app_nil_r.
  - cbn [forallb] in H. apply andb_true_iff in H as [Hl H].
    cbn [fold_left map]. rewrite (IH _ H), (endswith_nl_plain _ Hl).
    unfold append. cbn [negb]. now rewrite <- app_assoc.
Qed.

Lemma new_lines_cases L name content :
  forallb (all_chars plain) content = true ->
  let M := section_marker name in
  let section :=
    ((M ++ nl)%string :: map (fun l => (l ++ nl)%string) content
       ++ match content with [] => [] | _ :: _ => [nl] end)%list in
  (forallb (fun l => negb (String.eqb (strip l) M)) L = true
   /\ new_lines L name content
      = (L ++ match L with
              | [] => []
              | _ :: _ =>
                  if negb (String.eqb (strip (last L EmptyString)) EmptyString)
                  then [nl] else []
              end ++ section)%list)
  \/ (exists pre mline mid post,
        L = (pre ++ mline :: mid ++ post)%list
        /\ strip mline = M
        /\ forallb (fun l => negb (header (strip l))) mid = true
        /\ (forall d, fst (fold_left (section_step M) (stripped pre)
                             (Outside, d)) <> Done)
        /\ (post = []
            \/ exists h post',
                 post = h :: post' /\ header (strip h) = true
                 /\ String.eqb (strip h) M = false)
        /\ new_lines L name content = (pre ++ section ++ post)%list).
Proof.
  intros Hc M section.
  pose proof (find_section_spec M L (header_section_marker name) [] None eq_refl)
    as H.
  cbn [List.length List.app] in H. unfold new_lines. fold M.
  destruct (find_section M L 0 None) as [[a|] en]; cbn [fst snd].
  - right. destruct H as (pre & mline & mid & post & HL & Ha & Hs & Hmid & Hpre & Hen).
    exists pre, mline, mid, post. repeat split; auto.
    + destruct en as [e|]; [right; tauto | left; exact Hen].
    + rewrite (content_lines _ _ Hc). unfold append.
      assert (firstn a L = pre) as ->.
      { rewrite HL, <- Ha, firstn_app, Nat.sub_diag, firstn_all.
        cbn [firstn]. now rewrite app_nil_r. }
      assert ((if (match en with Some i => i | None => List.length L end
                   <? List.length L)%nat
               then skipn match en with Some i => i | None => List.length L end L
               else []) = post) as Hpost.
      { destruct en as [e|].
        - destruct Hen as (-> & h & post' & -> & _).
          replace L with ((pre ++ mline :: mid) ++ h :: post')%list
            by (now rewrite HL, <- app_assoc).
          set (P := (pre ++ mline :: mid)%list).
          rewrite skipn_app, skipn_all, Nat.sub_diag. cbn [skipn List.app].
          assert ((List.length P <? List.length (P ++ h :: post'))%nat = true)
            as -> by (apply Nat.ltb_lt; rewrite length_app;
                      cbn [List.length]; lia).
          reflexivity.
        - subst post. now rewrite Nat.ltb_irrefl. }
      unfold section.
      destruct content as [|c0 content'];
        destruct ((match en with Some i => i | None => List.length L end
                   <? List.length L)%nat);
        rewrite ?Hpost, <- ?Hpost; cbn [List.app];
        rewrite <- ?app_assoc, ?app_nil_r; cbn [List.app];
        rewrite <- ?app_assoc; reflexivity.
  - left. destruct H as [_ H]. split; [exact H|].
    rewrite (content_lines _ _ Hc). unfold append, section.
    destruct L as [|l0 L'].
    + destruct content; cbn [List.app]; rewrite <- ?app_assoc;
        cbn [List.app]; reflexivity.
    + set (E := l0 :: L') in *.
      destruct (negb (String.eqb (strip (last E EmptyString)) EmptyString));
        destruct content; cbn [List.app]; rewrite <- ?app_assoc;
        cbn [List.app]; rewrite <- ?app_assoc; reflexivity.
Qed.

(** *** The written lines, read again *)

Lemma stripped_add_nl content :
  stripped (map (fun l => (l ++ nl)%string) content) = stripped content.
Proof.
  induction content as [|l content IH]; [reflexivity|].
  cbn [map]. rewrite !stripped_cons, strip_nl, IH. reflexivity.
Qed.

Lemma terminated_content content :
  forallb (all_chars plain) content = true ->
  forallb terminated (map (fun l => (l ++ nl)%string) content) = true.
Proof.
  induction content as [|l content IH]; intros H; [reflexivity|].
  cbn [forallb] in H. apply andb_true_iff in H as [Hl H].
  cbn [map forallb]. now rewrite (terminated_add_nl _ Hl), (IH H).
Qed.

Lemma plain_section_marker name :
  all_chars plain name = true -> all_chars plain (section_marker name) = true.
Proof.
  intros H. unfold section_marker. rewrite !all_chars_app, H. reflexivity.
Qed.

Lemma terminated_section name content :
  all_chars plain name = true ->
  forallb (all_chars plain) content = true ->
  forallb terminated
    ((section_marker name ++ nl)%string
       :: map (fun l => (l ++ nl)%string) content
       ++ match content with [] => [] | _ :: _ => [nl] end)%list = true.
Proof.
  intros Hn Hc. cbn [forallb].
  rewrite (terminated_add_nl _ (plain_section_marker _ Hn)).
  rewrite forallb_app, (terminated_content _ Hc).
  destruct content; reflexivity.
Qed.

Lemma no_header_section content :
  forallb (fun l => negb (header_like l)) content = true ->
  forallb (fun l => negb (header (strip l)))
    (map (fun l => (l ++ nl)%string) content
       ++ match content with [] => [] | _ :: _ => [nl] end)%list = true.
Proof.
  intros H. rewrite forallb_app.
  assert (forallb (fun l => negb (header (strip l)))
            (map (fun l => (l ++ nl)%string) content) = true) as ->.
  { induction content as [|l content IH]; [reflexivity|].
    cbn [forallb] in H. apply andb_true_iff in H as [Hl H].
    cbn [map forallb]. rewrite strip_nl. unfold header_like in Hl.
    now rewrite Hl, (IH H). }
  destruct content; reflexivity.
Qed.

Lemma stripped_section_body content :
  stripped (map (fun l => (l ++ nl)%string) content
              ++ match content with [] => [] | _ :: _ => [nl] end)
  = stripped content.
Proof.
  rewrite stripped_app, stripped_add_nl.
  destruct content; cbn [stripped map filter]; now rewrite app_nil_r.
Qed.

Lemma forallb_terminated_app a b :
  forallb terminated a = true -> forallb terminated b = true ->
  forallb terminated (a ++ b) = true.
Proof. intros Ha Hb. now rewrite forallb_app, Ha, Hb. Qed.

(** A last line without its line feed is joined to the line written next. *)
Lemma reread_joined ls t x rest :
  forallb terminated ls = true -> unterminated t = true ->
  terminated x = true -> forallb terminated rest = true ->
  readlines (universal_newlines (writelines (ls ++ t :: x :: rest)))
  = (ls ++ (t ++ x)%string :: rest)%list.
Proof.
  intros Hls Ht Hx Hrest.
  assert (writelines (ls ++ t :: x :: rest)
          = writelines (ls ++ (t ++ x)%string :: rest)) as ->.
  { rewrite !writelines_app, !writelines_cons, append_assoc. reflexivity. }
  apply reread, well_formed_app; [exact Hls|].
  apply well_formed_terminated. cbn [forallb]. rewrite Hrest, andb_true_r.
  destruct (terminated_inv _ Hx) as (body & -> & Hb).
  rewrite <- append_assoc. apply terminated_add_nl.
  unfold unterminated in Ht. apply andb_true_iff in Ht as [_ Ht].
  now rewrite all_chars_app, Ht, Hb.
Qed.

Lemma well_formed_last ls t :
  well_formed (ls ++ [t]) = true ->
  forallb terminated ls = true /\ (terminated t = true \/ unterminated t = true).
Proof.
  intros H. apply well_formed_app_inv in H as [Hls Ht]; [|discriminate].
  split; [exact Hls|]. cbn [well_formed] in Ht. now apply orb_true_iff in Ht.
Qed.

Lemma stripped_reread_new_lines L name content :
  well_formed L = true ->
  all_chars plain name = true ->
  forallb (all_chars plain) content = true ->
  stripped (readlines (universal_newlines
                         (writelines (new_lines L name content))))
  = stripped (new_lines L name content).
Proof.
  intros HL Hn Hc.
  pose proof (terminated_section name content Hn Hc) as Hsec.
  destruct (new_lines_cases L name content Hc)
    as [[_ ->] | (pre & mline & mid & post & HLeq & _ & _ & _ & _ & ->)].
  - set (section := ((section_marker name ++ nl)%string :: _)%list) in *.
    destruct L as [|l0 L'].
    + cbn [List.app]. now rewrite (reread _ (well_formed_terminated _ Hsec)).
    + set (E := l0 :: L') in *.
      assert (E <> []) as HE by discriminate.
      rewrite (app_removelast_last EmptyString HE) in HL.
      apply well_formed_last in HL as [Hls [Ht|Ht]].
      * assert (forallb terminated E = true) as HEt.
        { rewrite (app_removelast_last EmptyString HE), forallb_app, Hls.
          cbn [forallb]. now rewrite Ht. }
        rewrite reread; [reflexivity|].
        apply well_formed_terminated, forallb_terminated_app; [exact HEt|].
        apply forallb_terminated_app; [|exact Hsec].
        destruct (negb _); reflexivity.
      * rewrite (app_removelast_last EmptyString HE) at 1 3.
        set (ls := removelast E) in *. set (t := last E EmptyString) in *.
        destruct (String.eqb (strip t) EmptyString) eqn:Hblank; cbn [negb].
        -- apply String.eqb_eq in Hblank.
           unfold section. rewrite <- !app_assoc. cbn [List.app].
           rewrite reread_joined; auto.
           ++ rewrite !stripped_app, !stripped_cons.
              rewrite (strip_space_l _ _ (strip_empty_space _ Hblank)), Hblank.
              reflexivity.
           ++ cbn [forallb] in Hsec. now apply andb_true_iff in Hsec as [? _].
           ++ cbn [forallb] in Hsec. now apply andb_true_iff in Hsec as [_ ?].
        -- rewrite <- !app_assoc. cbn [List.app].
           rewrite reread_joined; auto.
           rewrite !stripped_app, !stripped_cons, strip_nl.
           change (truthy (strip nl)) with false. cbn iota. reflexivity.
  - rewrite reread; [reflexivity|].
    assert (forallb terminated pre = true /\ well_formed post = true)
      as [Hpre Hpost].
    { rewrite HLeq in HL. split.
      - now apply well_formed_app_inv in HL as [? _].
      - replace (pre ++ mline :: mid ++ post)%list
          with ((pre ++ mline :: mid) ++ post)%list in HL
          by (now rewrite <- app_assoc).
        exact (well_formed_suffix _ _ HL). }
    apply well_formed_app; [exact Hpre|].
    apply well_formed_app; [exact Hsec | exact Hpost].
Qed.

(** *** Dicts *)

Lemma lookup_dict_set x k v (d : dict) :
  lookup x (dict_set k v d) = if String.eqb k x then Some v else lookup x d.
Proof.
  induction d as [|[k' v'] d IH].
  - reflexivity.
  - cbn [dict_set]. destruct (String.eqb k' k) eqn:E.
    + apply String.eqb_eq in E. subst k'. cbn [lookup].
      destruct (String.eqb k x); reflexivity.
    + cbn [lookup]. rewrite IH. destruct (String.eqb k' x) eqn:E'.
      * apply String.eqb_eq in E'. subst k'.
        rewrite String.eqb_sym in E. now rewrite E.
      * reflexivity.
Qed.

Lemma dict_set_not_nil k v (d : dict) : dict_set k v d <> [].
Proof. destruct d as [|[k' v'] d]; cbn [dict_set]; [|destruct (String.eqb k' k)]; discriminate. Qed.

Lemma all_step_nil d s : all_step d s = [] -> d = [].
Proof.
  unfold all_step. destruct (assigns s); [|auto].
  intros H. now apply dict_set_not_nil in H.
Qed.

Lemma fold_all_step_nil ss d : fold_left all_step ss d = [] -> d = [].
Proof.
  revert d. induction ss as [|s ss IH]; intros d H; [exact H|].
  cbn [fold_left] in H. exact (all_step_nil _ _ (IH _ H)).
Qed.

Lemma all_step_lookup d1 d2 s :
  (forall k v, lookup k d1 = Some v -> lookup k d2 = Some v) ->
  forall k v, lookup k (all_step d1 s) = Some v ->
              lookup k (all_step d2 s) = Some v.
Proof.
  intros H k v. unfold all_step. destruct (assigns s); [|apply H].
  rewrite !lookup_dict_set. destruct (String.eqb _ k); [auto | apply H].
Qed.

(** Assignments read later win: what a stretch of lines assigns does not
    depend on the variables read before. *)
Lemma fold_all_step_lookup ss d1 d2 :
  (forall k v, lookup k d1 = Some v -> lookup k d2 = Some v) ->
  forall k v, lookup k (fold_left all_step ss d1) = Some v ->
              lookup k (fold_left all_step ss d2) = Some v.
Proof.
  revert d1 d2. induction ss as [|s ss IH]; intros d1 d2 H; [exact H|].
  cbn [fold_left]. apply IH. now apply all_step_lookup.
Qed.

Lemma all_step_keeps_keys d s k :
  lookup k d <> None -> lookup k (all_step d s) <> None.
Proof.
  unfold all_step. destruct (assigns s); [|auto].
  rewrite lookup_dict_set. destruct (String.eqb _ k); [discriminate | auto].
Qed.

Lemma all_step_keys d1 d2 s :
  (forall k, lookup k d1 <> None -> lookup k d2 <> None) ->
  forall k, lookup k (all_step d1 s) <> None ->
            lookup k (all_step d2 s) <> None.
Proof.
  intros H k. unfold all_step. destruct (assigns s); [|apply H].
  rewrite !lookup_dict_set. destruct (String.eqb _ k); [auto | apply H].
Qed.

(** What the reader of a section collects, the reader of the whole file
    collects too. *)
Lemma section_keys_among_all M ss m d dall :
  (forall k, lookup k d <> None -> lookup k dall <> None) ->
  forall k, lookup k (snd (fold_left (section_step M) ss (m, d))) <> None ->
            lookup k (fold_left all_step ss dall) <> None.
Proof.
  revert m d dall. induction ss as [|s ss IH]; intros m d dall H; [exact H|].
  cbn [fold_left].
  assert (forall k, lookup k d <> None -> lookup k (all_step dall s) <> None)
    as Hkeep by (intros k Hk; now apply all_step_keeps_keys, H).
  destruct m; cbn [section_step].
  - destruct (String.eqb s M); now apply IH.
  - destruct (String.eqb s M); [now apply IH|].
    destruct (header s); [now apply IH|].
    apply IH. now apply all_step_keys.
  - now apply IH.
Qed.

(** *** The section of the update in the lines written *)

Lemma blank_separator_no_marker M (L : list string) :
  header M = true ->
  forallb (fun l => negb (String.eqb (strip l) M))
    match L with
    | [] => []
    | _ :: _ =>
        if negb (String.eqb (strip (last L EmptyString)) EmptyString)
        then [nl] else []
    end = true.
Proof.
  intros HM. destruct L; [reflexivity|].
  destruct (negb _); [|reflexivity].
  cbn [forallb]. change (strip nl) with EmptyString.
  destruct M; [discriminate | reflexivity].
Qed.

Lemma stripped_blank_separator (L : list string) :
  stripped match L with
           | [] => []
           | _ :: _ =>
               if negb (String.eqb (strip (last L EmptyString)) EmptyString)
               then [nl] else []
           end = [].
Proof. destruct L; [reflexivity|]. destruct (negb _); reflexivity. Qed.

(** The variables of a section that is there, from the state of the reader
    at its marker line. *)
Lemma fold_section_of M pre mline mid post :
  header M = true -> strip mline = M ->
  forallb (fun l => negb (header (strip l))) mid = true ->
  (forall d, fst (fold_left (section_step M) (stripped pre) (Outside, d))
             <> Done) ->
  (post = []
   \/ exists h post',
        post = h :: post' /\ header (strip h) = true
        /\ String.eqb (strip h) M = false) ->
  snd (fold_left (section_step M) (stripped (pre ++ mline :: mid ++ post))
         (Outside, []))
  = fold_left all_step (stripped mid)
      (snd (fold_left (section_step M) (stripped pre) (Outside, []))).
Proof.
  intros HM Hs Hmid Hpre Hpost.
  replace (pre ++ mline :: mid ++ post)%list
    with ((pre ++ mline :: mid) ++ post)%list by (now rewrite <- app_assoc).
  rewrite stripped_app, fold_left_app.
  rewrite (fold_through_section _ _ _ _ _ HM Hs Hmid).
  specialize (Hpre []). unfold dict in *.
  match goal with
  | |- context [match ?X with _ => _ end] => destruct X as [m d']
  end.
  cbn [fst snd] in *.
  assert (snd (fold_left (section_step M) (stripped post)
                 (Inside, fold_left all_step (stripped mid) d'))
          = fold_left all_step (stripped mid) d') as Hafter.
  { destruct Hpost as [-> | (h & post' & -> & Hhh & Hhm)]; [reflexivity|].
    rewrite stripped_cons, (header_truthy _ Hhh). cbn [fold_left].
    rewrite (step_break _ _ _ Hhm Hhh), fold_section_step_done. reflexivity. }
  destruct m; [exact Hafter | exact Hafter | congruence].
Qed.

Lemma own_section_fold L name content :
  forallb (all_chars plain) content = true ->
  forallb (fun l => negb (header_like l)) content = true ->
  exists d0,
    snd (fold_left (section_step (section_marker name))
           (stripped (new_lines L name content)) (Outside, []))
    = fold_left all_step (stripped content) d0
    /\ (snd (fold_left (section_step (section_marker name)) (stripped L)
               (Outside, [])) = [] -> d0 = []).
Proof.
  intros Hc Hh.
  pose proof (header_section_marker name) as HM.
  pose proof (no_header_section content Hh) as Hbody.
  assert (strip (section_marker name ++ nl) = section_marker name) as Hs
    by (now rewrite strip_nl, strip_section_marker).
  destruct (new_lines_cases L name content Hc)
    as [[HL ->] | (pre & mline & mid & post & HLeq & Hsm & Hmid & Hpre & Hpost & ->)].
  - exists []. split; [|reflexivity].
    match goal with
    | |- context [(L ++ ?sep ++ ?m :: ?body)%list] =>
        replace (L ++ sep ++ m :: body)%list
          with ((L ++ sep) ++ m :: body ++ [])%list
          by (now rewrite app_nil_r, <- app_assoc)
    end.
    rewrite (fold_section_of _ _ _ _ [] HM Hs Hbody); [| |now left].
    + rewrite fold_outside_no_marker.
      * cbn [snd]. now rewrite stripped_section_body.
      * rewrite forallb_app, HL. now apply blank_separator_no_marker.
    + intros d. rewrite fold_outside_no_marker; [discriminate|].
      rewrite forallb_app, HL. now apply blank_separator_no_marker.
  - exists (snd (fold_left (section_step (section_marker name)) (stripped pre)
                   (Outside, []))).
    split.
    + cbn [List.app].
      rewrite (fold_section_of _ _ _ _ _ HM Hs Hbody Hpre Hpost).
      now rewrite stripped_section_body.
    + rewrite HLeq, (fold_section_of _ _ _ _ _ HM Hsm Hmid Hpre Hpost).
      apply fold_all_step_nil.
Qed.

(** *** The other sections in the lines written *)

Lemma fold_past_section M' M pre mline mid st :
  header M' = true -> header M = true -> String.eqb M M' = false ->
  strip mline = M ->
  forallb (fun l => negb (header (strip l))) mid = true ->
  fold_left (section_step M') (stripped (pre ++ mline :: mid)) st
  = match fold_left (section_step M') (stripped pre) st with
    | (Outside, d) => (Outside, d)
    | (_, d) => (Done, d)
    end.
Proof.
  intros HM' HM Hne Hs Hmid.
  rewrite stripped_app, fold_left_app, (stripped_marker_line _ _ _ HM Hs).
  destruct (fold_left (section_step M') (stripped pre) st) as [m d].
  cbn [fold_left]. destruct m.
  - rewrite (step_outside _ _ _ Hne).
    apply fold_outside_no_marker. now apply no_header_no_marker.
  - rewrite (step_break _ _ _ Hne HM). apply fold_section_step_done.
  - apply fold_section_step_done.
Qed.

Lemma fold_past_section_of M' M pre mline mid post st :
  header M' = true -> header M = true -> String.eqb M M' = false ->
  strip mline = M ->
  forallb (fun l => negb (header (strip l))) mid = true ->
  fold_left (section_step M') (stripped (pre ++ mline :: mid ++ post)) st
  = fold_left (section_step M') (stripped post)
      match fold_left (section_step M') (stripped pre) st with
      | (Outside, d) => (Outside, d)
      | (_, d) => (Done, d)
      end.
Proof.
  intros HM' HM Hne Hs Hmid.
  replace (pre ++ mline :: mid ++ post)%list
    with ((pre ++ mline :: mid) ++ post)%list by (now rewrite <- app_assoc).
  rewrite stripped_app, fold_left_app.
  now rewrite (fold_past_section _ _ _ _ _ _ HM' HM Hne Hs Hmid).
Qed.

Lemma other_section_fold L name name' content :
  name <> name' ->
  forallb (all_chars plain) content = true ->
  forallb (fun l => negb (header_like l)) content = true ->
  snd (fold_left (section_step (section_marker name'))
         (stripped (new_lines L name content)) (Outside, []))
  = snd (fold_left (section_step (section_marker name')) (stripped L)
           (Outside, [])).
Proof.
  intros Hne Hc Hh.
  pose proof (header_section_marker name) as HM.
  pose proof (header_section_marker name') as HM'.
  pose proof (no_header_section content Hh) as Hbody.
  assert (strip (section_marker name ++ nl) = section_marker name) as Hs
    by (now rewrite strip_nl, strip_section_marker).
  assert (String.eqb (section_marker name) (section_marker name') = false)
    as HMne.
  { apply String.eqb_neq. intros E. now apply section_marker_inj in E. }
  destruct (new_lines_cases L name content Hc)
    as [[HL ->] | (pre & mline & mid & post & HLeq & Hsm & Hmid & Hpre & Hpost & ->)].
  - rewrite app_assoc.
    rewrite (fold_past_section _ _ _ _ _ _ HM' HM HMne Hs Hbody).
    rewrite stripped_app, stripped_blank_separator, app_nil_r.
    unfold dict in *.
    match goal with
    | |- context [match ?X with _ => _ end] => destruct X as [[| |] d]
    end; reflexivity.
  - rewrite HLeq. cbn [List.app].
    rewrite (fold_past_section_of _ _ _ _ _ _ _ HM' HM HMne Hs Hbody).
    rewrite (fold_past_section_of _ _ _ _ _ _ _ HM' HM HMne Hsm Hmid).
    reflexivity.
Qed.

(** *** The functions on a file system *)

Section AnyFileSystem.

Context {F : Type} `{FileSystem F}.

Lemma read_env_section_run p name (s : env_state F) :
  fst (read_env_section p name s)
  = if path_exists p (files s)
    then match read_text p (files s) with
         | Return text =>
             read_section_loop (section_marker name)
               (readlines (universal_newlines text)) false []
         | Raise e => Raise e
         end
    else Return [].
Proof.
  unfold read_env_section, open_lines, bind, exists_, on_files, ret, lift.
  cbv beta. destruct (path_exists p (files s)); cbn [negb]; [|reflexivity].
  destruct (read_text p (files s)) as [text|e]; reflexivity.
Qed.

Lemma get_all_env_vars_run p (s : env_state F) :
  fst (get_all_env_vars p s)
  = if path_exists p (files s)
    then match read_text p (files s) with
         | Return text =>
             read_all_loop (readlines (universal_newlines text)) []
         | Raise e => Raise e
         end
    else Return [].
Proof.
  unfold get_all_env_vars, open_lines, bind, exists_, on_files, ret, lift.
  cbv beta. destruct (path_exists p (files s)); cbn [negb]; [|reflexivity].
  destruct (read_text p (files s)) as [text|e]; reflexivity.
Qed.

(** Whatever text the file holds, the two readers return a dict: the
    unpacking of a line into key and value never fails, since a line is split
    only when it holds an equals sign, which [export ] does not. *)
Theorem readers_return_on_any_text p name (s : env_state F) text :
  read_text p (files s) = Return text ->
  (exists d, fst (read_env_section p name s) = Return d)
  /\ (exists d, fst (get_all_env_vars p s) = Return d).
Proof.
  intros Hread. rewrite read_env_section_run, get_all_env_vars_run, Hread.
  destruct (path_exists p (files s)); [|split; eexists; reflexivity].
  rewrite read_all_loop_fold.
  rewrite read_section_loop_fold by apply section_marker_not_empty.
  split; eexists; reflexivity.
Qed.

(** The variables of a section are variables of the file: every key that
    [read_env_section] returns, [get_all_env_vars] returns on the same file
    (with the value assigned last in the file, which may be that of a later
    section). *)
Theorem section_variables_are_file_variables p name (s : env_state F) d :
  fst (read_env_section p name s) = Return d ->
  exists dall,
    fst (get_all_env_vars p s) = Return dall
    /\ forall k, lookup k d <> None -> lookup k dall <> None.
Proof.
  rewrite read_env_section_run, get_all_env_vars_run.
  destruct (path_exists p (files s)).
  - destruct (read_text p (files s)) as [text|e]; [|discriminate].
    rewrite read_all_loop_fold.
    rewrite read_section_loop_fold by apply section_marker_not_empty.
    intros Hd. inversion Hd as [Hd']. eexists. split; [reflexivity|].
    apply section_keys_among_all. auto.
  - intros Hd. inversion Hd. exists []. split; [reflexivity | auto].
Qed.

End AnyFileSystem.

Section LawfulFileSystem.

Context {F : Type} `{Lawful F}.

Lemma update_without_backup_run p name content (s s' : env_state F) :
  update_env_section p name content false s = (Return tt, s') ->
  exists L,
    well_formed L = true
    /\ (if path_exists p (files s)
        then exists text,
               read_text p (files s) = Return text
               /\ L = readlines (universal_newlines text)
        else L = [])
    /\ path_exists p (files s') = true
    /\ read_text p (files s')
       = Return (writelines (new_lines L name content)).
Proof.
  unfold update_env_section, open_lines, try_except, bind, exists_, on_files,
    echo, ret, raise.
  cbv beta. cbn [andb files clock printed].
  intros Hrun.
  assert (forall L f1 pr,
            (let (o1, s'1) :=
               let (o1, s'1) :=
                 let (r, fs) :=
                   write_text (with_suffix p ".tmp")
                     (writelines (new_lines L name content)) f1 in
                 (r, {| files := fs; clock := clock s; printed := pr |}) in
               match o1 with
               | Return _ =>
                   let (r, fs) :=
                     replace (with_suffix p ".tmp") p (files s'1) in
                   (r, {| files := fs; clock := clock s'1;
                          printed := printed s'1 |})
               | Raise e => (Raise e, s'1)
               end in
             match o1 with
             | Return a1 => (Return a1, s'1)
             | Raise e =>
                 let (o2, s'2) :=
                   (if path_exists (with_suffix p ".tmp") (files s'1)
                    then
                      fun s : env_state F =>
                        let (r, fs) :=
                          unlink (with_suffix p ".tmp") (files s) in
                        (r, {| files := fs; clock := clock s;
                               printed := printed s |})
                    else fun s : env_state F => (Return tt, s)) s'1 in
                 match o2 with
                 | Return _ => (Raise e, s'2)
                 | Raise e0 => (Raise e0, s'2)
                 end
             end) = (Return tt, s') ->
            path_exists p (files s') = true
            /\ read_text p (files s')
               = Return (writelines (new_lines L name content))) as Htail.
  { intros L f1 pr Hw.
    destruct (write_text (with_suffix p ".tmp")
                (writelines (new_lines L name content)) f1)
      as [[[]|e] fw] eqn:Ewrite; cbn [files clock printed] in Hw.
    - destruct (replace (with_suffix p ".tmp") p fw) as [[[]|e] f2] eqn:Ereplace;
        cbn [files clock printed] in Hw.
      + inversion Hw. cbn [files].
        exact (replace_installs _ _ _ _ _ _ Ewrite Ereplace).
      + destruct (path_exists (with_suffix p ".tmp") f2);
          cbn [files clock printed] in Hw;
          [destruct (unlink (with_suffix p ".tmp") f2) as [[[]|e'] f3]|];
          discriminate.
    - destruct (path_exists (with_suffix p ".tmp") fw);
        cbn [files clock printed] in Hw;
        [destruct (unlink (with_suffix p ".tmp") fw) as [[[]|e'] f3]|];
        discriminate. }
  destruct (path_exists p (files s)) eqn:Hex.
  - destruct (read_text p (files s)) as [text|e] eqn:Hread;
      [|discriminate].
    exists (readlines (universal_newlines text)).
    split; [apply well_formed_lines|].
    split; [exists text; now split|].
    exact (Htail _ _ _ Hrun).
  - exists []. split; [reflexivity|]. split; [reflexivity|].
    destruct s as [fs cl pr]. exact (Htail _ _ _ Hrun).
Qed.

Lemma update_env_section_run p name content backup (s s' : env_state F) :
  update_env_section p name content backup s = (Return tt, s') ->
  exists L,
    well_formed L = true
    /\ (if path_exists p (files s)
        then exists text,
               read_text p (files s) = Return text
               /\ L = readlines (universal_newlines text)
        else L = [])
    /\ path_exists p (files s') = true
    /\ read_text p (files s')
       = Return (writelines (new_lines L name content)).
Proof.
  destruct backup; [|apply update_without_backup_run].
  pose proof (update_without_backup_run p name content s s') as Hno.
  destruct (path_exists p (files s)) eqn:Hex.
  - clear Hno. set (bk := join (parent p)
                 (".env.backup." ++ strftime (clock s) "%Y%m%d_%H%M%S")).
    destruct (copy2 p bk (files s)) as [[[]|e] fc] eqn:Hcopy.
    + set (s1 := {| files := fc; clock := clock s;
                    printed := print (printed s)
                                 ("📁 Created backup: " ++ ".env.backup."
                                  ++ strftime (clock s) "%Y%m%d_%H%M%S") |}).
      assert (update_env_section p name content true s
              = update_env_section p name content false s1) as ->.
      { unfold update_env_section, bind, exists_, on_files, echo, ret.
        cbv beta. cbn [andb files clock printed]. rewrite Hex.
        fold bk. rewrite Hcopy. reflexivity. }
      intros Hrun. destruct (update_without_backup_run _ _ _ _ _ Hrun)
        as (L & Hwf & Hold & Hnew).
      exists L. split; [exact Hwf|]. split; [|exact Hnew].
      destruct (copy_keeps_source _ _ _ _ Hcopy) as [Hsame Hread].
      unfold s1 in Hold. cbn [files] in Hold.
      rewrite Hsame, Hex, Hread in Hold. exact Hold.
    + unfold update_env_section, bind, exists_, on_files, echo, ret.
      cbv beta. cbn [andb files clock printed]. rewrite Hex.
      fold bk. rewrite Hcopy. discriminate.
  - assert (update_env_section p name content true s
            = update_env_section p name content false s) as ->.
    { unfold update_env_section, bind, exists_, ret.
      cbv beta. rewrite Hex. reflexivity. }
    exact Hno.
Qed.

(** What is read from the file after an update: the lines written. *)
Lemma read_after_update p name name' content backup (s s' : env_state F) :
  all_chars plain name = true ->
  forallb (all_chars plain) content = true ->
  update_env_section p name content backup s = (Return tt, s') ->
  exists L,
    fst (read_env_section p name' s)
    = Return (snd (fold_left (section_step (section_marker name'))
                     (stripped L) (Outside, [])))
    /\ fst (read_env_section p name' s')
       = Return (snd (fold_left (section_step (section_marker name'))
                        (stripped (new_lines L name content)) (Outside, []))).
Proof.
  intros Hn Hc Hrun.
  destruct (update_env_section_run _ _ _ _ _ _ Hrun)
    as (L & Hwf & Hold & Hex' & Hread').
  exists L. split.
  - rewrite read_env_section_run.
    destruct (path_exists p (files s)).
    + destruct Hold as (text & -> & ->).
      now rewrite read_section_loop_fold by apply section_marker_not_empty.
    + now subst L.
  - rewrite read_env_section_run, Hex', Hread'.
    rewrite read_section_loop_fold by apply section_marker_not_empty.
    now rewrite (stripped_reread_new_lines _ _ _ Hwf Hn Hc).
Qed.

(** The docstring of [update_env_section] promises that the other sections
    are preserved.  They are, for a reader: after an update that returns,
    [read_env_section] gives for every other section what it gave before,
    whatever the file held (sections written twice, a last line without line
    feed, no file at all), with or without backup.  The name of the section
    and the lines of its content are taken without line feed or carriage
    return, and no line of the content reads as a section header. *)
Theorem other_sections_are_preserved p name name' content backup
    (s s' : env_state F) :
  name <> name' ->
  all_chars plain name = true ->
  forallb (all_chars plain) content = true ->
  forallb (fun l => negb (header_like l)) content = true ->
  update_env_section p name content backup s = (Return tt, s') ->
  fst (read_env_section p name' s') = fst (read_env_section p name' s).
Proof.
  intros Hne Hn Hc Hh Hrun.
  destruct (read_after_update p name name' content backup s s' Hn Hc Hrun)
    as (L & -> & ->).
  f_equal. exact (other_section_fold L name name' content Hne Hc Hh).
Qed.

(** Round trip: after an update that returns, [read_env_section] finds in the
    section every variable that the lines of the content assign, with the value
    assigned last.  The variables of the content are those [get_all_env_vars]
    reads from these lines alone. *)
Theorem updated_section_reads_back p name content backup (s s' : env_state F) :
  all_chars plain name = true ->
  forallb (all_chars plain) content = true ->
  forallb (fun l => negb (header_like l)) content = true ->
  update_env_section p name content backup s = (Return tt, s') ->
  exists d dc,
    fst (read_env_section p name s') = Return d
    /\ read_all_loop content [] = Return dc
    /\ forall k v, lookup k dc = Some v -> lookup k d = Some v.
Proof.
  intros Hn Hc Hh Hrun.
  destruct (read_after_update p name name content backup s s' Hn Hc Hrun)
    as (L & _ & ->).
  destruct (own_section_fold L name content Hc Hh) as (d0 & Hd0 & _).
  exists (fold_left all_step (stripped content) d0).
  exists (fold_left all_step (stripped content) []).
  split; [f_equal; exact Hd0|].
  split; [apply read_all_loop_fold|].
  apply fold_all_step_lookup. discriminate.
Qed.

(** A section that held no variable, or was not there, holds after the update
    the variables of the content and no other. *)
Theorem new_section_holds_the_content p name content backup
    (s s' : env_state F) :
  all_chars plain name = true ->
  forallb (all_chars plain) content = true ->
  forallb (fun l => negb (header_like l)) content = true ->
  fst (read_env_section p name s) = Return [] ->
  update_env_section p name content backup s = (Return tt, s') ->
  fst (read_env_section p name s') = read_all_loop content [].
Proof.
  intros Hn Hc Hh Hempty Hrun.
  destruct (read_after_update p name name content backup s s' Hn Hc Hrun)
    as (L & Hold & ->).
  rewrite Hold in Hempty. injection Hempty as Hnil.
  destruct (own_section_fold L name content Hc Hh) as (d0 & Hd0 & Hfresh).
  rewrite read_all_loop_fold. f_equal.
  pose proof (Hfresh Hnil) as Hz. subst d0. exact Hd0.
Qed.

End LawfulFileSystem.

Section SeparateFileSystem.

Context {F : Type} `{FileSystem F} {lawful : Lawful F} {separate : Separate F}.

Lemma failed_update_without_backup p name content (s s' : env_state F) e :
  with_suffix p ".tmp" <> p ->
  update_env_section p name content false s = (Raise e, s') ->
  path_exists p (files s') = path_exists p (files s)
  /\ read_text p (files s') = read_text p (files s).
Proof.
  intros Htmp.
  unfold update_env_section, open_lines, try_except, bind, exists_, on_files,
    echo, ret, raise.
  cbv beta. cbn [andb files clock printed].
  intros Hrun.
  assert (forall f (s1 : env_state F) e1,
            (let (o2, s'2) :=
               (if path_exists (with_suffix p ".tmp") (files s1)
                then
                  fun s : env_state F =>
                    let (r, fs) := unlink (with_suffix p ".tmp") (files s) in
                    (r, {| files := fs; clock := clock s;
                           printed := printed s |})
                else fun s : env_state F => (Return tt, s)) s1 in
             match o2 with
             | Return _ => (Raise e1, s'2)
             | Raise e0 => (Raise e0, s'2)
             end) = (@Raise unit e, s') ->
            path_exists p (files s1) = path_exists p f ->
            read_text p (files s1) = read_text p f ->
            path_exists p (files s') = path_exists p f
            /\ read_text p (files s') = read_text p f) as Hcleanup.
  { intros f s1 e1 Hc Hex1 Hread1.
    destruct (path_exists (with_suffix p ".tmp") (files s1)).
    - destruct (unlink (with_suffix p ".tmp") (files s1)) as [r f3] eqn:Eunlink.
      destruct (unlink_keeps_others _ _ _ _ _ Htmp Eunlink) as [Hex3 Hread3].
      destruct r as [[]|e3]; inversion Hc; cbn [files];
        now rewrite Hex3, Hread3.
    - inversion Hc. subst s1. now split. }
  assert (forall L f1 pr,
            (let (o1, s'1) :=
               let (o1, s'1) :=
                 let (r, fs) :=
                   write_text (with_suffix p ".tmp")
                     (writelines (new_lines L name content)) f1 in
                 (r, {| files := fs; clock := clock s; printed := pr |}) in
               match o1 with
               | Return _ =>
                   let (r, fs) :=
                     replace (with_suffix p ".tmp") p (files s'1) in
                   (r, {| files := fs; clock := clock s'1;
                          printed := printed s'1 |})
               | Raise e => (Raise e, s'1)
               end in
             match o1 with
             | Return a1 => (Return a1, s'1)
             | Raise e =>
                 let (o2, s'2) :=
                   (if path_exists (with_suffix p ".tmp") (files s'1)
                    then
                      fun s : env_state F =>
                        let (r, fs) :=
                          unlink (with_suffix p ".tmp") (files s) in
                        (r, {| files := fs; clock := clock s;
                               printed := printed s |})
                    else fun s : env_state F => (Return tt, s)) s'1 in
                 match o2 with
                 | Return _ => (Raise e, s'2)
                 | Raise e0 => (Raise e0, s'2)
                 end
             end) = (Raise e, s') ->
            path_exists p (files s') = path_exists p f1
            /\ read_text p (files s') = read_text p f1) as Htail.
  { intros L f1 pr Hw.
    destruct (write_text (with_suffix p ".tmp")
                (writelines (new_lines L name content)) f1)
      as [rw fw] eqn:Ewrite.
    destruct (write_keeps_others _ _ _ _ _ _ Htmp Ewrite) as [Hexw Hreadw].
    destruct rw as [[]|ew]; cbn [files clock printed] in Hw.
    - destruct (replace (with_suffix p ".tmp") p fw) as [[[]|er] f2] eqn:Ereplace;
        cbn [files clock printed] in Hw; [discriminate|].
      destruct (failed_replace_keeps_target _ _ _ _ _ Ereplace) as [Hex2 Hread2].
      apply (Hcleanup f1 _ _ Hw); cbn [files]; congruence.
    - apply (Hcleanup f1 _ _ Hw); cbn [files]; congruence. }
  destruct (path_exists p (files s)) eqn:Hex.
  - destruct (read_text p (files s)) as [text|er] eqn:Hread.
    + destruct (Htail _ _ _ Hrun) as [Hex' Hread']. now rewrite Hex', Hread'.
    + injection Hrun as He Hs. subst. now split.
  - destruct s as [fs cl pr]. cbn [files clock printed] in *.
    destruct (Htail _ _ _ Hrun) as [Hex' Hread']. now rewrite Hex', Hread'.
Qed.

(** The file is written through a temporary file and moved: an update that
    raises, whatever the step that failed (the backup, the reading, the
    writing, the move, or the removal of the temporary file), leaves the file
    as it was, provided the temporary path is another path. *)
Theorem failed_update_leaves_the_file p name content backup
    (s s' : env_state F) e :
  with_suffix p ".tmp" <> p ->
  update_env_section p name content backup s = (Raise e, s') ->
  path_exists p (files s') = path_exists p (files s)
  /\ read_text p (files s') = read_text p (files s).
Proof.
  intros Htmp.
  destruct backup; [|now apply failed_update_without_backup].
  pose proof (failed_update_without_backup p name content s s' e Htmp) as Hno.
  destruct (path_exists p (files s)) eqn:Hex.
  - clear Hno. set (bk := join (parent p)
                 (".env.backup." ++ strftime (clock s) "%Y%m%d_%H%M%S")).
    destruct (copy2 p bk (files s)) as [[[]|ec] fc] eqn:Hcopy.
    + set (s1 := {| files := fc; clock := clock s;
                    printed := print (printed s)
                                 ("📁 Created backup: " ++ ".env.backup."
                                  ++ strftime (clock s) "%Y%m%d_%H%M%S") |}).
      assert (update_env_section p name content true s
              = update_env_section p name content false s1) as ->.
      { unfold update_env_section, bind, exists_, on_files, echo, ret.
        cbv beta. cbn [andb files clock printed]. rewrite Hex.
        fold bk. rewrite Hcopy. reflexivity. }
      intros Hrun.
      destruct (failed_update_without_backup _ _ _ _ _ _ Htmp Hrun)
        as [Hex' Hread'].
      destruct (copy_keeps_source _ _ _ _ Hcopy) as [Hsame Hread].
      unfold s1 in Hex', Hread'. cbn [files] in Hex', Hread'.
      rewrite Hex', Hread', Hsame, Hread, Hex. now split.
    + unfold update_env_section, bind, exists_, on_files, echo, ret.
      cbv beta. cbn [andb files clock printed]. rewrite Hex.
      fold bk. rewrite Hcopy. intros Hrun. inversion Hrun. cbn [files].
      destruct (failed_copy_keeps_source _ _ _ _ _ Hcopy) as [Hsame Hread].
      now rewrite Hsame, Hread, Hex.
  - assert (update_env_section p name content true s
            = update_env_section p name content false s) as ->.
    { unfold update_env_section, bind, exists_, ret.
      cbv beta. rewrite Hex. reflexivity. }
    exact Hno.
Qed.

End SeparateFileSystem.

(** The file system of the concrete runs keeps the laws. *)
Lemma lookup_mem_set_same p text (fs : mem_files) :
  lookup p (mem_set p text fs) = Some text.
Proof. unfold mem_set. cbn [lookup]. now rewrite String.eqb_refl. Qed.

Lemma lookup_filter_other p q (fs : mem_files) :
  String.eqb q p = false ->
  lookup p (filter (fun f => negb (String.eqb (fst f) q)) fs) = lookup p fs.
Proof.
  intros Hne. induction fs as [|[k v] fs IH]; [reflexivity|].
  cbn [filter fst lookup]. destruct (String.eqb k q) eqn:Ek; cbn [negb].
  - apply String.eqb_eq in Ek. subst k. now rewrite Hne.
  - cbn [lookup]. now rewrite IH.
Qed.

Lemma mem_fs_lawful : @Lawful mem_files mem_fs.
Proof.
  split.
  - intros tmp p text f f1 f2 Hw Hr. cbn in Hw, Hr |- *.
    inversion Hw. subst f1. rewrite lookup_mem_set_same in Hr.
    inversion Hr. now rewrite lookup_mem_set_same.
  - intros src dst f f1 Hcopy. cbn in Hcopy |- *.
    destruct (lookup src f) as [text|] eqn:Hsrc; [|discriminate].
    inversion Hcopy. unfold mem_set. cbn [lookup].
    destruct (String.eqb dst src) eqn:E; [now split|].
    rewrite (lookup_filter_other _ _ _ E), Hsrc. now split.
Qed.

Lemma readers_return_on_any_text_witness :
  (exists d, fst (@read_env_section _ mem_fs ".env" "NOTES" deployed) = Return d)
  /\ (exists d, fst (@get_all_env_vars _ mem_fs ".env" deployed) = Return d).
Proof.
  apply (@readers_return_on_any_text _ mem_fs ".env" "NOTES" deployed auth_env).
  reflexivity.
Defined.

Lemma section_variables_are_file_variables_witness :
  exists dall,
    fst (@get_all_env_vars _ mem_fs ".env" deployed) = Return dall
    /\ forall k,
         lookup k [("COGNITO_USER_POOL_ID", "us-west-2_Ab12");
                   ("COGNITO_DOMAIN ", " auth.example.com")] <> None ->
         lookup k dall <> None.
Proof.
  apply (@section_variables_are_file_variables _ mem_fs ".env" "AUTHENTICATION"
           deployed).
  reflexivity.
Defined.

Lemma other_sections_are_preserved_witness :
  fst (@read_env_section _ mem_fs ".env" "NOTES"
         (snd (@update_env_section _ mem_fs ".env" "PHASE1_RUNTIME"
                 runtime_content true deployed)))
  = fst (@read_env_section _ mem_fs ".env" "NOTES" deployed).
Proof.
  apply (@other_sections_are_preserved _ mem_fs mem_fs_lawful ".env"
           "PHASE1_RUNTIME" "NOTES" runtime_content true deployed);
    [discriminate | reflexivity | reflexivity | reflexivity | reflexivity].
Defined.

Lemma updated_section_reads_back_witness :
  exists d dc,
    fst (@read_env_section _ mem_fs ".env" "NOTES"
           (snd (@update_env_section _ mem_fs ".env" "NOTES"
                   runtime_content true deployed))) = Return d
    /\ read_all_loop runtime_content [] = Return dc
    /\ forall k v, lookup k dc = Some v -> lookup k d = Some v.
Proof.
  apply (@updated_section_reads_back _ mem_fs mem_fs_lawful ".env" "NOTES"
           runtime_content true deployed); reflexivity.
Defined.

Lemma new_section_holds_the_content_witness :
  fst (@read_env_section _ mem_fs ".env" "PHASE1_RUNTIME"
         (snd (@update_env_section _ mem_fs ".env" "PHASE1_RUNTIME"
                 runtime_content false deployed)))
  = read_all_loop runtime_content [].
Proof.
  apply (@new_section_holds_the_content _ mem_fs mem_fs_lawful ".env"
           "PHASE1_RUNTIME" runtime_content false deployed); reflexivity.
Defined.

Lemma read_only_fs_lawful : @Lawful mem_files read_only_fs.
Proof. split; intros; discriminate. Qed.

Lemma read_only_fs_separate : @Separate mem_files read_only_fs.
Proof.
  split; cbn; intros;
    match goal with
    | Heq : (_, _) = (_, _) |- _ => inversion Heq; subst; now split
    end.
Qed.

Lemma failed_update_leaves_the_file_witness :
  @path_exists _ read_only_fs ".env"
    (files (snd (@update_env_section _ read_only_fs ".env" "PHASE1_RUNTIME"
                   runtime_content false deployed)))
  = @path_exists _ read_only_fs ".env" (files deployed)
  /\ @read_text _ read_only_fs ".env"
       (files (snd (@update_env_section _ read_only_fs ".env" "PHASE1_RUNTIME"
                      runtime_content false deployed)))
     = @read_text _ read_only_fs ".env" (files deployed).
Proof.
  apply (@failed_update_leaves_the_file _ read_only_fs read_only_fs_lawful
           read_only_fs_separate ".env" "PHASE1_RUNTIME" runtime_content false
           deployed _ (denied ".env.tmp")); [discriminate | reflexivity].
Defined.

End EnvUtilsFacts.

(** ** [test_runtime.py]: the configuration *)

Module TestRuntimeFacts.
Import EnvUtils EnvUtilsFacts TestRuntime.

Lemma contains_cons c t :
  contains "=" (String c t) = Ascii.eqb "=" c || contains "=" t.
Proof. cbn [contains]. now rewrite prefix_cons, prefix_nil, andb_true_r. Qed.

Lemma contains_lstrip s :
  contains "=" s = true -> contains "=" (lstrip s) = true.
Proof.
  induction s as [|c s IH]; intros H; [exact H|].
  cbn [lstrip]. destruct (isspace c) eqn:Hc; [|exact H].
  rewrite contains_cons in H. apply orb_true_iff in H as [H|H]; [|exact (IH H)].
  apply Ascii.eqb_eq in H. subst c. discriminate.
Qed.

Lemma contains_rstrip s :
  contains "=" s = true -> contains "=" (rstrip s) = true.
Proof.
  induction s as [|c s IH]; intros H; [exact H|].
  rewrite contains_cons in H. cbn [rstrip].
  apply orb_true_iff in H as [H|H].
  - apply Ascii.eqb_eq in H. subst c.
    rewrite andb_false_r. now rewrite contains_cons.
  - specialize (IH H). destruct (rstrip s) as [|c' r]; [discriminate|].
    cbn [is_empty andb]. rewrite contains_cons, IH. apply orb_true_r.
Qed.

Lemma contains_strip s :
  contains "=" s = true -> contains "=" (strip s) = true.
Proof. intros H. now apply contains_lstrip, contains_rstrip. Qed.

Lemma load_lines_fold lines config :
  load_lines lines config = Return (fold_left load_step lines config).
Proof.
  revert config. induction lines as [|l lines IH]; intros config; [reflexivity|].
  cbn [load_lines fold_left]. unfold load_step at 2.
  destruct (contains "=" l) eqn:Hc; cbn [andb]; [|apply IH].
  destruct (negb (startswith l "#")); [|apply IH].
  rewrite (parse_assignment_returns _ (contains_strip _ Hc)).
  destruct (assignment (strip l)) as [key value]. apply IH.
Qed.

Lemma contains_add_nl l : contains "=" (l ++ nl) = contains "=" l.
Proof.
  induction l as [|c l IH]; [reflexivity|].
  cbn [String.append]. now rewrite !contains_cons, IH.
Qed.

Lemma load_step_add_nl config l : load_step config (l ++ nl) = load_step config l.
Proof.
  unfold load_step, startswith. rewrite contains_add_nl, strip_nl.
  destruct l as [|c l]; [reflexivity|].
  cbn [String.append]. now rewrite !prefix_cons, !prefix_nil.
Qed.

Lemma load_content content config :
  fold_left load_step (map (fun l => (l ++ nl)%string) content) config
  = fold_left load_step content config.
Proof.
  revert config. induction content as [|l content IH]; intros config;
    [reflexivity|].
  cbn [map fold_left]. now rewrite load_step_add_nl, IH.
Qed.

Lemma load_step_keeps_keys d l k :
  lookup k d <> None -> lookup k (load_step d l) <> None.
Proof.
  unfold load_step. destruct (_ && _); [|auto].
  rewrite lookup_dict_set. destruct (String.eqb _ k); [discriminate | auto].
Qed.

Lemma load_keeps_keys ls d k :
  lookup k d <> None -> lookup k (fold_left load_step ls d) <> None.
Proof.
  revert d. induction ls as [|l ls IH]; intros d H; [exact H|].
  cbn [fold_left]. now apply IH, load_step_keeps_keys.
Qed.

Lemma load_step_keys d1 d2 l :
  (forall k, lookup k d1 <> None -> lookup k d2 <> None) ->
  forall k, lookup k (load_step d1 l) <> None ->
            lookup k (load_step d2 l) <> None.
Proof.
  intros H k. unfold load_step. destruct (_ && _); [|apply H].
  rewrite !lookup_dict_set. destruct (String.eqb _ k); [auto | apply H].
Qed.

Lemma load_keys ls d1 d2 :
  (forall k, lookup k d1 <> None -> lookup k d2 <> None) ->
  forall k, lookup k (fold_left load_step ls d1) <> None ->
            lookup k (fold_left load_step ls d2) <> None.
Proof.
  revert d1 d2. induction ls as [|l ls IH]; intros d1 d2 H; [exact H|].
  cbn [fold_left]. apply IH. now apply load_step_keys.
Qed.

(** The lines of the content are lines of the file written. *)
Lemma reread_new_lines_content L name content :
  well_formed L = true ->
  all_chars plain name = true ->
  forallb (all_chars plain) content = true ->
  exists A B,
    readlines (universal_newlines (writelines (new_lines L name content)))
    = (A ++ map (fun l => (l ++ nl)%string) content ++ B)%list.
Proof.
  intros HL Hn Hc.
  pose proof (terminated_section name content Hn Hc) as Hsec.
  destruct (new_lines_cases L name content Hc)
    as [[_ ->] | (pre & mline & mid & post & HLeq & _ & _ & _ & _ & ->)].
  - set (M := section_marker name) in *.
    set (C := map (fun l => (l ++ nl)%string) content) in *.
    set (after := match content with [] => [] | _ :: _ => [nl] end) in *.
    destruct L as [|l0 L'].
    + cbn [List.app]. rewrite (reread _ (well_formed_terminated _ Hsec)).
      now exists [(M ++ nl)%string], after.
    + set (E := l0 :: L') in *.
      assert (E <> []) as HE by discriminate.
      rewrite (app_removelast_last EmptyString HE) in HL.
      apply well_formed_last in HL as [Hls [Ht|Ht]].
      * assert (forallb terminated E = true) as HEt.
        { rewrite (app_removelast_last EmptyString HE), forallb_app, Hls.
          cbn [forallb]. now rewrite Ht. }
        rewrite reread.
        -- match goal with
           | |- context [(E ++ ?sep ++ _ :: _)%list] =>
               exists (E ++ sep ++ [(M ++ nl)%string])%list, after
           end.
           rewrite <- !app_assoc. reflexivity.
        -- apply well_formed_terminated, forallb_terminated_app; [exact HEt|].
           apply forallb_terminated_app; [|exact Hsec].
           destruct (negb _); reflexivity.
      * pose proof (app_removelast_last EmptyString HE) as HEq.
        set (ls := removelast E) in *. set (t := last E EmptyString) in *.
        cbn [forallb] in Hsec. apply andb_true_iff in Hsec as [HsM Hsrest].
        destruct (negb (String.eqb (strip t) EmptyString)).
        -- exists (ls ++ [(t ++ nl)%string; (M ++ nl)%string])%list, after.
           rewrite HEq, <- !app_assoc. cbn [List.app].
           rewrite reread_joined; auto.
           cbn [forallb]. now rewrite HsM, Hsrest.
        -- exists (ls ++ [(t ++ (M ++ nl))%string])%list, after.
           rewrite HEq, <- !app_assoc. cbn [List.app].
           rewrite reread_joined; auto.
  - rewrite reread.
    + exists (pre ++ [(section_marker name ++ nl)%string])%list.
      exists (match content with [] => [] | _ :: _ => [nl] end ++ post)%list.
      cbn [List.app]. rewrite <- !app_assoc. reflexivity.
    + assert (forallb terminated pre = true /\ well_formed post = true)
        as [Hpre Hpost].
      { rewrite HLeq in HL. split.
        - now apply well_formed_app_inv in HL as [? _].
        - replace (pre ++ mline :: mid ++ post)%list
            with ((pre ++ mline :: mid) ++ post)%list in HL
            by (now rewrite <- app_assoc).
          exact (well_formed_suffix _ _ HL). }
      apply well_formed_app; [exact Hpre|].
      apply well_formed_app; [exact Hsec | exact Hpost].
Qed.

Section LawfulFileSystem.

Context {F : Type} `{Lawful F}.

Lemma load_file_run env_file config (s : env_state F) :
  load_file env_file config s
  = (if path_exists env_file (files s)
     then match read_text env_file (files s) with
          | Return text =>
              load_lines (readlines (universal_newlines text)) config
          | Raise e => Raise e
          end
     else Return config, s).
Proof.
  unfold load_file, open_lines, bind, exists_, ret, lift. cbv beta.
  destruct (path_exists env_file (files s)); [|reflexivity].
  destruct (read_text env_file (files s)) as [text|e]; reflexivity.
Qed.

Lemma load_files_state env_files config (s : env_state F) :
  snd (load_files env_files config s) = s.
Proof.
  revert config. induction env_files as [|p ps IH]; intros config;
    [reflexivity|].
  cbn [load_files]. unfold bind. rewrite load_file_run.
  match goal with
  | |- context [match ?X with _ => _ end] => destruct X as [c|e]
  end; [apply IH | reflexivity].
Qed.

Lemma load_files_last p q config (s s2 : env_state F) c :
  load_files [p; q] config s = (Return c, s2) ->
  exists config', fst (load_file q config' s) = Return c.
Proof.
  cbn [load_files]. unfold bind, ret. rewrite (load_file_run p).
  match goal with
  | |- context [match ?X with _ => _ end] => destruct X as [c1|e]
  end; [|discriminate].
  rewrite load_file_run.
  match goal with
  | |- context [match ?X with _ => _ end] => destruct X as [c2|e] eqn:E
  end; [|discriminate].
  intros Heq. injection Heq as Hc2 _. subst c2. exists c1.
  rewrite load_file_run. exact E.
Qed.

(** What the deployment scripts save, the test client loads: after an
    update of the file [.env] beside the script that returns, every variable
    that the lines of the content assign is a key of the configuration, in
    whatever section they were written and whatever the other files hold.
    (Its value is the one assigned last in the file.) *)
Theorem saved_variables_are_loaded this_file name content backup
    (s s' s'' : env_state F) config dc :
  all_chars plain name = true ->
  forallb (all_chars plain) content = true ->
  update_env_section (join (parent this_file) ".env") name content backup s
  = (Return tt, s') ->
  load_configuration this_file s' = (Return config, s'') ->
  load_lines content [] = Return dc ->
  forall k, lookup k dc <> None -> lookup k config <> None.
Proof.
  intros Hn Hc Hrun Hload Hdc.
  destruct (update_env_section_run _ _ _ _ _ _ Hrun)
    as (L & Hwf & _ & Hex' & Hread').
  destruct (reread_new_lines_content L name content Hwf Hn Hc)
    as (A & B & Hlines).
  unfold load_configuration in Hload. unfold bind at 1 in Hload.
  match type of Hload with
  | context [load_files ?ps ?c s'] =>
      pose proof (load_files_state ps c s') as Hs1;
      destruct (load_files ps c s') as [[c1|e] s1]
  end; [|discriminate].
  cbn [snd] in Hs1. subst s1. unfold bind at 1 in Hload.
  match type of Hload with
  | context [load_files ?ps ?c s'] =>
      destruct (load_files ps c s') as [[c2|e] s2] eqn:Hlast
  end; [|discriminate].
  unfold ret in Hload. inversion Hload. subst c2 s2.
  destruct (load_files_last _ _ _ _ _ _ Hlast) as (d' & Hfile).
  rewrite load_file_run, Hex', Hread', Hlines, load_lines_fold in Hfile.
  cbn [fst] in Hfile. injection Hfile as Hconfig.
  rewrite load_lines_fold in Hdc. injection Hdc as Hdc.
  subst config dc. rewrite !fold_left_app, load_content.
  intros k Hk. apply load_keeps_keys.
  revert Hk. apply load_keys. intros k' Hk'. now contradict Hk'.
Qed.

End LawfulFileSystem.

Lemma saved_variables_are_loaded_witness :
  lookup "AGENTCORE_RUNTIME_ARN_SIMPLE"
    [("AGENTCORE_RUNTIME_ARN_SIMPLE", "arn:aws:bedrock:runtime/simple");
     ("REGION", "eu-west-1")] <> None
  /\ lookup "AGENTCORE_RUNTIME_ARN_SIMPLE"
       [("AGENTCORE_RUNTIME_ARN_SIMPLE", "arn:aws:bedrock:runtime/simple");
        ("REGION", "us-west-2")] <> None.
Proof.
  split; [discriminate|].
  apply (@saved_variables_are_loaded _ mem_fs mem_fs_lawful "test_runtime.py"
           "AUTHENTICATION" runtime_content true deployed
           (snd (@update_env_section _ mem_fs ".env" "AUTHENTICATION"
                   runtime_content true deployed))
           (snd (@update_env_section _ mem_fs ".env" "AUTHENTICATION"
                   runtime_content true deployed))
           [("AGENTCORE_RUNTIME_ARN_SIMPLE", "arn:aws:bedrock:runtime/simple");
            ("REGION", "us-west-2")]
           [("AGENTCORE_RUNTIME_ARN_SIMPLE", "arn:aws:bedrock:runtime/simple");
            ("REGION", "eu-west-1")]);
    [reflexivity | reflexivity | reflexivity | reflexivity | reflexivity
    | discriminate].
Defined.

End TestRuntimeFacts.
